(** * REAINO demo timeline engine (src/src/App.tsx)

    A shallow embedding of the scripted, time-driven engine of the
    [ReainoEbmPapstDemo] component: the demo clock, the stage progress
    function, the agent projector, the artifact and bus emitters, the KPI
    projector and the deploy gate.

    Numbers.  The demo clock only ever holds integers (it starts at [0], a
    tick stores [prev + 1], a jump stores [Math.max(t, 160)] or
    [Math.max(t, 120)]), so the clock, versions, progress and confidence are
    in [Z].  [stageProgress] rounds a product of doubles whose last bit
    decides the result, so its division, its multiplication and its
    [Math.round] are computed on IEEE binary64 values ([spec_float]).  The
    fractions of the KPI projector, of the prompt and of the confidence bar
    ([clamp], [lerp]) are exact rationals [Q]; the KPI values, which add a
    [Math.sin] term, are real numbers [R].

    Effects.  React runs every [useEffect] whose dependency [t] changed after
    the render that changed it; [effects t] is that batch of effects, and
    each command of the component ([tick], the two jumps, [resetDemo],
    [promote], ...) is a function on the engine state.  The artifact store is
    a JavaScript object indexed by string; reading [.version] of a missing
    entry throws, which is the [None] of the [option] results below. *)

From Stdlib Require Import SpecFloat ZArith QArith Qround Qminmax Reals Qreals Psatz Lia.
From stdpp Require Import base option list strings pretty gmap.

Local Open Scope Z_scope.

(** ** Types of the component

    Fields carry the names of the source.  Where two types share a field
    name ([key], [label], [sev], [t]) or the name is taken ([id], [name]),
    the field is prefixed with its type; the clock [t] of the component is
    the field [time] of the engine state. *)

Inductive AgentStatus : Set :=
| Queued | Planning | Running | NeedsReview | Done | Failed.

Inductive Severity : Set := info | warn | ok.

Inductive Bus : Set := ModbusTCP | OPCUA | MQTT | TimescaleDB.

Inductive Trend : Set := up | down | flat.

Inductive DeployStage : Set := Draft | Staging | Prod.

Record Agent : Type := mkAgent {
  agent_id : string;
  agent_name : string;
  status : AgentStatus;
  progress : Z;
  outputArtifacts : list string;
  logs : list string
}.

Record DiffLine : Type := mkDiff { diff_sev : Severity; diff_text : string }.

Record Artifact : Type := mkArtifact {
  art_key : string;
  label : string;
  kind : string;
  version : Z;
  lastUpdatedSec : Z;
  summary : string;
  diffLines : list DiffLine
}.

Record BusEvent : Type := mkBusEvent {
  ev_t : Z;
  ev_bus : Bus;
  ev_sev : Severity;
  ev_msg : string
}.

Record KPI : Type := mkKPI {
  kpi_key : string;
  kpi_label : string;
  unit : option string;
  value : option R;
  target : option R;
  trend : Trend;
  confidence : Z
}.

(** ** Numeric helpers *)

(** [clamp(x, a, b) = Math.max(a, Math.min(b, x))]. *)
Definition clamp (x a b : Q) : Q := Qmax a (Qmin b x).

(** [lerp(a, b, t) = a + (b - a) * t], on rationals and on reals. *)
Definition lerp (a b t : Q) : Q := (a + (b - a) * t)%Q.

Definition lerpR (a b t : R) : R := (a + (b - a) * t)%R.

(** [Math.round]: the nearest integer, halves rounded up. *)
Definition Math_round (x : Q) : Z := Qfloor (x + (1 # 2)).

Definition Qltb (x y : Q) : bool := negb (Qle_bool y x).

(** ** Doubles

    JavaScript numbers are IEEE binary64 values: precision 53, exponents
    below 1024.  The operations are those of the standard library's
    executable specification of IEEE 754 arithmetic, rounding to nearest,
    ties to even. *)

Definition f64_prec : Z := 53.
Definition f64_emax : Z := 1024.

(** The double nearest an integer; integers up to 2^53 in size are exact. *)
Definition f64_of_Z (z : Z) : spec_float := binary_normalize f64_prec f64_emax z 0 false.

Definition f64_div : spec_float -> spec_float -> spec_float := SFdiv f64_prec f64_emax.
Definition f64_mul : spec_float -> spec_float -> spec_float := SFmul f64_prec f64_emax.
Definition f64_sub : spec_float -> spec_float -> spec_float := SFsub f64_prec f64_emax.

(** [Math.max] and [Math.min] of two numbers: NaN if either is NaN, and
    [-0] counts as smaller than [+0]. *)
Definition Math_max (x y : spec_float) : spec_float :=
  match SFcompare x y with
  | None => S754_nan
  | Some Gt => x
  | Some Lt => y
  | Some Eq => match x with S754_zero true => y | _ => x end
  end.

Definition Math_min (x y : spec_float) : spec_float :=
  match SFcompare x y with
  | None => S754_nan
  | Some Lt => x
  | Some Gt => y
  | Some Eq => match x with S754_zero false => y | _ => x end
  end.

(** [clamp] on doubles, as [stageProgress] calls it. *)
Definition clamp_f64 (x a b : spec_float) : spec_float := Math_max a (Math_min b x).

(** [Math.round] of a double: [floor(x + 1/2)], computed exactly from the
    mantissa and the exponent.  An infinity or NaN, which [Math.round]
    returns unchanged, has no integer to stand for it and is sent to [0];
    [stageProgress] produces neither for a window with [start < end]. *)
Definition Math_round_f64 (x : spec_float) : Z :=
  match x with
  | S754_finite s m e =>
      let n := if s then Z.neg m else Z.pos m in
      match e with
      | Z.neg k => (2 * n + Z.pow_pos 2 k) / Z.pow_pos 2 (Pos.succ k)
      | _ => n * 2 ^ e
      end
  | _ => 0
  end.

(** ** Stage progress and status

    In the source both functions are closures over the current time [t];
    here [t] is their first argument.  The time and the window bounds are
    integers, which doubles hold exactly, so the two comparisons and the two
    differences of [stageProgress] are those of [Z]; the quotient, the
    product with 100 and the rounding are the double operations.  At
    [t = 78] in the window [55, 95] the quotient is 0.575, the product
    57.49999999999999 and the progress 57. *)

Definition stageProgress (t start end_ : Z) : Z :=
  if t <? start then 0
  else if end_ <? t then 100
  else Math_round_f64
         (f64_mul
            (clamp_f64 (f64_div (f64_of_Z (t - start)) (f64_of_Z (end_ - start)))
                       (f64_of_Z 0) (f64_of_Z 1))
            (f64_of_Z 100)).

(** The same function with the comparisons and the differences on doubles
    as well, the way the source text reads; [stageProgress_f64_timeline]
    shows the two agree on the windows of the timeline at every second of
    the run. *)
Definition stageProgress_f64 (t start end_ : spec_float) : Z :=
  if SFltb t start then 0
  else if SFltb end_ t then 100
  else Math_round_f64
         (f64_mul (clamp_f64 (f64_div (f64_sub t start) (f64_sub end_ start))
                             (f64_of_Z 0) (f64_of_Z 1))
                  (f64_of_Z 100)).

Definition computeStatus (t : Q) (p : Z) (start end_ : Q) : AgentStatus :=
  if Qltb t start then Queued
  else if (0 <? p) && (p <? 20) then Planning
  else if (20 <=? p) && (p <? 95) then Running
  else if (95 <=? p) && Qltb t end_ then NeedsReview
  else if Qle_bool end_ t then Done
  else Queued.

(** ** Timeline table ([timeline], a [useMemo] constant) *)

Record Timeline : Set := mkTimeline {
  promptStart : Z; promptEnd : Z;
  specStart : Z; specEnd : Z;
  topoStart : Z; topoEnd : Z;
  connStart : Z; connEnd : Z;
  derStart : Z; derEnd : Z;
  kpiStart : Z; kpiEnd : Z;
  viewStart : Z; viewEnd : Z;
  valStart : Z; valEnd : Z;
  deployReady : Z
}.

Definition timeline : Timeline := {|
  promptStart := 0; promptEnd := 14;
  specStart := 6; specEnd := 32;
  topoStart := 16; topoEnd := 40;
  connStart := 30; connEnd := 74;
  derStart := 55; derEnd := 95;
  kpiStart := 70; kpiEnd := 120;
  viewStart := 95; viewEnd := 140;
  valStart := 130; valEnd := 160;
  deployReady := 160
|}.

Definition duration : Z := 180.

(** ** Text helpers *)

Fixpoint repeatString (n : nat) (s : string) : string :=
  match n with
  | O => ""
  | S n' => s +:+ repeatString n' s
  end.

(** [s.padStart(targetLength, padString)]. *)
Definition padStart (targetLength : nat) (padString : string) (s : string) : string :=
  let fill := (targetLength - String.length s)%nat in
  String.substring 0 fill (repeatString fill padString) +:+ s.

(** [formatSec]: [mm:ss], both parts padded to two digits.  On the integer
    clock [Math.floor(s / 60)] is [Z.div] and [s % 60] is [Z.rem]. *)
Definition formatSec (s : Z) : string :=
  let mm := s / 60 in
  let ss := Z.rem s 60 in
  padStart 2 "0" (pretty mm) +:+ ":" +:+ padStart 2 "0" (pretty ss).

(** ** Agent state projector (the [setAgents] updater) *)

(** [xs.includes(t)] *)
Definition includes (xs : list Z) (t : Z) : bool := existsb (Z.eqb t) xs.

Definition shouldLog (id : string) (t : Z) : bool :=
  (String.eqb id "spec" && includes [10; 18; 26; 32] t) ||
  (String.eqb id "conn" && includes [40; 52; 68; 74] t) ||
  (String.eqb id "kpi" && includes [76; 90; 108; 120] t) ||
  (String.eqb id "view" && includes [104; 118; 132; 140] t) ||
  (String.eqb id "val" && includes [136; 148; 160] t).

Definition logLine (id : string) (t : Z) : string :=
  if String.eqb id "spec" then
    if t =? 10 then "Parsing prompt → selecting template: CabinetCooling.EC2"
    else if t =? 18 then "Creating assets: Fan_A, Fan_B, Cabinet, PLC_Gateway"
    else if t =? 26 then "Setting parameters: variable_speed, monthly_kpis=true"
    else "Manifest compiled (draft v1)"
  else if String.eqb id "conn" then
    if t =? 40 then "Browsing Modbus registers…"
    else if t =? 52 then "Binding MQTT faults topic → twin.faults"
    else if t =? 68 then "Creating rollups: 1s→1m→1h"
    else "Bindings compiled (draft v1)"
  else if String.eqb id "kpi" then
    if t =? 76 then "Selecting KPI pack: Energy + Efficiency + Utilization + Risk"
    else if t =? 90 then "Defining monthly windows + baselines"
    else if t =? 108 then "Adding confidence scoring and thresholds"
    else "KPI pack compiled (draft v1)"
  else if String.eqb id "view" then
    if t =? 104 then "Generating 3D layout + AR anchors"
    else if t =? 118 then "Placing labels: RPM, kW, Status"
    else if t =? 132 then "Exporting Web viewer + AR overlay spec"
    else "Views compiled (draft v1)"
  else if String.eqb id "val" then
    if t =? 136 then "Validating dependencies: bindings→kpis→views"
    else if t =? 148 then "PASS: 0 errors, 2 warnings (units normalized)"
    else "Ready for staging deploy"
  else "Log @ " +:+ formatSec t.

(** [xs.slice(-n)]: the last [n] elements. *)
Definition sliceLast {A : Type} (n : nat) (xs : list A) : list A :=
  drop (length xs - n) xs.

(** The progress and status the [if (a.id === ...)] chain assigns. *)
Definition agentStage (id : string) (t : Z) : Z * AgentStatus :=
  let tq := inject_Z t in
  let window (s e : Z) :=
    let p := stageProgress t s e in
    (p, computeStatus tq p (inject_Z s) (inject_Z e)) in
  let r := (0, Queued) in
  let r := if String.eqb id "spec" then window (specStart timeline) (specEnd timeline) else r in
  let r := if String.eqb id "topo" then window (topoStart timeline) (topoEnd timeline) else r in
  let r := if String.eqb id "conn" then window (connStart timeline) (connEnd timeline) else r in
  let r := if String.eqb id "der" then window (derStart timeline) (derEnd timeline) else r in
  let r := if String.eqb id "kpi" then window (kpiStart timeline) (kpiEnd timeline) else r in
  let r := if String.eqb id "view" then window (viewStart timeline) (viewEnd timeline) else r in
  let r := if String.eqb id "val" then window (valStart timeline) (valEnd timeline) else r in
  r.

(** The body of [prev.map((a) => ...)]. *)
Definition projectAgent (t : Z) (a : Agent) : Agent :=
  let '(p, st) := agentStage (agent_id a) t in
  let logs' :=
    if shouldLog (agent_id a) t
    then sliceLast 20 (logs a ++ [formatSec t +:+ " • " +:+ logLine (agent_id a) t])
    else logs a in
  {| agent_id := agent_id a; agent_name := agent_name a; status := st;
     progress := p; outputArtifacts := outputArtifacts a; logs := logs' |}.

Definition projectAgents (t : Z) (prev : list Agent) : list Agent :=
  map (projectAgent t) prev.

Definition initialAgents : list Agent := [
  mkAgent "spec" "Spec Agent" Queued 0 ["manifest"] [];
  mkAgent "topo" "Topology Agent" Queued 0 ["manifest"] [];
  mkAgent "conn" "Connector Agent" Queued 0 ["bindings"] [];
  mkAgent "der" "Derived Signal Agent" Queued 0 ["bindings"; "kpis"] [];
  mkAgent "kpi" "KPI Agent" Queued 0 ["kpis"] [];
  mkAgent "view" "View Agent" Queued 0 ["views"] [];
  mkAgent "val" "Validation Agent" Queued 0 ["validation"] []
].

(** ** Artifact emitter (the [setArtifacts] updater) *)

Definition initialArtifacts : gmap string Artifact :=
  <["manifest" := mkArtifact "manifest" "Twin Manifest" "manifest" 0 0
      "No manifest yet." [mkDiff info "— awaiting spec compilation —"]]>
  (<["bindings" := mkArtifact "bindings" "Data Bindings" "bindings" 0 0
      "No bindings yet." [mkDiff info "— awaiting connector mapping —"]]>
  (<["kpis" := mkArtifact "kpis" "KPIs Pack" "kpis" 0 0
      "No KPIs yet." [mkDiff info "— awaiting KPI definitions —"]]>
  (<["views" := mkArtifact "views" "Views / AR Labels" "views" 0 0
      "No views yet." [mkDiff info "— awaiting view generation —"]]>
  (<["validation" := mkArtifact "validation" "Validation Report" "validation" 0 0
      "Not validated." [mkDiff info "— run validation to deploy —"]]> ∅)))).

Definition manifestSummary : string :=
  "CabinetCooling.EC2 with Fan_A/Fan_B, PLC gateway, sensors.".

Definition manifestDiff : list DiffLine := [
  mkDiff ok "+ Assets: Fan_A, Fan_B, Cabinet_A, PLC_Gateway";
  mkDiff ok "+ Relationships: Motor→Fan, Fan→Airflow→CabinetTemp";
  mkDiff info "+ Defaults: variable_speed=true, reporting=monthly"
].

Definition bindingsSummary : string :=
  "Mapped Modbus registers + MQTT faults; created rollups.".

Definition bindingsDiff : list DiffLine := [
  mkDiff ok "+ Bind: Fan_A.rpm ← Modbus HR:40021";
  mkDiff ok "+ Bind: Fan_A.kW  ← Modbus HR:40031 (normalized)";
  mkDiff ok "+ Bind: Cabinet.temp_C ← HR:40110";
  mkDiff info "+ Subscribe: MQTT ebmpapst/cabinetA/faults/#"
].

Definition derivedSummary : string :=
  "Added derived airflow_est + unit normalization rules.".

Definition derivedDiff : list DiffLine := [
  mkDiff ok "+ Derived: airflow_est ← f(RPM, curve_proxy)";
  mkDiff warn "~ Unit rule: kW tags sometimes in W (auto-normalize)";
  mkDiff info "+ Quality: flatline/spike detection enabled"
].

Definition kpisSummary : string :=
  "Energy, efficiency vs curve, utilization, maintenance risk (monthly).".

Definition kpisDiff : list DiffLine := [
  mkDiff ok "+ KPI: energy_kWh_month ← Σ(kW)*Δt";
  mkDiff ok "+ KPI: efficiency_pct ← airflow_est / power (normalized)";
  mkDiff ok "+ KPI: utilization_pct ← time_in_band / total";
  mkDiff info "+ KPI: risk_pct ← variance(power)+fault_rate proxy"
].

Definition viewsSummary : string :=
  "Web 3D view + AR label overlays (RPM/kW/Status).".

Definition viewsDiff : list DiffLine := [
  mkDiff ok "+ View: Cabinet_A overview scene";
  mkDiff ok "+ AR Label: Fan_A (RPM, kW, Status)";
  mkDiff ok "+ AR Label: Fan_B (RPM, kW, Status)";
  mkDiff info "+ Anchors: cabinet_faceplate, fan_housing"
].

Definition validationSummary : string :=
  "PASS: 0 errors, 2 warnings (unit normalization).".

Definition validationDiff : list DiffLine := [
  mkDiff ok "✓ Schema: manifest/bindings/kpis/views";
  mkDiff ok "✓ Dependencies: tags → derived → kpis → overlays";
  mkDiff warn "⚠ Warning: kW tag unit inconsistent; normalized to kW";
  mkDiff warn "⚠ Warning: vibration missing; risk uses proxy"
].

(** What every emission branch does to its entry:
    [next.k = { ...next.k, version: next.k.version + 1, lastUpdatedSec: t,
    summary, diffLines }].  Reading [next.k.version] of a missing entry
    throws. *)
Definition bumped (a : Artifact) (t : Z) (summ : string) (d : list DiffLine) : Artifact :=
  {| art_key := art_key a; label := label a; kind := kind a;
     version := version a + 1; lastUpdatedSec := t;
     summary := summ; diffLines := d |}.

Definition bump (k : string) (t : Z) (summ : string) (d : list DiffLine)
    (next : gmap string Artifact) : option (gmap string Artifact) :=
  a ← next !! k; Some (<[k := bumped a t summ d]> next).

Definition emitArtifacts (t : Z) (prev : gmap string Artifact)
    : option (gmap string Artifact) :=
  let next := prev in
  next ← (if t =? specEnd timeline
          then bump "manifest" t manifestSummary manifestDiff next else Some next);
  next ← (if t =? connEnd timeline
          then bump "bindings" t bindingsSummary bindingsDiff next else Some next);
  next ← (if t =? derEnd timeline
          then bump "bindings" t derivedSummary derivedDiff next else Some next);
  next ← (if t =? kpiEnd timeline
          then bump "kpis" t kpisSummary kpisDiff next else Some next);
  next ← (if t =? viewEnd timeline
          then bump "views" t viewsSummary viewsDiff next else Some next);
  next ← (if t =? valEnd timeline
          then bump "validation" t validationSummary validationDiff next else Some next);
  Some next.

(** ** Bus event emitter *)

(** [pushBus]: append, then keep the last 70. *)
Definition pushBus (evt : BusEvent) (prev : list BusEvent) : list BusEvent :=
  let next := prev ++ [evt] in
  drop (Z.to_nat (Z.max 0 (Z.of_nat (length next) - 70))) next.

(** One [if (t === at) pushBus({ t, bus, sev, msg })] statement. *)
Definition busAt (at_ : Z) (b : Bus) (s : Severity) (m : string) (t : Z)
    (prev : list BusEvent) : list BusEvent :=
  if t =? at_ then pushBus (mkBusEvent t b s m) prev else prev.

Definition busActivity (t : Z) (prev : list BusEvent) : list BusEvent :=
  let evs := prev in
  let evs := busAt 2 TimescaleDB info "Workspace created: ebm-papst/cabinetA" t evs in
  let evs := busAt 8 TimescaleDB ok "Twin PR branch: draft/v1 created" t evs in
  let evs := busAt 33 ModbusTCP info "Connecting to PLC gateway 10.0.2.31:502" t evs in
  let evs := busAt 38 ModbusTCP ok "Handshake OK. Reading holding registers…" t evs in
  let evs := busAt 44 ModbusTCP info "Discovered tags: RPM_A, RPM_B, kW_A, kW_B, Temp_Cab" t evs in
  let evs := busAt 52 MQTT info "Subscribing: ebmpapst/cabinetA/faults/#" t evs in
  let evs := busAt 60 MQTT ok "Live faults stream online (no active faults)" t evs in
  let evs := busAt 68 TimescaleDB ok "Ingest pipeline started (1s sample → 1m rollup)" t evs in
  let evs := busAt 76 TimescaleDB warn "Unit check: kW_A appears in W → normalizing" t evs in
  let evs := busAt 82 TimescaleDB ok "Derived signal: airflow_est computed from RPM + curve proxy" t evs in
  let evs := busAt 131 TimescaleDB info "Running validation suite: bindings + KPI deps + view labels" t evs in
  let evs := busAt 148 TimescaleDB ok "Validation passed (0 errors, 2 warnings)" t evs in
  let evs := busAt 162 TimescaleDB ok "Ready to deploy: staging candidate v1.0" t evs in
  evs.

(** ** KPI projector (the [setKpis] updater) *)

Definition phase1 (t : Z) : Q := clamp ((inject_Z t - 55) / 40) 0 1.
Definition phase2 (t : Z) : Q := clamp ((inject_Z t - 95) / 45) 0 1.
Definition phase3 (t : Z) : Q := clamp ((inject_Z t - 130) / 30) 0 1.

Definition uptimeTarget : R := 99.2.
Definition energyKW : R := 78.0.
Definition effPct : R := 86.0.
Definition utilPct : R := 72.0.
Definition riskPct : R := 8.0.

Definition wobble (t : Z) (k : Z) : R :=
  (sin ((IZR t / 8) * (IZR k + 1)) * 0.6 + sin ((IZR t / 17) * (IZR k + 2)) * 0.25)%R.

Definition conf (t : Z) (base : Z) : Z :=
  Math_round (lerp (inject_Z base) 100 (phase3 t)).

(** The [value] and [confidence] the updater computes for the KPI [key]. *)
Definition kpiSample (t : Z) (key : string) : option R * Z :=
  let value : option R := None in
  let confidence := 0 in
  if Qltb 0 (phase1 t) then
    let warm := phase1 t in
    let stable := Q2R (phase2 t) in
    let '(value, confidence) :=
      if String.eqb key "prod" then
        (Some (lerpR 0 (uptimeTarget + wobble t 0) stable), Math_round (lerp 0 70 warm))
      else if String.eqb key "energy" then
        (Some (lerpR 0 (energyKW + wobble t 1) stable), Math_round (lerp 0 75 warm))
      else if String.eqb key "eff" then
        (Some (lerpR 0 (effPct + wobble t 2) stable), Math_round (lerp 0 70 warm))
      else if String.eqb key "util" then
        (Some (lerpR 0 (utilPct + wobble t 3) stable), Math_round (lerp 0 72 warm))
      else if String.eqb key "risk" then
        (Some (lerpR 0 (riskPct + Rabs (wobble t 4) * 0.7) stable), Math_round (lerp 0 65 warm))
      else (value, confidence) in
    (value, Z.max confidence (conf t confidence))
  else (value, confidence).

(** The threshold of the trend: the double that the literal [0.15] denotes,
    [5404319552844595 * 2^-55], a little below 3/20. *)
Definition trendThreshold : R := (5404319552844595 / 36028797018963968)%R.

(** [Math.abs(delta) < 0.15 ? "flat" : delta > 0 ? "up" : "down"], on the
    real difference of the two values. *)
Definition trendOf (delta : R) : Trend :=
  if Rlt_dec (Rabs delta) trendThreshold then flat
  else if Rlt_dec 0 delta then up else down.

(** The body of [prevKpis.map((k) => ...)]. *)
Definition projectKpi (t : Z) (k : KPI) : KPI :=
  let '(value', confidence') := kpiSample t (kpi_key k) in
  let last := default (default 0%R value') (value k) in
  let now := default last value' in
  let delta := (now - last)%R in
  {| kpi_key := kpi_key k; kpi_label := kpi_label k; unit := unit k;
     value := value'; target := target k; trend := trendOf delta;
     confidence := confidence' |}.

Definition projectKpis (t : Z) (prevKpis : list KPI) : list KPI :=
  map (projectKpi t) prevKpis.

Definition initialKpis : list KPI := [
  mkKPI "prod" "System Uptime" (Some "%") None (Some 99.0%R) flat 0;
  mkKPI "energy" "Energy Usage" (Some "kW") None (Some 75%R) flat 0;
  mkKPI "eff" "Efficiency vs Curve" (Some "%") None (Some 85%R) flat 0;
  mkKPI "util" "Load Utilization" (Some "%") None (Some 70%R) flat 0;
  mkKPI "risk" "Maintenance Risk" (Some "%") None (Some 10%R) flat 0
].

(** ** Engine state and commands

    The state the timeline engine owns.  The prompt text and the selection
    and viewer flags of the component are presentation state and are left
    out; no effect below reads them. *)

Record State : Type := mkState {
  time : Z;
  running : bool;
  agents : list Agent;
  artifacts : gmap string Artifact;
  busEvents : list BusEvent;
  kpis : list KPI;
  deployStage : DeployStage;
  deployEnabled : bool
}.

(** The [useState] initial values; [resetDemo] stores the same literals. *)
Definition initialState : State := {|
  time := 0; running := true;
  agents := initialAgents; artifacts := initialArtifacts;
  busEvents := []; kpis := initialKpis;
  deployStage := Draft; deployEnabled := false
|}.

(** The effects that depend on [t], run in source order on the state whose
    clock already holds the new [t]: pause at end, bus activity, agents,
    artifacts, deploy readiness, KPIs. *)
Definition effects (s : State) : option State :=
  let t := time s in
  arts ← emitArtifacts t (artifacts s);
  Some {| time := t;
          running := if duration <=? t then false else running s;
          agents := projectAgents t (agents s);
          artifacts := arts;
          busEvents := busActivity t (busEvents s);
          kpis := projectKpis t (kpis s);
          deployStage := deployStage s;
          deployEnabled := if deployReady timeline <=? t then true else deployEnabled s |}.

Definition withTime (v : Z) (s : State) : State :=
  {| time := v; running := running s; agents := agents s; artifacts := artifacts s;
     busEvents := busEvents s; kpis := kpis s; deployStage := deployStage s;
     deployEnabled := deployEnabled s |}.

(** [setT(v)]: storing the value the clock already holds re-runs nothing. *)
Definition setT (v : Z) (s : State) : option State :=
  if v =? time s then Some s else effects (withTime v s).

(** The first render: the effects run once with [t = 0]. *)
Definition mount : option State := effects initialState.

(** One firing of the interval, which only exists while [running]. *)
Definition tick (s : State) : option State :=
  if running s
  then setT (if duration <=? time s then duration else time s + 1) s
  else Some s.

Definition jumpToDeploy (s : State) : option State := setT (Z.max (time s) 160) s.
Definition jumpToKpis (s : State) : option State := setT (Z.max (time s) 120) s.

Definition togglePlay (s : State) : State :=
  {| time := time s; running := negb (running s); agents := agents s;
     artifacts := artifacts s; busEvents := busEvents s; kpis := kpis s;
     deployStage := deployStage s; deployEnabled := deployEnabled s |}.

Definition setDeployStage (d : DeployStage) (s : State) : State :=
  {| time := time s; running := running s; agents := agents s;
     artifacts := artifacts s; busEvents := busEvents s; kpis := kpis s;
     deployStage := d; deployEnabled := deployEnabled s |}.

Definition promote (s : State) : State :=
  if negb (deployEnabled s) then s
  else match deployStage s with
       | Draft => setDeployStage Staging s
       | Staging => setDeployStage Prod s
       | Prod => s
       end.

Definition backToDraft (s : State) : State := setDeployStage Draft s.

(** [resetDemo] stores the baseline in every piece of state; when that
    changes the clock, the effects run again with [t = 0]. *)
Definition resetDemo (s : State) : option State :=
  if time s =? 0 then Some initialState else effects initialState.

(** [n] firings of the interval in a row. *)
Fixpoint ticks (n : nat) (s : State) : option State :=
  match n with
  | O => Some s
  | S n' => s' ← ticks n' s; tick s'
  end.

(** The engine after [n] seconds of an untouched run from the first render. *)
Definition runFor (n : nat) : option State := mount ≫= ticks n.

(** States the user can bring the component to. *)
Inductive reachable : State -> Prop :=
| reach_mount s : mount = Some s -> reachable s
| reach_tick s s' : reachable s -> tick s = Some s' -> reachable s'
| reach_jumpToDeploy s s' : reachable s -> jumpToDeploy s = Some s' -> reachable s'
| reach_jumpToKpis s s' : reachable s -> jumpToKpis s = Some s' -> reachable s'
| reach_reset s s' : reachable s -> resetDemo s = Some s' -> reachable s'
| reach_togglePlay s : reachable s -> reachable (togglePlay s)
| reach_promote s : reachable s -> reachable (promote s)
| reach_backToDraft s : reachable s -> reachable (backToDraft s).

(** ** Vocabulary of the properties *)

(** The statuses [computeStatus] can produce. *)
Definition scriptedStatus (st : AgentStatus) : Prop :=
  st = Queued \/ st = Planning \/ st = Running \/ st = NeedsReview \/ st = Done.

(** [ts] lists, without repeats, exactly the times at which the projector
    appends a log line for the agent [id]. *)
Definition milestonesOf (id : string) (ts : list Z) : Prop :=
  NoDup ts /\ forall t : Z, shouldLog id t = true <-> t ∈ ts.

(** The log line the projector builds at time [t] for the agent [id]. *)
Definition logEntry (id : string) (t : Z) : string :=
  formatSec t +:+ " • " +:+ logLine id t.

(** The whole seconds [0, 1, ..., 180] of a run. *)
Definition runSeconds : list Z := seqZ 0 181.

(** The five entries of the artifact store. *)
Definition artifactKeys : list string :=
  ["manifest"; "bindings"; "kpis"; "views"; "validation"].

Definition storeComplete (m : gmap string Artifact) : Prop :=
  forall k : string, k ∈ artifactKeys -> is_Some (m !! k).

(** The six scripted thresholds of the artifact emitter. *)
Definition artifactThresholds : list Z := [32; 74; 95; 120; 140; 160].

(** From [prev] to [next] exactly the entry [k] changed: its version went up
    by one, its update time is [t], its summary and diff lines are [summ]
    and [d], its other fields are kept; every other entry is untouched. *)
Definition bumpedOnly (k : string) (t : Z) (summ : string) (d : list DiffLine)
    (prev next : gmap string Artifact) : Prop :=
  (exists a a' : Artifact,
     prev !! k = Some a /\ next !! k = Some a' /\
     version a' = version a + 1 /\ lastUpdatedSec a' = t /\
     summary a' = summ /\ diffLines a' = d /\
     art_key a' = art_key a /\ label a' = label a /\ kind a' = kind a) /\
  (forall k' : string, k' <> k -> next !! k' = prev !! k').

(** The literal timestamps of the bus script, in source order. *)
Definition busTimes : list Z :=
  [2; 8; 33; 38; 44; 52; 60; 68; 76; 82; 131; 148; 162].

(** Does the bus script append to the empty log at time [t]? *)
Definition busFires (t : Z) : bool :=
  negb (Nat.eqb (length (busActivity t [])) 0).

(** The keys of the five KPIs, in list order. *)
Definition kpiKeys : list string := ["prod"; "energy"; "eff"; "util"; "risk"].

(** The ids of the seven agents, in list order. *)
Definition agentIds : list string :=
  ["spec"; "topo"; "conn"; "der"; "kpi"; "view"; "val"].

(** The agents and KPIs of [s] are the projection, at the clock of [s], of
    the seven agents and the five KPIs, and the artifact store has its five
    entries. *)
Definition projected (s : State) : Prop :=
  (exists prevA : list Agent,
     agents s = projectAgents (time s) prevA /\ map agent_id prevA = agentIds) /\
  (exists prevK : list KPI,
     kpis s = projectKpis (time s) prevK /\ map kpi_key prevK = kpiKeys) /\
  storeComplete (artifacts s).

(** What holds of the state after any number of seconds of an untouched
    run. *)
Definition scriptedRun (s : State) : Prop :=
  0 <= time s <= 180 /\
  running s = (time s <? 180) /\
  deployEnabled s = (160 <=? time s) /\
  deployStage s = Draft /\
  projected s.

(** ** Further parts of the component *)

Definition SCRIPT_PROMPT : string :=
  "Create a digital twin for an ebm-papst cabinet cooling setup: two EC fans, variable speed control, Modbus TCP telemetry, monthly KPI reporting. Include energy usage, efficiency vs curve, utilization, and maintenance risk. Add AR overlay labels for RPM, kW, and status.".

(** The number of characters the prompt effect shows at time [t] of the
    typing window. *)
Definition promptChars (t : Z) : Z :=
  let total := promptEnd timeline - promptStart timeline in
  let frac := clamp (inject_Z (t - promptStart timeline) / inject_Z total) 0 1 in
  Qfloor (inject_Z (Z.of_nat (String.length SCRIPT_PROMPT)) * frac).

(** The prompt typing effect on the pair [(promptText, promptDone)].
    [SCRIPT_PROMPT.slice(0, chars)] is [String.substring 0 chars]; [chars] is
    never negative, since [frac] is clamped to [0, 1]. *)
Definition promptTyping (t : Z) (st : string * bool) : string * bool :=
  if (t <? promptStart timeline) || (promptEnd timeline <? t) then st
  else
    let chars := promptChars t in
    (String.substring 0 (Z.to_nat chars) SCRIPT_PROMPT,
     if Z.of_nat (String.length SCRIPT_PROMPT) <=? chars then true else snd st).

(** [agents.find((a) => a.id === selectedAgentId) ?? agents[0]]; [None] is
    the [undefined] of an empty list. *)
Definition selectedAgent (ags : list Agent) (selectedAgentId : string) : option Agent :=
  match List.find (fun a => String.eqb (agent_id a) selectedAgentId) ags with
  | Some a => Some a
  | None => head ags
  end.

(** The width, in percent, of the confidence bar of a KPI card:
    [Math.round(clamp(conf / 100, 0, 1) * 100)]. *)
Definition kpiBarPercent (conf_ : Z) : Z :=
  Math_round (clamp (inject_Z conf_ / 100) 0 1 * 100).

(** ** Vocabulary of the further properties *)

(** The log lines scripted for the agent [id] at the seconds [1 .. t], in
    order. *)
Definition scriptedLogs (id : string) (t : Z) : list string :=
  map (logEntry id) (List.filter (shouldLog id) (seqZ 1 t)).

(** The bus events scripted for the seconds [1 .. t], in order. *)
Definition scriptedBus (t : Z) : list BusEvent :=
  List.flat_map (fun u => busActivity u []) (seqZ 1 t).

(** The version of the entry [k] of an artifact store. *)
Definition versionOf (m : gmap string Artifact) (k : string) : option Z :=
  version <$> (m !! k).

(** The agent [a0] of the baseline as the projector leaves it at second [t]
    of an untouched run. *)
Definition agentAt (t : Z) (a0 : Agent) : Agent :=
  {| agent_id := agent_id a0; agent_name := agent_name a0;
     status := snd (agentStage (agent_id a0) t);
     progress := fst (agentStage (agent_id a0) t);
     outputArtifacts := outputArtifacts a0;
     logs := scriptedLogs (agent_id a0) t |}.

(** *** What every reachable state satisfies *)

(** The clock is within the run, the deploy gate is open exactly from second
    160 on, and a stage beyond Draft is only held with the gate open. *)
Definition clockInv (s : State) : Prop :=
  0 <= time s <= 180 /\
  deployEnabled s = (160 <=? time s) /\
  (deployStage s <> Draft -> 160 <= time s).

(** The seven agents keep their ids, names and output kinds; progress and
    status are those of the clock; the logs are a subsequence of the lines
    scripted up to the clock. *)
Definition agentsInv (s : State) : Prop :=
  map (fun a => (agent_id a, agent_name a, outputArtifacts a)) (agents s) =
  map (fun a => (agent_id a, agent_name a, outputArtifacts a)) initialAgents /\
  Forall (fun a =>
            (progress a, status a) = agentStage (agent_id a) (time s) /\
            logs a `sublist_of` scriptedLogs (agent_id a) (time s))
         (agents s).

(** The bus log is a subsequence of the events scripted up to the clock. *)
Definition busInv (s : State) : Prop :=
  busEvents s `sublist_of` scriptedBus (time s).

(** The five KPIs keep their keys, labels, units and targets; value and
    confidence are those of the clock. *)
Definition kpisInv (s : State) : Prop :=
  map (fun k => (kpi_key k, kpi_label k, unit k, target k)) (kpis s) =
  map (fun k => (kpi_key k, kpi_label k, unit k, target k)) initialKpis /\
  Forall (fun k => (value k, confidence k) = kpiSample (time s) (kpi_key k))
         (kpis s).

(** The store holds exactly the five entries, each under its own key; an
    entry was last updated no later than the clock, and an entry of version 0
    is still the placeholder of the baseline. *)
Definition artifactsInv (s : State) : Prop :=
  dom (artifacts s) = list_to_set artifactKeys /\
  forall (k : string) (a : Artifact),
    artifacts s !! k = Some a ->
    art_key a = k /\ 0 <= version a /\ 0 <= lastUpdatedSec a <= time s /\
    (version a = 0 -> initialArtifacts !! k = Some a).

Definition engineInv (s : State) : Prop :=
  clockInv s /\ agentsInv s /\ busInv s /\ kpisInv s /\ artifactsInv s.

(** The versions the script gives the five artifacts by second [t]: one
    bump each at 32, 120, 140 and 160, two for the bindings at 74 and 95. *)
Definition scriptedVersions (t : Z) (m : gmap string Artifact) : Prop :=
  versionOf m "manifest" = Some (Z.b2z (32 <=? t)) /\
  versionOf m "bindings" = Some (Z.b2z (74 <=? t) + Z.b2z (95 <=? t)) /\
  versionOf m "kpis" = Some (Z.b2z (120 <=? t)) /\
  versionOf m "views" = Some (Z.b2z (140 <=? t)) /\
  versionOf m "validation" = Some (Z.b2z (160 <=? t)).

(** The state after [n] seconds of an untouched run, in closed form. *)
Definition closedRun (s : State) : Prop :=
  running s = (time s <? 180) /\
  storeComplete (artifacts s) /\
  agents s = map (agentAt (time s)) initialAgents /\
  busEvents s = scriptedBus (time s) /\
  scriptedVersions (time s) (artifacts s).

(** *** Exhaustive evaluation of the stage ramp

    The facts about the doubles of [stageProgress] are established by
    evaluating it at every second of every window up to [maxWidth] seconds
    wide, the length of the whole run; the longest window of the timeline
    takes 40 seconds. *)

Definition maxWidth : Z := duration.

(** The progress at the seconds [0 .. d] of a window [d] seconds wide. *)
Definition ramp (d : Z) : list Z := map (fun n => stageProgress n 0 d) (seqZ 0 (d + 1)).

Fixpoint nondecreasing (l : list Z) : bool :=
  match l with
  | x :: l' =>
      match l' with
      | y :: _ => (x <=? y) && nondecreasing l'
      | [] => true
      end
  | [] => true
  end.

(** A ramp starts at 0, ends at 100 and never falls. *)
Definition rampOK (d : Z) : bool :=
  let r := ramp d in
  match head r, last r with
  | Some x, Some y => (x =? 0) && (y =? 100) && nondecreasing r
  | _, _ => false
  end.

(** The windows of the seven agents. *)
Definition agentWindows : list (Z * Z) :=
  [(specStart timeline, specEnd timeline); (topoStart timeline, topoEnd timeline);
   (connStart timeline, connEnd timeline); (derStart timeline, derEnd timeline);
   (kpiStart timeline, kpiEnd timeline); (viewStart timeline, viewEnd timeline);
   (valStart timeline, valEnd timeline)].

Definition spec_float_eqb (x y : spec_float) : bool :=
  match x, y with
  | S754_zero s, S754_zero s' => Bool.eqb s s'
  | S754_infinity s, S754_infinity s' => Bool.eqb s s'
  | S754_nan, S754_nan => true
  | S754_finite s m e, S754_finite s' m' e' => Bool.eqb s s' && (m =? m')%positive && (e =? e')
  | _, _ => false
  end.

(** On the integers [a] and [b], the doubles' [<] and [-] are those of [Z]. *)
Definition integersExact (a b : Z) : bool :=
  Bool.eqb (SFltb (f64_of_Z a) (f64_of_Z b)) (a <? b) &&
  spec_float_eqb (f64_sub (f64_of_Z a) (f64_of_Z b)) (f64_of_Z (a - b)).

(** The comparisons and differences [stageProgress] takes at time [t] in
    the window [w], and over the whole run. *)
Definition windowExact (w : Z * Z) (t : Z) : bool :=
  integersExact t (fst w) && integersExact (snd w) t && integersExact (snd w) (fst w).

Definition windowExactRun (w : Z * Z) : bool := forallb (windowExact w) (seqZ 0 (duration + 1)).


(** * Properties *)

(** ** Sample evaluations of the embedding *)

Example stageProgress_conn_33 : stageProgress 33 30 74 = 7.
Proof. vm_compute. reflexivity. Qed.

Example stageProgress_topo_19 : stageProgress 19 16 40 = 13.
Proof. vm_compute. reflexivity. Qed.

(** 23/40 is 0.575, and the double product [0.575 * 100] is
    57.49999999999999: the derivation agent shows 57 at second 78. *)
Example stageProgress_der_78 : stageProgress 78 55 95 = 57.
Proof. vm_compute. reflexivity. Qed.

Example agentStage_der_78 : agentStage "der" 78 = (57, Running).
Proof. vm_compute. reflexivity. Qed.

Example f64_mul_0575_100 :
  f64_mul (f64_div (f64_of_Z 23) (f64_of_Z 40)) (f64_of_Z 100) =
  S754_finite false 8092405580431359 (-47).
Proof. vm_compute. reflexivity. Qed.

Example formatSec_74 : formatSec 74 = "01:14".
Proof. reflexivity. Qed.

Example projectAgents_10 :
  map logs (projectAgents 10 initialAgents) =
  [["00:10 • Parsing prompt → selecting template: CabinetCooling.EC2"]; []; []; []; []; []; []].
Proof. reflexivity. Qed.

Example busActivity_2_empty :
  busActivity 2 [] = [mkBusEvent 2 TimescaleDB info "Workspace created: ebm-papst/cabinetA"].
Proof. reflexivity. Qed.

Example emitArtifacts_32_initial :
  version <$> (emitArtifacts 32 initialArtifacts ≫= (.!! "manifest")) = Some 1.
Proof. vm_compute. reflexivity. Qed.

Example computeStatus_conn_33 : computeStatus 33 7 30 74 = Planning.
Proof. reflexivity. Qed.

Example computeStatus_zero_progress : computeStatus 30 0 30 74 = Queued.
Proof. reflexivity. Qed.


(** ** Rounding, clamping and stage progress *)

Lemma Qltb_spec (x y : Q) : Qltb x y = true <-> (x < y)%Q.
Proof.
  unfold Qltb. rewrite negb_true_iff. split; intros H.
  - apply Qnot_le_lt. intros Hle. apply Qle_bool_iff in Hle. congruence.
  - destruct (Qle_bool y x) eqn:E; [|reflexivity].
    apply Qle_bool_iff in E. exfalso. exact (Qlt_not_le _ _ H E).
Qed.

Lemma Qltb_false (x y : Q) : Qltb x y = false <-> (y <= x)%Q.
Proof.
  unfold Qltb. rewrite negb_false_iff. apply Qle_bool_iff.
Qed.

Lemma Math_round_mono (x y : Q) : (x <= y)%Q -> Math_round x <= Math_round y.
Proof.
  intros H. unfold Math_round. apply Qfloor_resp_le. lra.
Qed.

Lemma Math_round_Qeq (x y : Q) : (x == y)%Q -> Math_round x = Math_round y.
Proof.
  intros H. unfold Math_round. apply Qfloor_comp. rewrite H. reflexivity.
Qed.

Lemma clamp_unit_bounds (x : Q) : (0 <= clamp x 0 1 <= 1)%Q.
Proof.
  unfold clamp. split.
  - apply Q.le_max_l.
  - apply Q.max_lub; [lra | apply Q.le_min_l].
Qed.

Lemma clamp_mono (x y a b : Q) : (x <= y)%Q -> (clamp x a b <= clamp y a b)%Q.
Proof.
  intros H. unfold clamp.
  apply Q.max_le_compat_l. apply Q.min_le_compat_l. exact H.
Qed.

Lemma clamp_inside (x a b : Q) : (a <= x)%Q -> (x <= b)%Q -> (clamp x a b == x)%Q.
Proof.
  intros Ha Hb. unfold clamp.
  rewrite (Q.min_r b x) by exact Hb. apply Q.max_r. exact Ha.
Qed.

Lemma Math_round_unit_range (c : Q) :
  (0 <= c <= 1)%Q -> 0 <= Math_round (c * 100) <= 100.
Proof.
  intros [H0 H1].
  pose proof (Math_round_mono 0 (c * 100)) as Hlo.
  pose proof (Math_round_mono (c * 100) 100) as Hhi.
  change (Math_round 0) with 0 in Hlo. change (Math_round 100) with 100 in Hhi.
  split; [apply Hlo | apply Hhi]; lra.
Qed.

Lemma Qdiv_le_compat_r (x y d : Q) : (0 < d)%Q -> (x <= y)%Q -> (x / d <= y / d)%Q.
Proof.
  intros Hd H. unfold Qdiv. apply Qmult_le_compat_r; [exact H|].
  apply Qlt_le_weak, Qinv_lt_0_compat, Hd.
Qed.

(** ** Stage progress on doubles *)

Lemma forallb_seqZ (f : Z -> bool) (lo len : Z) :
  forallb f (seqZ lo len) = true ->
  forall s : Z, lo <= s < lo + len -> f s = true.
Proof.
  intros H s Hs. apply (proj1 (forallb_forall f (seqZ lo len)) H).
  apply list_elem_of_In, elem_of_seqZ. exact Hs.
Qed.

Lemma stageProgress_before (t start end_ : Z) :
  t < start -> stageProgress t start end_ = 0.
Proof.
  intros H. unfold stageProgress.
  destruct (Z.ltb_spec t start); [reflexivity | lia].
Qed.

Lemma stageProgress_past (t start end_ : Z) :
  start <= end_ -> end_ < t -> stageProgress t start end_ = 100.
Proof.
  intros Hw H. unfold stageProgress.
  destruct (Z.ltb_spec t start); [lia|].
  destruct (Z.ltb_spec end_ t); [reflexivity | lia].
Qed.

(** Only the distances from the start of the window matter. *)
Lemma stageProgress_shift (t start end_ : Z) :
  stageProgress t start end_ = stageProgress (t - start) 0 (end_ - start).
Proof.
  unfold stageProgress. rewrite !Z.sub_0_r.
  destruct (Z.ltb_spec t start), (Z.ltb_spec (t - start) 0); try lia;
    try reflexivity.
  destruct (Z.ltb_spec end_ t), (Z.ltb_spec (end_ - start) (t - start)); try lia;
    reflexivity.
Qed.

Lemma nondecreasing_lookup (l : list Z) (i : nat) (x y : Z) :
  nondecreasing l = true -> l !! i = Some x -> l !! S i = Some y -> x <= y.
Proof.
  revert i. induction l as [|a l IH]; intros i Hn Hx Hy; [discriminate|].
  destruct l as [|b l]; [discriminate|].
  cbn [nondecreasing] in Hn. apply andb_true_iff in Hn as [Hab Hn].
  destruct i as [|i].
  - cbn in Hx, Hy. injection Hx as <-. injection Hy as <-. lia.
  - exact (IH i Hn Hx Hy).
Qed.

Lemma ramp_lookup (d n : Z) :
  0 <= n <= d -> ramp d !! Z.to_nat n = Some (stageProgress n 0 d).
Proof.
  intros Hn. unfold ramp. rewrite list_lookup_fmap.
  rewrite (proj2 (lookup_seqZ 0 (d + 1) (Z.to_nat n) n)) by lia.
  reflexivity.
Qed.

Lemma ramp_length (d : Z) : length (ramp d) = Z.to_nat (d + 1).
Proof. unfold ramp. rewrite length_fmap, length_seqZ. reflexivity. Qed.

(** Every window up to [maxWidth] seconds wide, second by second. *)
Lemma ramps_checked : forallb rampOK (seqZ 1 maxWidth) = true.
Proof. vm_cast_no_check (eq_refl true). Qed.

Lemma ramp_checked (d : Z) :
  1 <= d <= maxWidth ->
  stageProgress 0 0 d = 0 /\ stageProgress d 0 d = 100 /\
  (forall n : Z, 0 <= n < d -> stageProgress n 0 d <= stageProgress (n + 1) 0 d).
Proof.
  intros Hd.
  assert (Hok : rampOK d = true).
  { apply (forallb_seqZ rampOK 1 maxWidth ramps_checked). lia. }
  unfold rampOK in Hok.
  rewrite head_lookup, last_lookup, ramp_length in Hok.
  change 0%nat with (Z.to_nat 0) in Hok.
  replace (Init.Nat.pred (Z.to_nat (d + 1))) with (Z.to_nat d) in Hok by lia.
  rewrite !ramp_lookup in Hok by lia.
  apply andb_true_iff in Hok as [Hok Hnd]. apply andb_true_iff in Hok as [H0 H100].
  split; [lia|]. split; [lia|].
  intros n Hn.
  apply (nondecreasing_lookup (ramp d) (Z.to_nat n)); [exact Hnd | |].
  - apply ramp_lookup. lia.
  - replace (S (Z.to_nat n)) with (Z.to_nat (n + 1)) by lia. apply ramp_lookup. lia.
Qed.

Lemma ramp_mono (d n m : Z) :
  1 <= d <= maxWidth -> 0 <= n -> n <= m -> m <= d ->
  stageProgress n 0 d <= stageProgress m 0 d.
Proof.
  intros Hd Hn Hnm Hm.
  destruct (ramp_checked d Hd) as (_ & _ & Hstep).
  replace m with (n + Z.of_nat (Z.to_nat (m - n))) in * by lia.
  induction (Z.to_nat (m - n)) as [|k IH].
  - rewrite Z.add_0_r. lia.
  - rewrite Nat2Z.inj_succ in *.
    transitivity (stageProgress (n + Z.of_nat k) 0 d); [apply IH; lia|].
    replace (n + Z.succ (Z.of_nat k)) with (n + Z.of_nat k + 1) by lia.
    apply Hstep. lia.
Qed.

Lemma stageProgress_range (t start end_ : Z) :
  start < end_ -> end_ - start <= maxWidth ->
  0 <= stageProgress t start end_ <= 100.
Proof.
  intros Hw Hd.
  destruct (Z.lt_ge_cases t start) as [Hb|Hs].
  { rewrite stageProgress_before by exact Hb. lia. }
  destruct (Z.lt_ge_cases end_ t) as [Ha|He].
  { rewrite stageProgress_past by lia. lia. }
  rewrite stageProgress_shift.
  assert (Hd' : 1 <= end_ - start <= maxWidth) by lia.
  destruct (ramp_checked _ Hd') as (H0 & H100 & _).
  pose proof (ramp_mono (end_ - start) 0 (t - start) Hd') as Hlo.
  pose proof (ramp_mono (end_ - start) (t - start) (end_ - start) Hd') as Hhi.
  lia.
Qed.

Lemma stageProgress_at_end (start end_ : Z) :
  start < end_ -> end_ - start <= maxWidth -> stageProgress end_ start end_ = 100.
Proof.
  intros Hw Hd. rewrite stageProgress_shift.
  apply ramp_checked. lia.
Qed.

Lemma stageProgress_after (t start end_ : Z) :
  start < end_ -> end_ - start <= maxWidth -> end_ <= t ->
  stageProgress t start end_ = 100.
Proof.
  intros Hw Hd He. destruct (Z.eq_dec t end_) as [->|Hne].
  - apply stageProgress_at_end; assumption.
  - apply stageProgress_past; lia.
Qed.

(** At every second of the run the comparisons and differences the source
    takes on doubles are those of [Z] for the seven windows of the timeline:
    there the function as the source writes it, doubles throughout, is
    [stageProgress]. *)
Lemma windows_checked : forallb windowExactRun agentWindows = true.
Proof. vm_cast_no_check (eq_refl true). Qed.

Lemma spec_float_eqb_eq (x y : spec_float) : spec_float_eqb x y = true -> x = y.
Proof.
  destruct x as [s|s| |s m e], y as [s'|s'| |s' m' e']; cbn; try discriminate;
    try reflexivity.
  - intros H. apply Bool.eqb_prop in H. congruence.
  - intros H. apply Bool.eqb_prop in H. congruence.
  - intros H. apply andb_true_iff in H as [H He]. apply andb_true_iff in H as [Hs Hm].
    apply Bool.eqb_prop in Hs. apply Pos.eqb_eq in Hm. apply Z.eqb_eq in He.
    congruence.
Qed.

Lemma integersExact_spec (a b : Z) :
  integersExact a b = true ->
  SFltb (f64_of_Z a) (f64_of_Z b) = (a <? b) /\
  f64_sub (f64_of_Z a) (f64_of_Z b) = f64_of_Z (a - b).
Proof.
  unfold integersExact. intros H. apply andb_true_iff in H as [Hlt Hsub].
  split; [apply Bool.eqb_prop, Hlt | apply spec_float_eqb_eq, Hsub].
Qed.

Lemma stageProgress_f64_timeline (start end_ t : Z) :
  (start, end_) ∈ agentWindows -> 0 <= t <= duration ->
  stageProgress_f64 (f64_of_Z t) (f64_of_Z start) (f64_of_Z end_) =
  stageProgress t start end_.
Proof.
  intros Hw Ht.
  assert (Hrun : windowExactRun (start, end_) = true).
  { apply (proj1 (forallb_forall windowExactRun agentWindows) windows_checked).
    apply list_elem_of_In, Hw. }
  assert (Hex : windowExact (start, end_) t = true).
  { apply (forallb_seqZ (windowExact (start, end_)) 0 (duration + 1) Hrun). lia. }
  unfold windowExact in Hex. cbn [fst snd] in Hex.
  apply andb_true_iff in Hex as [Hex Hes]. apply andb_true_iff in Hex as [Hts Het].
  apply integersExact_spec in Hts as [Hts1 Hts2].
  apply integersExact_spec in Het as [Het1 _].
  apply integersExact_spec in Hes as [_ Hes2].
  unfold stageProgress_f64, stageProgress.
  rewrite Hts1, Het1, Hts2, Hes2. reflexivity.
Qed.




(** ** Agent state projector *)

Lemma computeStatus_scripted (t : Q) (p : Z) (start end_ : Q) :
  scriptedStatus (computeStatus t p start end_).
Proof.
  unfold computeStatus, scriptedStatus.
  repeat match goal with |- context [if ?c then _ else _] => destruct c end;
    tauto.
Qed.

Lemma agentStage_scripted (id : string) (t : Z) :
  scriptedStatus (snd (agentStage id t)).
Proof.
  unfold agentStage.
  repeat match goal with |- context [String.eqb id ?k] => destruct (String.eqb id k) end;
    cbn [snd]; first [apply computeStatus_scripted | left; reflexivity].
Qed.

Lemma projectAgent_id (t : Z) (a : Agent) : agent_id (projectAgent t a) = agent_id a.
Proof. unfold projectAgent. destruct (agentStage _ _). reflexivity. Qed.

Lemma projectAgent_stage (t : Z) (a : Agent) :
  (progress (projectAgent t a), status (projectAgent t a)) = agentStage (agent_id a) t.
Proof. unfold projectAgent. destruct (agentStage _ _). reflexivity. Qed.

Lemma projectAgent_logs (t : Z) (a : Agent) :
  logs (projectAgent t a) =
  if shouldLog (agent_id a) t
  then sliceLast 20 (logs a ++ [logEntry (agent_id a) t])
  else logs a.
Proof. unfold projectAgent. destruct (agentStage _ _). reflexivity. Qed.

Lemma projectAgent_static (t : Z) (a : Agent) :
  agent_name (projectAgent t a) = agent_name a /\
  outputArtifacts (projectAgent t a) = outputArtifacts a.
Proof. unfold projectAgent. destruct (agentStage _ _). split; reflexivity. Qed.

Lemma projectAgent_scripted (t : Z) (a : Agent) :
  scriptedStatus (status (projectAgent t a)).
Proof.
  pose proof (projectAgent_stage t a) as H.
  pose proof (agentStage_scripted (agent_id a) t) as Hs.
  rewrite <- H in Hs. exact Hs.
Qed.

Lemma projectAgents_scripted (t : Z) (prev : list Agent) :
  Forall (fun a => scriptedStatus (status a)) (projectAgents t prev).
Proof.
  unfold projectAgents. apply Forall_forall. intros a Ha.
  apply list_elem_of_fmap in Ha as (a0 & -> & _). apply projectAgent_scripted.
Qed.

Lemma Agent_eq (a b : Agent) :
  agent_id a = agent_id b -> agent_name a = agent_name b ->
  status a = status b -> progress a = progress b ->
  outputArtifacts a = outputArtifacts b -> logs a = logs b -> a = b.
Proof. destruct a, b. cbn. intros. subst. reflexivity. Qed.

Lemma sliceLast_length {A : Type} (n : nat) (xs : list A) :
  length (sliceLast n xs) = Nat.min n (length xs).
Proof. unfold sliceLast. rewrite length_drop. lia. Qed.

Lemma sliceLast_suffix {A : Type} (n : nat) (xs : list A) :
  sliceLast n xs `suffix_of` xs.
Proof. unfold sliceLast. apply suffix_drop. Qed.

Lemma sliceLast_short {A : Type} (n : nat) (xs : list A) :
  (length xs <= n)%nat -> sliceLast n xs = xs.
Proof.
  intros H. unfold sliceLast.
  replace (length xs - n)%nat with 0%nat by lia. reflexivity.
Qed.

Lemma includes_elem (xs : list Z) (t : Z) : includes xs t = true <-> t ∈ xs.
Proof.
  unfold includes. rewrite existsb_exists, list_elem_of_In. split.
  - intros (x & Hin & Heq). apply Z.eqb_eq in Heq. subst. exact Hin.
  - intros Hin. exists t. split; [exact Hin | apply Z.eqb_refl].
Qed.

Ltac milestones :=
  split;
  [ apply (bool_decide_unpack _); vm_compute; exact I
  | intros t; unfold shouldLog; cbn -[includes];
    rewrite ?orb_false_r, ?includes_elem;
    first [ reflexivity | split; [discriminate | intros H; inversion H] ] ].

Lemma milestones_spec : milestonesOf "spec" [10; 18; 26; 32].
Proof. milestones. Qed.

Lemma milestones_conn : milestonesOf "conn" [40; 52; 68; 74].
Proof. milestones. Qed.

Lemma milestones_kpi : milestonesOf "kpi" [76; 90; 108; 120].
Proof. milestones. Qed.

Lemma milestones_view : milestonesOf "view" [104; 118; 132; 140].
Proof. milestones. Qed.

Lemma milestones_val : milestonesOf "val" [136; 148; 160].
Proof. milestones. Qed.

Lemma milestones_topo : milestonesOf "topo" [].
Proof. milestones. Qed.

Lemma milestones_der : milestonesOf "der" [].
Proof. milestones. Qed.

(** C4 (as amended).  Five of the seven agents have hardcoded log
    milestones: spec, conn, kpi and view have exactly four each, whose last
    one yields the agent's "... compiled (draft v1)" line; val has three
    (136, 148, 160), the last yielding "Ready for staging deploy"; topo and
    der have none.  The projector appends a log line at these times and at no
    other time, and an append keeps the most recent 20 entries. *)
Theorem agent_log_milestones :
  (milestonesOf "spec" [10; 18; 26; 32] /\
   milestonesOf "conn" [40; 52; 68; 74] /\
   milestonesOf "kpi" [76; 90; 108; 120] /\
   milestonesOf "view" [104; 118; 132; 140]) /\
  (milestonesOf "val" [136; 148; 160] /\
   milestonesOf "topo" [] /\ milestonesOf "der" []) /\
  (logLine "spec" 32 = "Manifest compiled (draft v1)" /\
   logLine "conn" 74 = "Bindings compiled (draft v1)" /\
   logLine "kpi" 120 = "KPI pack compiled (draft v1)" /\
   logLine "view" 140 = "Views compiled (draft v1)" /\
   logLine "val" 160 = "Ready for staging deploy") /\
  (forall (t : Z) (a : Agent),
     shouldLog (agent_id a) t = false -> logs (projectAgent t a) = logs a) /\
  (forall (t : Z) (a : Agent),
     shouldLog (agent_id a) t = true ->
     logs (projectAgent t a) = sliceLast 20 (logs a ++ [logEntry (agent_id a) t]) /\
     logs (projectAgent t a) `suffix_of` (logs a ++ [logEntry (agent_id a) t]) /\
     length (logs (projectAgent t a)) = Nat.min 20 (S (length (logs a)))).
Proof.
  split; [|split; [|split; [|split]]].
  - auto using milestones_spec, milestones_conn, milestones_kpi, milestones_view.
  - auto using milestones_val, milestones_topo, milestones_der.
  - repeat split.
  - intros t a H. rewrite projectAgent_logs, H. reflexivity.
  - intros t a H. rewrite projectAgent_logs, H.
    split; [reflexivity|]. split; [apply sliceLast_suffix|].
    rewrite sliceLast_length, length_app. cbn [length]. lia.
Qed.

(** The amended C4 at the first milestone of the spec agent and away from
    any milestone. *)
Lemma agent_log_milestones_witness :
  shouldLog "spec" 10 = true /\ shouldLog "spec" 11 = false /\
  logs (projectAgent 10 (mkAgent "spec" "Spec Agent" Queued 0 ["manifest"] [])) =
    ["00:10 • Parsing prompt → selecting template: CabinetCooling.EC2"] /\
  logs (projectAgent 11 (mkAgent "spec" "Spec Agent" Queued 0 ["manifest"] [])) = [].
Proof.
  destruct agent_log_milestones as (_ & _ & _ & Hno & Hyes).
  split; [reflexivity|]. split; [reflexivity|]. split.
  - exact (proj1 (Hyes 10 (mkAgent "spec" "Spec Agent" Queued 0 ["manifest"] []) eq_refl)).
  - exact (Hno 11 (mkAgent "spec" "Spec Agent" Queued 0 ["manifest"] []) eq_refl).
Defined.

(** C4 as stated fails: over the whole run the topo and der agents never
    log, the val agent logs at three times only, and the val agent's last
    line is not a "compiled (draft v1)" line. *)
Lemma agent_log_milestones_counterexample :
  List.filter (shouldLog "topo") runSeconds = [] /\
  List.filter (shouldLog "der") runSeconds = [] /\
  List.filter (shouldLog "val") runSeconds = [136; 148; 160] /\
  logLine "val" 160 = "Ready for staging deploy".
Proof. vm_compute. auto. Qed.

Lemma projectAgent_twice_stage (t : Z) (a : Agent) :
  agent_id (projectAgent t (projectAgent t a)) = agent_id (projectAgent t a) /\
  progress (projectAgent t (projectAgent t a)) = progress (projectAgent t a) /\
  status (projectAgent t (projectAgent t a)) = status (projectAgent t a).
Proof.
  pose proof (projectAgent_stage t (projectAgent t a)) as H2.
  pose proof (projectAgent_stage t a) as H1.
  rewrite projectAgent_id, <- H1 in H2. inversion H2.
  rewrite !projectAgent_id. auto.
Qed.

Lemma projectAgent_idempotent_quiet (t : Z) (a : Agent) :
  shouldLog (agent_id a) t = false ->
  projectAgent t (projectAgent t a) = projectAgent t a.
Proof.
  intros Hq.
  destruct (projectAgent_twice_stage t a) as (Hid & Hp & Hs).
  destruct (projectAgent_static t (projectAgent t a)) as (Hn & Ho).
  apply Agent_eq; try assumption.
  rewrite (projectAgent_logs t (projectAgent t a)), projectAgent_id, Hq.
  reflexivity.
Qed.

(** C5 (as amended).  For a fixed [t] the agent projector is idempotent in
    every agent's identity, progress and status, and idempotent on the whole
    agent state when [t] is a milestone of none of the agents; at a milestone
    of an agent a second application appends that milestone's line once
    more.  The engine itself never re-runs the projector at an unchanged
    clock: storing the time the clock already holds leaves the state as it
    is. *)
Theorem agent_projector_idempotent_off_milestones :
  (forall (t : Z) (prev : list Agent),
     map (fun a => (agent_id a, progress a, status a))
         (projectAgents t (projectAgents t prev)) =
     map (fun a => (agent_id a, progress a, status a)) (projectAgents t prev)) /\
  (forall (t : Z) (prev : list Agent),
     Forall (fun a => shouldLog (agent_id a) t = false) prev ->
     projectAgents t (projectAgents t prev) = projectAgents t prev) /\
  (forall (t : Z) (a : Agent),
     shouldLog (agent_id a) t = true ->
     logs (projectAgent t (projectAgent t a)) =
     sliceLast 20 (logs (projectAgent t a) ++ [logEntry (agent_id a) t])) /\
  (forall s : State, setT (time s) s = Some s).
Proof.
  split; [|split; [|split]].
  - intros t prev. unfold projectAgents.
    induction prev as [|a prev IH]; [reflexivity|].
    cbn [map]. rewrite IH.
    destruct (projectAgent_twice_stage t a) as (-> & -> & ->). reflexivity.
  - intros t prev Hq. unfold projectAgents.
    induction Hq as [|a prev Ha _ IH]; [reflexivity|].
    cbn [map]. rewrite IH, projectAgent_idempotent_quiet by exact Ha.
    reflexivity.
  - intros t a H.
    rewrite (projectAgent_logs t (projectAgent t a)), projectAgent_id, H.
    reflexivity.
  - intros s. unfold setT. rewrite Z.eqb_refl. reflexivity.
Qed.

(** The amended C5 on the initial agents: [t = 11] is no milestone, [t = 10]
    is one of the spec agent. *)
Lemma agent_projector_idempotent_off_milestones_witness :
  Forall (fun a => shouldLog (agent_id a) 11 = false) initialAgents /\
  projectAgents 11 (projectAgents 11 initialAgents) = projectAgents 11 initialAgents /\
  shouldLog "spec" 10 = true /\
  logs (projectAgent 10 (projectAgent 10 (mkAgent "spec" "Spec Agent" Queued 0 ["manifest"] []))) =
    ["00:10 • Parsing prompt → selecting template: CabinetCooling.EC2";
     "00:10 • Parsing prompt → selecting template: CabinetCooling.EC2"].
Proof.
  destruct agent_projector_idempotent_off_milestones as (_ & Hquiet & Hdup & _).
  assert (Hq : Forall (fun a => shouldLog (agent_id a) 11 = false) initialAgents)
    by (repeat constructor).
  split; [exact Hq|]. split; [exact (Hquiet 11 initialAgents Hq)|].
  split; [reflexivity|].
  exact (Hdup 10 (mkAgent "spec" "Spec Agent" Queued 0 ["manifest"] []) eq_refl).
Defined.

(** C5 as stated fails at a milestone: at [t = 10] one application leaves
    the spec agent with one log line, a second application with two. *)
Lemma agent_projector_idempotent_counterexample :
  map logs (projectAgents 10 initialAgents) =
    [["00:10 • Parsing prompt → selecting template: CabinetCooling.EC2"];
     []; []; []; []; []; []] /\
  map logs (projectAgents 10 (projectAgents 10 initialAgents)) =
    [["00:10 • Parsing prompt → selecting template: CabinetCooling.EC2";
      "00:10 • Parsing prompt → selecting template: CabinetCooling.EC2"];
     []; []; []; []; []; []].
Proof. split; reflexivity. Qed.


(** ** Artifact emitter *)

Lemma bump_bumpedOnly (k : string) (t : Z) (summ : string) (d : list DiffLine)
    (m : gmap string Artifact) :
  is_Some (m !! k) ->
  exists m', bump k t summ d m = Some m' /\ bumpedOnly k t summ d m m' /\
             (forall k', is_Some (m !! k') -> is_Some (m' !! k')).
Proof.
  intros [a Ha]. unfold bump. rewrite Ha. cbn.
  eexists. split; [reflexivity|]. split; [split|].
  - exists a, (bumped a t summ d). rewrite lookup_insert_eq.
    repeat split. exact Ha.
  - intros k' Hk. apply lookup_insert_ne. congruence.
  - intros k' Hk'. destruct (decide (k = k')) as [->|Hne].
    + rewrite lookup_insert_eq. eauto.
    + rewrite lookup_insert_ne by exact Hne. exact Hk'.
Qed.

Lemma emitArtifacts_quiet (t : Z) (m : gmap string Artifact) :
  t ∉ artifactThresholds -> emitArtifacts t m = Some m.
Proof.
  intros Ht. unfold emitArtifacts. cbn.
  repeat match goal with
  | |- context [t =? ?c] =>
      destruct (Z.eqb_spec t c) as [->|_];
      [exfalso; apply Ht; unfold artifactThresholds; set_solver | cbn]
  end.
  reflexivity.
Qed.

Lemma storeComplete_key (m : gmap string Artifact) (k : string) :
  storeComplete m -> k ∈ artifactKeys -> is_Some (m !! k).
Proof. intros H. apply H. Qed.

Lemma emitArtifacts_threshold (t : Z) (k summ : string) (d : list DiffLine)
    (m : gmap string Artifact) :
  storeComplete m ->
  emitArtifacts t m = bump k t summ d m ->
  k ∈ artifactKeys ->
  exists m', emitArtifacts t m = Some m' /\ storeComplete m' /\
             bumpedOnly k t summ d m m'.
Proof.
  intros Hm He Hk.
  destruct (bump_bumpedOnly k t summ d m (Hm k Hk)) as (m' & Hb & Hspec & Hkeep).
  exists m'. rewrite He. split; [exact Hb|]. split; [|exact Hspec].
  intros k' Hk'. apply Hkeep, Hm, Hk'.
Qed.

Lemma emitArtifacts_32 (m : gmap string Artifact) :
  emitArtifacts 32 m = bump "manifest" 32 manifestSummary manifestDiff m.
Proof. unfold emitArtifacts. cbn. destruct (bump _ _ _ _ m); reflexivity. Qed.

Lemma emitArtifacts_74 (m : gmap string Artifact) :
  emitArtifacts 74 m = bump "bindings" 74 bindingsSummary bindingsDiff m.
Proof. unfold emitArtifacts. cbn. destruct (bump _ _ _ _ m); reflexivity. Qed.

Lemma emitArtifacts_95 (m : gmap string Artifact) :
  emitArtifacts 95 m = bump "bindings" 95 derivedSummary derivedDiff m.
Proof. unfold emitArtifacts. cbn. destruct (bump _ _ _ _ m); reflexivity. Qed.

Lemma emitArtifacts_120 (m : gmap string Artifact) :
  emitArtifacts 120 m = bump "kpis" 120 kpisSummary kpisDiff m.
Proof. unfold emitArtifacts. cbn. destruct (bump _ _ _ _ m); reflexivity. Qed.

Lemma emitArtifacts_140 (m : gmap string Artifact) :
  emitArtifacts 140 m = bump "views" 140 viewsSummary viewsDiff m.
Proof. unfold emitArtifacts. cbn. destruct (bump _ _ _ _ m); reflexivity. Qed.

Lemma emitArtifacts_160 (m : gmap string Artifact) :
  emitArtifacts 160 m = bump "validation" 160 validationSummary validationDiff m.
Proof. unfold emitArtifacts. cbn. destruct (bump _ _ _ _ m); reflexivity. Qed.

Lemma initialArtifacts_complete : storeComplete initialArtifacts.
Proof.
  intros k Hk. unfold artifactKeys in Hk.
  repeat (apply elem_of_cons in Hk as [->|Hk]; [vm_compute; eauto|]).
  inversion Hk.
Qed.

(** The emitter never fails on a complete store, keeps it complete, and
    changes it only at a threshold. *)
Lemma emitArtifacts_total (t : Z) (m : gmap string Artifact) :
  storeComplete m ->
  exists m', emitArtifacts t m = Some m' /\ storeComplete m'.
Proof.
  intros Hm.
  destruct (decide (t ∈ artifactThresholds)) as [Hin|Hout].
  - unfold artifactThresholds in Hin.
    repeat (apply elem_of_cons in Hin as [->|Hin]);
      [ destruct (emitArtifacts_threshold _ _ _ _ m Hm (emitArtifacts_32 m)) as (m' & ? & ? & _)
      | destruct (emitArtifacts_threshold _ _ _ _ m Hm (emitArtifacts_74 m)) as (m' & ? & ? & _)
      | destruct (emitArtifacts_threshold _ _ _ _ m Hm (emitArtifacts_95 m)) as (m' & ? & ? & _)
      | destruct (emitArtifacts_threshold _ _ _ _ m Hm (emitArtifacts_120 m)) as (m' & ? & ? & _)
      | destruct (emitArtifacts_threshold _ _ _ _ m Hm (emitArtifacts_140 m)) as (m' & ? & ? & _)
      | destruct (emitArtifacts_threshold _ _ _ _ m Hm (emitArtifacts_160 m)) as (m' & ? & ? & _)
      | inversion Hin ];
      try (unfold artifactKeys; set_solver); eauto.
  - exists m. split; [apply emitArtifacts_quiet, Hout | exact Hm].
Qed.


(** ** Bus event emitter *)

Lemma pushBus_length (evt : BusEvent) (prev : list BusEvent) :
  length (pushBus evt prev) = Nat.min 70 (S (length prev)).
Proof.
  unfold pushBus. rewrite length_drop, length_app. cbn [length]. lia.
Qed.

Lemma pushBus_last (evt : BusEvent) (prev : list BusEvent) :
  last (pushBus evt prev) = Some evt.
Proof.
  unfold pushBus.
  set (k := Z.to_nat _).
  assert (Hk : (k <= length prev)%nat)
    by (subst k; rewrite length_app; cbn [length]; lia).
  rewrite drop_app_le by exact Hk. apply last_snoc.
Qed.

Lemma busActivity_quiet (t : Z) (prev : list BusEvent) :
  t ∉ busTimes -> busActivity t prev = prev.
Proof.
  intros Ht. unfold busActivity, busAt.
  repeat match goal with
  | |- context [t =? ?c] =>
      destruct (Z.eqb_spec t c) as [->|_];
      [exfalso; apply Ht; unfold busTimes; set_solver |]
  end.
  reflexivity.
Qed.

Lemma busActivity_fires (t : Z) (prev : list BusEvent) :
  t ∈ busTimes ->
  exists evt : BusEvent,
    busActivity t [] = [evt] /\ ev_t evt = t /\
    busActivity t prev = pushBus evt prev.
Proof.
  intros Ht. unfold busTimes in Ht.
  repeat (apply elem_of_cons in Ht as [->|Ht];
          [eexists; split; [reflexivity|]; split; reflexivity|]).
  inversion Ht.
Qed.

(** C3 (as amended).  The bus script has thirteen literal timestamps, the
    first [t = 2] with "Workspace created: ebm-papst/cabinetA" and the last
    [t = 162]; at each of them the emitter appends exactly one event with a
    fixed bus, severity and message (keeping the most recent 70), and at any
    other time it appends nothing. *)
Theorem bus_events_at_thirteen_timestamps :
  (NoDup busTimes /\ length busTimes = 13%nat /\
   head busTimes = Some 2 /\ last busTimes = Some 162) /\
  (forall (t : Z) (prev : list BusEvent),
     t ∈ busTimes ->
     exists evt : BusEvent,
       busActivity t [] = [evt] /\ ev_t evt = t /\
       busActivity t prev = pushBus evt prev /\
       last (busActivity t prev) = Some evt /\
       length (busActivity t prev) = Nat.min 70 (S (length prev))) /\
  (forall (t : Z) (prev : list BusEvent),
     t ∉ busTimes -> busActivity t prev = prev) /\
  busActivity 2 [] =
    [mkBusEvent 2 TimescaleDB info "Workspace created: ebm-papst/cabinetA"] /\
  busActivity 162 [] =
    [mkBusEvent 162 TimescaleDB ok "Ready to deploy: staging candidate v1.0"].
Proof.
  split; [|split; [|split; [|split]]].
  - split; [apply (bool_decide_unpack _); vm_compute; exact I|].
    repeat split.
  - intros t prev Ht.
    destruct (busActivity_fires t prev Ht) as (evt & H1 & H2 & H3).
    exists evt. rewrite H3, pushBus_last, pushBus_length. auto.
  - apply busActivity_quiet.
  - reflexivity.
  - reflexivity.
Qed.

(** The amended C3 at [t = 148] on an empty log, and at [t = 149]. *)
Lemma bus_events_at_thirteen_timestamps_witness :
  148 ∈ busTimes /\ (149 ∉ busTimes) /\
  (exists evt : BusEvent,
     busActivity 148 [] = [evt] /\ ev_t evt = 148 /\
     ev_msg evt = "Validation passed (0 errors, 2 warnings)") /\
  busActivity 149 [] = [].
Proof.
  destruct bus_events_at_thirteen_timestamps as (_ & Hfire & Hquiet & _).
  assert (Hin : 148 ∈ busTimes) by (apply (bool_decide_unpack _); vm_compute; exact I).
  assert (Hout : 149 ∉ busTimes) by (apply (bool_decide_unpack _); vm_compute; exact I).
  split; [exact Hin|]. split; [exact Hout|]. split.
  - destruct (Hfire 148 [] Hin) as (evt & H1 & H2 & _).
    exists evt. split; [exact H1|]. split; [exact H2|].
    injection H1 as <-. reflexivity.
  - exact (Hquiet 149 [] Hout).
Defined.

(** C3 as stated fails on the count: over the whole run the bus script
    fires at thirteen times, not fourteen. *)
Lemma bus_events_counterexample :
  List.filter busFires runSeconds =
    [2; 8; 33; 38; 44; 52; 60; 68; 76; 82; 131; 148; 162] /\
  length (List.filter busFires runSeconds) = 13%nat.
Proof. split; vm_compute; reflexivity. Qed.


(** ** KPI projector *)

Lemma phase1_positive (t : Z) : Qltb 0 (phase1 t) = (55 <? t).
Proof.
  unfold phase1, clamp.
  destruct (Z.ltb_spec 55 t) as [Hlt|Hle].
  - apply Qltb_spec. apply Q.max_lt_iff. right.
    rewrite Zlt_Qlt in Hlt. change (inject_Z 55) with 55%Q in Hlt.
    apply Q.min_glb_lt; [reflexivity|].
    apply Qlt_shift_div_l; [reflexivity|]. Lqa.lra.
  - apply Qltb_false. rewrite Zle_Qle in Hle.
    change (inject_Z 55) with 55%Q in Hle.
    apply Q.max_lub; [apply Qle_refl|].
    apply Q.min_le_iff. right.
    apply Qle_shift_div_r; [reflexivity|]. Lqa.lra.
Qed.

Lemma kpiSample_before (t : Z) (key : string) :
  t <= 55 -> kpiSample t key = (None, 0).
Proof.
  intros H. unfold kpiSample. rewrite phase1_positive.
  destruct (Z.ltb_spec 55 t); [lia | reflexivity].
Qed.

Lemma kpiSample_after (t : Z) (key : string) :
  55 < t -> key ∈ kpiKeys -> is_Some (fst (kpiSample t key)).
Proof.
  intros H Hk. unfold kpiSample. rewrite phase1_positive.
  destruct (Z.ltb_spec 55 t); [|lia].
  unfold kpiKeys in Hk.
  repeat (apply elem_of_cons in Hk as [->|Hk]; [cbn; eauto|]).
  inversion Hk.
Qed.

Lemma projectKpi_key (t : Z) (k : KPI) : kpi_key (projectKpi t k) = kpi_key k.
Proof. unfold projectKpi. destruct (kpiSample _ _). reflexivity. Qed.

Lemma projectKpi_sample (t : Z) (k : KPI) :
  (value (projectKpi t k), confidence (projectKpi t k)) = kpiSample t (kpi_key k).
Proof. unfold projectKpi. destruct (kpiSample _ _). reflexivity. Qed.

Lemma projectKpis_keys (t : Z) (prevKpis : list KPI) :
  map kpi_key (projectKpis t prevKpis) = map kpi_key prevKpis.
Proof.
  unfold projectKpis. induction prevKpis as [|k ks IH]; [reflexivity|].
  cbn [map]. rewrite IH, projectKpi_key. reflexivity.
Qed.

(** Value and confidence of a projected KPI with one of the five keys. *)
Lemma projectKpi_null_iff (t : Z) (k : KPI) :
  kpi_key k ∈ kpiKeys ->
  (value (projectKpi t k) = None <-> t <= 55) /\
  (value (projectKpi t k) = None -> confidence (projectKpi t k) = 0).
Proof.
  intros Hk. pose proof (projectKpi_sample t k) as Hs.
  destruct (Z.le_gt_cases t 55) as [Hle|Hgt].
  - rewrite kpiSample_before in Hs by exact Hle. inversion Hs. tauto.
  - pose proof (kpiSample_after t (kpi_key k) Hgt Hk) as [r Hr].
    rewrite <- Hs in Hr. cbn [fst] in Hr. rewrite Hr.
    split; [split; [discriminate | lia] | discriminate].
Qed.

Lemma trendOf_zero : trendOf (0 - 0) = flat.
Proof.
  unfold trendOf. destruct (Rlt_dec _ _) as [_|Hn]; [reflexivity|].
  exfalso. apply Hn. rewrite Rminus_diag, Rabs_R0. unfold trendThreshold. lra.
Qed.

Lemma projectKpi_baseline (k : KPI) :
  value k = None -> trend k = flat -> confidence k = 0 ->
  projectKpi 0 k = k.
Proof.
  intros Hv Ht Hc. unfold projectKpi.
  rewrite kpiSample_before by lia. rewrite Hv. cbn [default].
  rewrite trendOf_zero. destruct k. cbn in *. subst. reflexivity.
Qed.

Lemma projectKpis_initial : projectKpis 0 initialKpis = initialKpis.
Proof.
  unfold projectKpis, initialKpis. cbn [map].
  rewrite !projectKpi_baseline by reflexivity. reflexivity.
Qed.


(** ** The engine: effects, ticks and runs *)

Lemma effects_inv (s s' : State) :
  effects s = Some s' ->
  time s' = time s /\
  running s' = (if duration <=? time s then false else running s) /\
  agents s' = projectAgents (time s) (agents s) /\
  emitArtifacts (time s) (artifacts s) = Some (artifacts s') /\
  busEvents s' = busActivity (time s) (busEvents s) /\
  kpis s' = projectKpis (time s) (kpis s) /\
  deployStage s' = deployStage s /\
  deployEnabled s' = (if deployReady timeline <=? time s then true else deployEnabled s).
Proof.
  unfold effects. destruct (emitArtifacts _ _) as [arts|]; [|discriminate].
  cbn. intros [= <-]. cbn. repeat split.
Qed.

Lemma effects_total (s : State) :
  storeComplete (artifacts s) -> exists s', effects s = Some s'.
Proof.
  intros Hm. destruct (emitArtifacts_total (time s) _ Hm) as (m' & Hm' & _).
  unfold effects. rewrite Hm'. cbn. eauto.
Qed.

Lemma effects_initial : effects initialState = Some initialState.
Proof.
  unfold effects. cbn [time artifacts initialState].
  rewrite emitArtifacts_quiet by (apply (bool_decide_unpack _); vm_compute; exact I).
  cbn -[projectKpis]. rewrite projectKpis_initial. reflexivity.
Qed.

Lemma mount_initial : mount = Some initialState.
Proof. exact effects_initial. Qed.

Lemma runFor_S (n : nat) : runFor (S n) = runFor n ≫= tick.
Proof. unfold runFor. destruct mount; reflexivity. Qed.

Lemma runFor_reachable (n : nat) (s : State) : runFor n = Some s -> reachable s.
Proof.
  revert s. induction n as [|n IH]; intros s H.
  - apply reach_mount. unfold runFor in H. destruct mount; exact H.
  - rewrite runFor_S in H. destruct (runFor n) as [s0|]; [|discriminate].
    apply (reach_tick s0); [apply IH; reflexivity | exact H].
Qed.

Lemma map_projectAgents_id (t : Z) (prev : list Agent) :
  map agent_id (projectAgents t prev) = map agent_id prev.
Proof.
  unfold projectAgents. induction prev as [|a prev IH]; [reflexivity|].
  cbn [map]. rewrite IH, projectAgent_id. reflexivity.
Qed.

Lemma initialState_scriptedRun : scriptedRun initialState.
Proof.
  unfold scriptedRun, projected. cbn.
  split; [lia|]. repeat split.
  - exists initialAgents. split; reflexivity.
  - exists initialKpis. split; [symmetry; apply projectKpis_initial | reflexivity].
  - apply initialArtifacts_complete.
Qed.

(** A firing of the interval while the clock is short of the end. *)
Lemma tick_running (s : State) :
  running s = true -> time s < 180 -> storeComplete (artifacts s) ->
  exists s', tick s = Some s' /\
    time s' = time s + 1 /\
    running s' = (time s + 1 <? 180) /\
    agents s' = projectAgents (time s + 1) (agents s) /\
    emitArtifacts (time s + 1) (artifacts s) = Some (artifacts s') /\
    storeComplete (artifacts s') /\
    busEvents s' = busActivity (time s + 1) (busEvents s) /\
    kpis s' = projectKpis (time s + 1) (kpis s) /\
    deployStage s' = deployStage s /\
    deployEnabled s' = (if 160 <=? time s + 1 then true else deployEnabled s).
Proof.
  intros Hrun Ht Hm. unfold tick, setT. rewrite Hrun.
  unfold duration. destruct (Z.leb_spec 180 (time s)); [lia|].
  destruct (Z.eqb_spec (time s + 1) (time s)); [lia|].
  destruct (effects_total (withTime (time s + 1) s) Hm) as (s' & Hs').
  exists s'. split; [exact Hs'|].
  destruct (effects_inv _ _ Hs') as (H1 & H2 & H3 & H4 & H5 & H6 & H7 & H8).
  cbn [withTime time running agents artifacts busEvents kpis deployStage deployEnabled] in *.
  repeat split; try assumption.
  - rewrite H2, Hrun. unfold duration.
    destruct (Z.leb_spec 180 (time s + 1)), (Z.ltb_spec (time s + 1) 180); lia || reflexivity.
  - destruct (emitArtifacts_total (time s + 1) _ Hm) as (m' & Hm' & Hc).
    rewrite Hm' in H4. injection H4 as <-. exact Hc.
Qed.

Lemma tick_paused (s : State) : running s = false -> tick s = Some s.
Proof. intros H. unfold tick. rewrite H. reflexivity. Qed.

Lemma tick_scriptedRun (s : State) :
  scriptedRun s ->
  exists s', tick s = Some s' /\ scriptedRun s' /\ time s' = Z.min (time s + 1) 180.
Proof.
  intros Hinv. pose proof Hinv as (Hrange & Hrun & Hen & Hst & (HA & HK & Hm)).
  destruct (Z.ltb_spec (time s) 180) as [Hlt|Hge].
  - destruct (tick_running s Hrun Hlt Hm)
      as (s' & Ht & H1 & H2 & H3 & H4 & H5 & H6 & H7 & H8 & H9).
    exists s'. split; [exact Ht|]. split; [|lia].
    unfold scriptedRun, projected. rewrite H1, H2, H3, H7, H8, H9, Hen, Hst.
    split; [lia|]. split; [reflexivity|]. split.
    { destruct (Z.leb_spec 160 (time s + 1)), (Z.leb_spec 160 (time s)); lia || reflexivity. }
    split; [reflexivity|]. split; [|split; [|exact H5]].
    + destruct HA as (prevA & HA1 & HA2). exists (agents s). split; [reflexivity|].
      rewrite HA1, map_projectAgents_id. exact HA2.
    + destruct HK as (prevK & HK1 & HK2). exists (kpis s). split; [reflexivity|].
      rewrite HK1, projectKpis_keys. exact HK2.
  - exists s. rewrite tick_paused by exact Hrun.
    split; [reflexivity|]. split; [exact Hinv | lia].
Qed.

(** An untouched run never fails, and its clock counts the seconds up to
    the duration. *)
Lemma runFor_scriptedRun (n : nat) :
  exists s, runFor n = Some s /\ scriptedRun s /\
            time s = Z.min (Z.of_nat n) 180.
Proof.
  induction n as [|n (s & Hs & Hinv & Ht)].
  - exists initialState. unfold runFor. rewrite mount_initial.
    split; [reflexivity|]. split; [apply initialState_scriptedRun | reflexivity].
  - destruct (tick_scriptedRun s Hinv) as (s' & Hs' & Hinv' & Ht').
    exists s'. rewrite runFor_S, Hs. split; [exact Hs'|]. split; [exact Hinv'|]. lia.
Qed.

Lemma emitArtifacts_bumpedOnly (t : Z) (k summ : string) (d : list DiffLine)
    (m m' : gmap string Artifact) :
  storeComplete m -> k ∈ artifactKeys ->
  emitArtifacts t m = bump k t summ d m ->
  emitArtifacts t m = Some m' ->
  bumpedOnly k t summ d m m'.
Proof.
  intros Hm Hk He Hs.
  destruct (emitArtifacts_threshold t k summ d m Hm He Hk) as (m2 & H2 & _ & Hb).
  rewrite Hs in H2. injection H2 as <-. exact Hb.
Qed.

Ltac artifact_key := unfold artifactKeys; apply (bool_decide_unpack _); vm_compute; exact I.

(** One second of an untouched run, from [t - 1] to [t]. *)
Lemma run_second (t : Z) :
  1 <= t <= 180 ->
  exists s s',
    runFor (Z.to_nat (t - 1)) = Some s /\ time s = t - 1 /\
    runFor (Z.to_nat t) = Some s' /\ time s' = t /\
    storeComplete (artifacts s) /\
    emitArtifacts t (artifacts s) = Some (artifacts s') /\
    agents s' = projectAgents t (agents s) /\
    map agent_id (agents s) = agentIds.
Proof.
  intros Ht.
  destruct (runFor_scriptedRun (Z.to_nat (t - 1))) as (s & Hs & Hinv & Htime).
  rewrite Z2Nat.id in Htime by lia.
  assert (Hts : time s = t - 1) by lia.
  destruct Hinv as (_ & Hrun & _ & _ & ((prevA & HA1 & HA2) & _ & Hm)).
  assert (Hr : running s = true) by (rewrite Hrun; apply Z.ltb_lt; lia).
  destruct (tick_running s Hr ltac:(lia) Hm) as (s' & Hk & H1 & _ & H3 & H4 & _).
  exists s, s'. replace (time s + 1) with t in * by lia.
  split; [exact Hs|]. split; [exact Hts|]. split.
  { replace (Z.to_nat t) with (S (Z.to_nat (t - 1))) by lia.
    rewrite runFor_S, Hs. exact Hk. }
  repeat split; try assumption.
  rewrite HA1, map_projectAgents_id. exact HA2.
Qed.

(** C1.  In a run that advances one second at a time from 0 to 180, all
    versions start at 0, and the step to second [t] bumps exactly one
    artifact when [t] is one of the six thresholds (manifest at 32, bindings
    at 74 and again at 95, kpis at 120, views at 140, validation at 160): its
    version goes up by 1, its update time becomes [t], its summary and diff
    lines are replaced by the scripted ones, and no other entry changes; at
    any other second the store is unchanged. *)
Theorem artifact_emission_schedule :
  (exists s0 : State,
     runFor 0 = Some s0 /\
     Forall (fun k => version <$> (artifacts s0 !! k) = Some 0) artifactKeys) /\
  (forall t : Z, 1 <= t <= 180 ->
   exists s s' : State,
     runFor (Z.to_nat (t - 1)) = Some s /\ time s = t - 1 /\
     runFor (Z.to_nat t) = Some s' /\ time s' = t /\
     (t = 32 ->
      bumpedOnly "manifest" t manifestSummary manifestDiff (artifacts s) (artifacts s')) /\
     (t = 74 ->
      bumpedOnly "bindings" t bindingsSummary bindingsDiff (artifacts s) (artifacts s')) /\
     (t = 95 ->
      bumpedOnly "bindings" t derivedSummary derivedDiff (artifacts s) (artifacts s')) /\
     (t = 120 ->
      bumpedOnly "kpis" t kpisSummary kpisDiff (artifacts s) (artifacts s')) /\
     (t = 140 ->
      bumpedOnly "views" t viewsSummary viewsDiff (artifacts s) (artifacts s')) /\
     (t = 160 ->
      bumpedOnly "validation" t validationSummary validationDiff (artifacts s) (artifacts s')) /\
     (t ∉ artifactThresholds -> artifacts s' = artifacts s)).
Proof.
  split.
  - exists initialState. unfold runFor. rewrite mount_initial.
    split; [reflexivity|]. cbn [artifacts initialState].
    repeat (apply Forall_cons; split; [vm_compute; reflexivity|]). apply Forall_nil; exact I.
  - intros t Ht.
    destruct (run_second t Ht) as (s & s' & Hs & Hts & Hs' & Hts' & Hm & He & _).
    exists s, s'. repeat (split; [assumption|]).
    split; [|split; [|split; [|split; [|split; [|split]]]]].
    + intros ->. eapply emitArtifacts_bumpedOnly;
        [exact Hm | artifact_key | apply emitArtifacts_32 | exact He].
    + intros ->. eapply emitArtifacts_bumpedOnly;
        [exact Hm | artifact_key | apply emitArtifacts_74 | exact He].
    + intros ->. eapply emitArtifacts_bumpedOnly;
        [exact Hm | artifact_key | apply emitArtifacts_95 | exact He].
    + intros ->. eapply emitArtifacts_bumpedOnly;
        [exact Hm | artifact_key | apply emitArtifacts_120 | exact He].
    + intros ->. eapply emitArtifacts_bumpedOnly;
        [exact Hm | artifact_key | apply emitArtifacts_140 | exact He].
    + intros ->. eapply emitArtifacts_bumpedOnly;
        [exact Hm | artifact_key | apply emitArtifacts_160 | exact He].
    + intros Hq. rewrite emitArtifacts_quiet in He by exact Hq.
      injection He as <-. reflexivity.
Qed.

(** C1 at the second bump of the bindings artifact, [t = 95]. *)
Lemma artifact_emission_schedule_witness :
  1 <= 95 <= 180 /\
  exists s s' : State,
    runFor 94 = Some s /\ runFor 95 = Some s' /\ time s' = 95 /\
    bumpedOnly "bindings" 95 derivedSummary derivedDiff (artifacts s) (artifacts s').
Proof.
  assert (Hr : 1 <= 95 <= 180) by lia.
  split; [exact Hr|].
  destruct (proj2 artifact_emission_schedule 95 Hr)
    as (s & s' & Hs & _ & Hs' & Ht & _ & _ & H95 & _).
  exists s, s'. split; [exact Hs|]. split; [exact Hs'|]. split; [exact Ht|].
  exact (H95 eq_refl).
Defined.

Lemma projectKpi_value (t : Z) (k : KPI) :
  value (projectKpi t k) = fst (kpiSample t (kpi_key k)).
Proof. rewrite <- projectKpi_sample. reflexivity. Qed.

Lemma projectKpis_null_iff (t : Z) (prevK : list KPI) :
  map kpi_key prevK = kpiKeys ->
  Forall (fun k => (value k = None <-> t <= 55) /\
                   (value k = None -> confidence k = 0))
         (projectKpis t prevK).
Proof.
  intros Hkeys. unfold projectKpis. apply Forall_forall. intros k' Hk'.
  apply list_elem_of_fmap in Hk' as (k & -> & Hk).
  apply projectKpi_null_iff. rewrite <- Hkeys.
  apply list_elem_of_fmap. exists k. split; [reflexivity | exact Hk].
Qed.

(** C2 (as amended).  In a run that advances one second at a time from 0,
    each of the five KPIs has a null value at every second up to and
    including 55 and a non-null real value from second 56 on; its confidence
    is 0 whenever its value is null. *)
Theorem kpi_value_null_through_55 (n : nat) :
  exists s : State,
    runFor n = Some s /\ time s = Z.min (Z.of_nat n) 180 /\
    map kpi_key (kpis s) = kpiKeys /\
    Forall (fun k => (value k = None <-> time s <= 55) /\
                     (value k = None -> confidence k = 0))
           (kpis s).
Proof.
  destruct (runFor_scriptedRun n) as (s & Hs & Hinv & Ht).
  exists s. split; [exact Hs|]. split; [exact Ht|].
  destruct Hinv as (_ & _ & _ & _ & (_ & (prevK & HK1 & HK2) & _)).
  rewrite HK1. split; [rewrite projectKpis_keys; exact HK2|].
  apply projectKpis_null_iff, HK2.
Qed.

(** The amended C2 one second after the boundary: at second 56 every KPI
    has a value. *)
Lemma kpi_value_null_through_55_witness :
  exists s : State,
    runFor 56 = Some s /\ time s = 56 /\ length (kpis s) = 5%nat /\
    Forall (fun k => is_Some (value k)) (kpis s).
Proof.
  destruct (kpi_value_null_through_55 56) as (s & Hs & Ht & Hk & Hv).
  exists s. split; [exact Hs|]. split; [exact Ht|]. split.
  - rewrite <- (length_map kpi_key), Hk. reflexivity.
  - eapply Forall_impl; [exact Hv|].
    intros k [Hiff _]. destruct (value k) as [r|]; [eauto|].
    exfalso. rewrite Ht in Hiff. pose proof (proj1 Hiff eq_refl). lia.
Defined.

(** C2 as stated fails at the boundary: at second 55 of the run, all five
    KPI values are still null. *)
Lemma kpi_value_counterexample :
  map value (projectKpis 55 initialKpis) = [None; None; None; None; None] /\
  exists s : State,
    runFor 55 = Some s /\ time s = 55 /\ length (kpis s) = 5%nat /\
    Forall (fun k => value k = None) (kpis s).
Proof.
  split.
  - unfold projectKpis, initialKpis. cbn [map].
    rewrite !projectKpi_value, !kpiSample_before by lia. reflexivity.
  - destruct (runFor_scriptedRun 55) as (s & Hs & Hinv & Ht).
    exists s. split; [exact Hs|]. split; [exact Ht|].
    destruct Hinv as (_ & _ & _ & _ & (_ & (prevK & HK1 & HK2) & _)).
    rewrite HK1. split.
    + rewrite <- (length_map kpi_key), projectKpis_keys, HK2. reflexivity.
    + eapply Forall_impl; [exact (projectKpis_null_iff (time s) prevK HK2)|].
      intros k [Hiff _]. apply Hiff. rewrite Ht. lia.
Qed.

(** C6.  After driving the clock one second at a time from 0 to 33, the
    Connector agent (window [30, 74]) has progress round(100 * 3 / 44) = 7
    and, below the 20 percent cutoff, status Planning. *)
Theorem connector_planning_at_33 :
  exists s : State,
    runFor 33 = Some s /\ time s = 33 /\
    (exists a : Agent, a ∈ agents s /\ agent_id a = "conn") /\
    (forall a : Agent, a ∈ agents s -> agent_id a = "conn" ->
       progress a = 7 /\ status a = Planning) /\
    (connStart timeline = 30 /\ connEnd timeline = 74 /\
     Math_round (100 * 3 / 44) = 7 /\
     stageProgress 33 30 74 = 7 /\
     computeStatus 33 7 30 74 = Planning).
Proof.
  destruct (run_second 33 ltac:(lia)) as (s0 & s & _ & _ & Hs & Ht & _ & _ & Hag & Hids).
  exists s. split; [exact Hs|]. split; [exact Ht|].
  assert (Hconn : forall a0 : Agent, agent_id a0 = "conn" ->
            progress (projectAgent 33 a0) = 7 /\ status (projectAgent 33 a0) = Planning).
  { intros a0 Hid. pose proof (projectAgent_stage 33 a0) as Hst.
    rewrite Hid in Hst.
    assert (Hstage : agentStage "conn" 33 = (7, Planning)) by (vm_compute; reflexivity).
    rewrite Hstage in Hst. inversion Hst. auto. }
  rewrite Hag. unfold projectAgents. split; [|split].
  - assert (Hin : "conn" ∈ map agent_id (agents s0))
      by (rewrite Hids; apply (bool_decide_unpack _); vm_compute; exact I).
    apply list_elem_of_fmap in Hin as (a0 & Hid & Hin).
    exists (projectAgent 33 a0). split.
    + apply list_elem_of_fmap. exists a0. auto.
    + rewrite projectAgent_id. auto.
  - intros a Ha Hid. apply list_elem_of_fmap in Ha as (a0 & -> & _).
    rewrite projectAgent_id in Hid. apply Hconn, Hid.
  - split; [reflexivity|]. split; [reflexivity|]. split; [reflexivity|].
    split; [vm_compute; reflexivity | reflexivity].
Qed.

Lemma setT_agents (P : Agent -> Prop) (v : Z) (s s' : State) :
  (forall t a, P (projectAgent t a)) ->
  setT v s = Some s' -> Forall P (agents s) -> Forall P (agents s').
Proof.
  intros HP. unfold setT. destruct (v =? time s).
  - intros [= <-]. auto.
  - intros He _. apply effects_inv in He as (_ & _ & -> & _).
    unfold projectAgents. apply Forall_forall. intros a Ha.
    apply list_elem_of_fmap in Ha as (a0 & -> & _). apply HP.
Qed.

Lemma scriptedStatus_not_Failed (st : AgentStatus) :
  scriptedStatus st -> st <> Failed.
Proof. intros [H|[H|[H|[H|H]]]]; rewrite H; discriminate. Qed.

Lemma projectAgent_never_Failed (t : Z) (a : Agent) :
  scriptedStatus (status (projectAgent t a)) /\ status (projectAgent t a) <> Failed.
Proof.
  split; [|apply scriptedStatus_not_Failed]; apply projectAgent_scripted.
Qed.

Lemma initialAgents_Queued :
  Forall (fun a => scriptedStatus (status a) /\ status a <> Failed) initialAgents.
Proof.
  unfold initialAgents.
  repeat (apply Forall_cons; split; [split; [left; reflexivity | discriminate]|]).
  apply Forall_nil; exact I.
Qed.

(** C10.  In every state the user can reach by ticks, jumps, resets,
    play/pause and the deploy buttons, every agent's status is one of Queued,
    Planning, Running, Needs review and Done; none is ever Failed. *)
Theorem no_agent_ever_failed (s : State) :
  reachable s ->
  Forall (fun a => scriptedStatus (status a) /\ status a <> Failed) (agents s).
Proof.
  induction 1 as [s Hm | s s' _ IH Ht | s s' _ IH Hj | s s' _ IH Hj
                 | s s' _ IH Hr | s _ IH | s _ IH | s _ IH].
  - rewrite mount_initial in Hm. injection Hm as <-. apply initialAgents_Queued.
  - unfold tick in Ht. destruct (running s).
    + eapply setT_agents; [apply projectAgent_never_Failed | exact Ht | exact IH].
    + injection Ht as <-. exact IH.
  - eapply setT_agents; [apply projectAgent_never_Failed | exact Hj | exact IH].
  - eapply setT_agents; [apply projectAgent_never_Failed | exact Hj | exact IH].
  - unfold resetDemo in Hr. rewrite effects_initial in Hr.
    destruct (time s =? 0); injection Hr as <-; apply initialAgents_Queued.
  - exact IH.
  - unfold promote. destruct (negb _); [exact IH|].
    destruct (deployStage s); exact IH.
  - exact IH.
Qed.

(** C10 on the state of the first render and on the state after 78 seconds
    of the run. *)
Lemma no_agent_ever_failed_witness :
  (reachable initialState /\
   Forall (fun a => scriptedStatus (status a) /\ status a <> Failed) (agents initialState)) /\
  (exists s : State,
     runFor 78 = Some s /\ reachable s /\
     Forall (fun a => scriptedStatus (status a) /\ status a <> Failed) (agents s)).
Proof.
  split.
  - assert (Hr : reachable initialState) by (apply reach_mount, mount_initial).
    split; [exact Hr | exact (no_agent_ever_failed initialState Hr)].
  - destruct (runFor_scriptedRun 78) as (s & Hs & _).
    assert (Hr : reachable s) by (exact (runFor_reachable 78 s Hs)).
    exists s. split; [exact Hs|]. split; [exact Hr|].
    exact (no_agent_ever_failed s Hr).
Defined.



Lemma promote_enabled (s : State) :
  deployEnabled s = true ->
  promote s = match deployStage s with
              | Draft => setDeployStage Staging s
              | Staging => setDeployStage Prod s
              | Prod => s
              end.
Proof. intros H. unfold promote. rewrite H. reflexivity. Qed.



(** C9.  From any state, [resetDemo] yields the baseline: clock 0, the seven
    agents Queued with progress 0 and no logs, the five artifacts at version
    0 with their initial summaries, no bus event, the five KPIs with a null
    value, confidence 0 and a flat trend, stage Draft and the deploy gate
    closed. *)
Theorem reset_restores_baseline (s : State) :
  exists s' : State,
    resetDemo s = Some s' /\ s' = initialState /\
    time s' = 0 /\
    (map agent_id (agents s') = agentIds /\
     Forall (fun a => status a = Queued /\ progress a = 0 /\ logs a = []) (agents s')) /\
    (dom (artifacts s') = list_to_set artifactKeys /\
     Forall (fun k => version <$> (artifacts s' !! k) = Some 0) artifactKeys /\
     map (fun k => summary <$> (artifacts s' !! k)) artifactKeys =
       [Some "No manifest yet."; Some "No bindings yet."; Some "No KPIs yet.";
        Some "No views yet."; Some "Not validated."]) /\
    busEvents s' = [] /\
    (map kpi_key (kpis s') = kpiKeys /\
     Forall (fun k => value k = None /\ confidence k = 0 /\ trend k = flat) (kpis s')) /\
    deployStage s' = Draft /\ deployEnabled s' = false.
Proof.
  exists initialState. split.
  { unfold resetDemo. rewrite effects_initial. destruct (time s =? 0); reflexivity. }
  split; [reflexivity|]. split; [reflexivity|]. split; [|split; [|split; [|split]]].
  - split; [reflexivity|]. cbn [agents initialState]. unfold initialAgents.
    repeat (apply Forall_cons; split; [repeat split|]). apply Forall_nil; exact I.
  - cbn [artifacts initialState]. split; [|split].
    + unfold initialArtifacts, artifactKeys. rewrite !dom_insert_L, dom_empty_L.
      cbn. reflexivity.
    + repeat (apply Forall_cons; split; [vm_compute; reflexivity|]).
      apply Forall_nil; exact I.
    + vm_compute. reflexivity.
  - reflexivity.
  - split; [reflexivity|]. cbn [kpis initialState]. unfold initialKpis.
    repeat (apply Forall_cons; split; [repeat split|]). apply Forall_nil; exact I.
  - split; reflexivity.
Qed.


(** * Further properties *)

(** ** Status of a stage *)

Lemma Qltb_inject_Z (a b : Z) : Qltb (inject_Z a) (inject_Z b) = (a <? b).
Proof.
  destruct (Z.ltb_spec a b) as [H|H].
  - apply Qltb_spec. rewrite <- Zlt_Qlt. exact H.
  - apply Qltb_false. rewrite <- Zle_Qle. exact H.
Qed.

Lemma Qle_bool_inject_Z (a b : Z) : Qle_bool (inject_Z a) (inject_Z b) = (a <=? b).
Proof.
  destruct (Z.leb_spec a b) as [H|H].
  - apply Qle_bool_iff. rewrite <- Zle_Qle. exact H.
  - destruct (Qle_bool (inject_Z a) (inject_Z b)) eqn:E; [|reflexivity].
    apply Qle_bool_iff in E. rewrite <- Zle_Qle in E. lia.
Qed.

(** On integer seconds [computeStatus] compares integers. *)
Lemma computeStatus_integers (t p start end_ : Z) :
  computeStatus (inject_Z t) p (inject_Z start) (inject_Z end_) =
  if t <? start then Queued
  else if (0 <? p) && (p <? 20) then Planning
  else if (20 <=? p) && (p <? 95) then Running
  else if (95 <=? p) && (t <? end_) then NeedsReview
  else if end_ <=? t then Done
  else Queued.
Proof.
  unfold computeStatus. rewrite !Qltb_inject_Z, Qle_bool_inject_Z. reflexivity.
Qed.

(** X1.  The status of a stage at the integer second [t], for a window of
    integer seconds [start < end] up to [maxWidth] = 180 seconds wide, read
    off its progress [p = stageProgress t start end] on doubles: Done exactly
    from the end of the window on, Needs review exactly while [p >= 95]
    before the end, Running exactly for [20 <= p < 95], Planning exactly for
    [0 < p < 20], and Queued exactly while [p = 0], which includes the
    opening second of the window. *)
Theorem stage_status_by_progress (t start end_ : Z)
    (H : start < end_) (Hwidth : end_ - start <= maxWidth) :
  (computeStatus (inject_Z t) (stageProgress t start end_) (inject_Z start) (inject_Z end_)
     = Done <-> end_ <= t) /\
  (computeStatus (inject_Z t) (stageProgress t start end_) (inject_Z start) (inject_Z end_)
     = NeedsReview <-> 95 <= stageProgress t start end_ /\ t < end_) /\
  (computeStatus (inject_Z t) (stageProgress t start end_) (inject_Z start) (inject_Z end_)
     = Running <-> 20 <= stageProgress t start end_ < 95) /\
  (computeStatus (inject_Z t) (stageProgress t start end_) (inject_Z start) (inject_Z end_)
     = Planning <-> 0 < stageProgress t start end_ < 20) /\
  (computeStatus (inject_Z t) (stageProgress t start end_) (inject_Z start) (inject_Z end_)
     = Queued <-> stageProgress t start end_ = 0).
Proof.
  pose proof (stageProgress_range t start end_ H Hwidth) as Hr.
  rewrite computeStatus_integers.
  assert (Hlate : end_ <= t -> stageProgress t start end_ = 100)
    by (apply stageProgress_after; assumption).
  assert (Hearly : t < start -> stageProgress t start end_ = 0)
    by (apply stageProgress_before).
  set (p := stageProgress t start end_) in *.
  destruct (Z.ltb_spec t start), (Z.ltb_spec 0 p), (Z.ltb_spec p 20), (Z.leb_spec 20 p),
    (Z.ltb_spec p 95), (Z.leb_spec 95 p), (Z.ltb_spec t end_), (Z.leb_spec end_ t);
    cbn [andb]; try lia;
    (split; [|split; [|split; [|split]]]); split; intros Hx;
    try discriminate; try reflexivity; try lia.
Qed.

(** The derivation window at second 78, where the double product rounds to
    57, and the connector window at second 33 and at its end, second 74. *)
Lemma stage_status_by_progress_witness :
  55 < 95 /\ 95 - 55 <= maxWidth /\ 30 < 74 /\ 74 - 30 <= maxWidth /\
  stageProgress 78 55 95 = 57 /\
  computeStatus 78 (stageProgress 78 55 95) 55 95 = Running /\
  computeStatus 33 (stageProgress 33 30 74) 30 74 = Planning /\
  computeStatus 30 (stageProgress 30 30 74) 30 74 = Queued /\
  computeStatus 74 (stageProgress 74 30 74) 30 74 = Done.
Proof.
  assert (H1 : 55 < 95) by lia.
  assert (W1 : 95 - 55 <= maxWidth) by (unfold maxWidth, duration; lia).
  assert (H2 : 30 < 74) by lia.
  assert (W2 : 74 - 30 <= maxWidth) by (unfold maxWidth, duration; lia).
  assert (P78 : stageProgress 78 55 95 = 57) by (vm_compute; reflexivity).
  assert (P33 : stageProgress 33 30 74 = 7) by (vm_compute; reflexivity).
  assert (P30 : stageProgress 30 30 74 = 0) by (vm_compute; reflexivity).
  split; [exact H1|]. split; [exact W1|]. split; [exact H2|]. split; [exact W2|].
  split; [exact P78|]. split; [|split; [|split]].
  - apply (proj2 (proj1 (proj2 (proj2 (stage_status_by_progress 78 55 95 H1 W1))))).
    rewrite P78. lia.
  - apply (proj2 (proj1 (proj2 (proj2 (proj2 (stage_status_by_progress 33 30 74 H2 W2)))))).
    rewrite P33. lia.
  - apply (proj2 (proj2 (proj2 (proj2 (proj2 (stage_status_by_progress 30 30 74 H2 W2)))))).
    exact P30.
  - apply (proj2 (proj1 (stage_status_by_progress 74 30 74 H2 W2))). lia.
Defined.

(** ** KPI confidence *)

Lemma Math_round_Z (z : Z) : Math_round (inject_Z z) = z.
Proof.
  unfold Math_round.
  apply Z.le_antisymm.
  - assert (H : (inject_Z (Qfloor (inject_Z z + (1 # 2))) <= inject_Z z + (1 # 2))%Q)
      by apply Qfloor_le.
    assert (Hlt : (inject_Z (Qfloor (inject_Z z + (1 # 2))) < inject_Z (z + 1))%Q).
    { rewrite inject_Z_plus. change (inject_Z 1) with 1%Q.
      generalize dependent (inject_Z (Qfloor (inject_Z z + (1 # 2)))).
      generalize (inject_Z z). intros a b Hb. Lqa.lra. }
    rewrite <- Zlt_Qlt in Hlt. lia.
  - rewrite <- (Qfloor_Z z) at 1. apply Qfloor_resp_le.
    generalize (inject_Z z). intros a. Lqa.lra.
Qed.

Lemma phase_mono (t1 t2 : Z) (lo len : Q) :
  (0 < len)%Q -> t1 <= t2 ->
  (clamp ((inject_Z t1 - lo) / len) 0 1 <= clamp ((inject_Z t2 - lo) / len) 0 1)%Q.
Proof.
  intros Hl Ht. apply clamp_mono, Qdiv_le_compat_r; [exact Hl|].
  rewrite Zle_Qle in Ht. Lqa.lra.
Qed.

Lemma phase_full (t : Z) (lo len : Q) :
  (0 < len)%Q -> (lo + len <= inject_Z t)%Q ->
  (clamp ((inject_Z t - lo) / len) 0 1 == 1)%Q.
Proof.
  intros Hl Ht. unfold clamp.
  assert (Hx : (1 <= (inject_Z t - lo) / len)%Q)
    by (apply Qle_shift_div_l; [exact Hl | Lqa.lra]).
  rewrite (Q.min_l 1 _ Hx). apply Q.max_r. discriminate.
Qed.

(** The confidence the updater computes from a ceiling [c], the data-arrival
    weight [w] and the confidence weight [p]. *)
Lemma confidence_shape (c w p : Q) :
  (0 <= c <= 100)%Q -> (0 <= w <= 1)%Q -> (0 <= p <= 1)%Q ->
  0 <= Math_round (lerp 0 c w) <= 100 /\
  Math_round (lerp 0 c w) <= Math_round (lerp (inject_Z (Math_round (lerp 0 c w))) 100 p) <= 100.
Proof.
  intros Hc Hw Hp.
  assert (Hb : 0 <= Math_round (lerp 0 c w) <= 100).
  { pose proof (Math_round_mono 0 (lerp 0 c w)) as Hlo.
    pose proof (Math_round_mono (lerp 0 c w) 100) as Hhi.
    change (Math_round 0) with 0 in Hlo. change (Math_round 100) with 100 in Hhi.
    unfold lerp in *. split; [apply Hlo | apply Hhi]; Lqa.nra. }
  split; [exact Hb|].
  set (b := Math_round (lerp 0 c w)) in *.
  assert (Hbq : (0 <= inject_Z b <= 100)%Q).
  { split; [change 0%Q with (inject_Z 0) | change 100%Q with (inject_Z 100)];
      rewrite <- Zle_Qle; lia. }
  split.
  - rewrite <- (Math_round_Z b) at 1. apply Math_round_mono.
    unfold lerp. generalize dependent (inject_Z b). intros q Hq. Lqa.nra.
  - pose proof (Math_round_mono (lerp (inject_Z b) 100 p) 100) as Hhi.
    change (Math_round 100) with 100 in Hhi. apply Hhi.
    unfold lerp. generalize dependent (inject_Z b). intros q Hq. Lqa.nra.
Qed.

Lemma lerp_to_100_mono (b1 b2 p1 p2 : Q) :
  (0 <= b1 <= b2)%Q -> (b2 <= 100)%Q -> (0 <= p1 <= p2)%Q -> (p2 <= 1)%Q ->
  (lerp b1 100 p1 <= lerp b2 100 p2)%Q.
Proof.
  intros Hb Hb2 Hp Hp2. unfold lerp.
  assert (H1 : (0 <= (b2 - b1) * (1 - p2))%Q) by (apply Qmult_le_0_compat; Lqa.lra).
  assert (H2 : (0 <= (100 - b1) * (p2 - p1))%Q) by (apply Qmult_le_0_compat; Lqa.lra).
  Lqa.lra.
Qed.

Lemma kpiSample_confidence (key : string) :
  key ∈ kpiKeys ->
  exists c : Q, (0 <= c <= 100)%Q /\
    forall t : Z, 55 < t ->
      snd (kpiSample t key) =
      Z.max (Math_round (lerp 0 c (phase1 t)))
            (conf t (Math_round (lerp 0 c (phase1 t)))).
Proof.
  intros Hk. unfold kpiKeys in Hk.
  repeat (apply elem_of_cons in Hk as [->|Hk];
    [ eexists; split;
      [ | intros t Ht; unfold kpiSample; rewrite phase1_positive;
          destruct (Z.ltb_spec 55 t); [cbn [String.eqb Ascii.eqb Bool.eqb snd]; reflexivity | lia] ];
      split; discriminate
    | ]).
  inversion Hk.
Qed.

Lemma confidence_value (c : Q) (t : Z) :
  (0 <= c <= 100)%Q ->
  Z.max (Math_round (lerp 0 c (phase1 t)))
        (conf t (Math_round (lerp 0 c (phase1 t)))) =
  conf t (Math_round (lerp 0 c (phase1 t))) /\
  0 <= Math_round (lerp 0 c (phase1 t)) <= conf t (Math_round (lerp 0 c (phase1 t))) /\
  conf t (Math_round (lerp 0 c (phase1 t))) <= 100.
Proof.
  intros Hc.
  destruct (confidence_shape c (phase1 t) (phase3 t) Hc
              (clamp_unit_bounds _) (clamp_unit_bounds _)) as (Hb & Hlo & Hhi).
  unfold conf. split; [lia|]. split; [lia | exact Hhi].
Qed.

(** X2.  The confidence of each of the five KPIs, as the updater computes it at
    time [t] from any previous record: it lies in [0, 100], is 0 up to second
    55, is 100 from second 160 on, and never decreases as [t] grows. *)
Theorem kpi_confidence_profile (k : KPI) (Hk : kpi_key k ∈ kpiKeys) :
  (forall t : Z, 0 <= confidence (projectKpi t k) <= 100) /\
  (forall t : Z, t <= 55 -> confidence (projectKpi t k) = 0) /\
  (forall t : Z, 160 <= t -> confidence (projectKpi t k) = 100) /\
  (forall t1 t2 : Z, t1 <= t2 ->
     confidence (projectKpi t1 k) <= confidence (projectKpi t2 k)).
Proof.
  assert (Hconf : forall t, confidence (projectKpi t k) = snd (kpiSample t (kpi_key k)))
    by (intros t; rewrite <- projectKpi_sample; reflexivity).
  destruct (kpiSample_confidence _ Hk) as (c & Hc & Hshape).
  assert (Hrange : forall t : Z, 0 <= confidence (projectKpi t k) <= 100).
  { intros t. rewrite Hconf. destruct (Z.le_gt_cases t 55) as [Hle|Hgt].
    - rewrite kpiSample_before by exact Hle. cbn. lia.
    - rewrite Hshape by lia.
      destruct (confidence_value c t Hc) as (-> & H1 & H2). lia. }
  split; [exact Hrange|]. split; [|split].
  - intros t Ht. rewrite Hconf, kpiSample_before by exact Ht. reflexivity.
  - intros t Ht. rewrite Hconf, Hshape by lia.
    destruct (confidence_value c t Hc) as (-> & _ & _).
    unfold conf. transitivity (Math_round 100); [|reflexivity].
    apply Math_round_Qeq. unfold lerp, phase3.
    rewrite phase_full; [ring | reflexivity |].
    rewrite Zle_Qle in Ht. change (inject_Z 160) with 160%Q in Ht. Lqa.lra.
  - intros t1 t2 Hle. destruct (Z.le_gt_cases t1 55) as [H1|H1].
    + rewrite (Hconf t1), kpiSample_before by exact H1. apply Hrange.
    + rewrite !Hconf, !Hshape by lia.
      destruct (confidence_value c t1 Hc) as (-> & Hb1 & _).
      destruct (confidence_value c t2 Hc) as (-> & Hb2 & _).
      pose proof (clamp_unit_bounds ((inject_Z t1 - 55) / 40)) as Hw1.
      pose proof (clamp_unit_bounds ((inject_Z t2 - 55) / 40)) as Hw2.
      pose proof (clamp_unit_bounds ((inject_Z t1 - 130) / 30)) as Hp1.
      pose proof (clamp_unit_bounds ((inject_Z t2 - 130) / 30)) as Hp2.
      pose proof (phase_mono t1 t2 55 40 eq_refl Hle) as Hw.
      pose proof (phase_mono t1 t2 130 30 eq_refl Hle) as Hp.
      fold (phase1 t1) (phase1 t2) in Hw, Hw1, Hw2.
      fold (phase3 t1) (phase3 t2) in Hp, Hp1, Hp2.
      assert (Hb : Math_round (lerp 0 c (phase1 t1)) <= Math_round (lerp 0 c (phase1 t2))).
      { apply Math_round_mono. unfold lerp. Lqa.nra. }
      destruct (confidence_shape c (phase1 t2) (phase3 t2) Hc Hw2 Hp2) as (Hb100 & _).
      unfold conf. apply Math_round_mono.
      apply lerp_to_100_mono; [split| |split|]; try tauto.
      * assert (H0 : (inject_Z 0 <= inject_Z (Math_round (lerp 0 c (phase1 t1))))%Q)
          by (rewrite <- Zle_Qle; lia).
        exact H0.
      * rewrite <- Zle_Qle. exact Hb.
      * assert (H100 : (inject_Z (Math_round (lerp 0 c (phase1 t2))) <= inject_Z 100)%Q)
          by (rewrite <- Zle_Qle; lia).
        exact H100.
Qed.

(** The uptime KPI of the baseline. *)
Lemma kpi_confidence_profile_witness :
  "prod" ∈ kpiKeys /\
  confidence (projectKpi 160 (mkKPI "prod" "System Uptime" (Some "%") None (Some 99.0%R) flat 0)) = 100 /\
  confidence (projectKpi 55 (mkKPI "prod" "System Uptime" (Some "%") None (Some 99.0%R) flat 0)) = 0.
Proof.
  assert (Hk : "prod" ∈ kpiKeys) by (apply (bool_decide_unpack _); vm_compute; exact I).
  destruct (kpi_confidence_profile
              (mkKPI "prod" "System Uptime" (Some "%") None (Some 99.0%R) flat 0) Hk)
    as (_ & H0 & H100 & _).
  split; [exact Hk|]. split; [apply H100 | apply H0]; lia.
Defined.

(** ** KPI values *)

Lemma wobble_bound (t k : Z) : (- 0.85 <= wobble t k <= 0.85)%R.
Proof.
  unfold wobble.
  pose proof (SIN_bound (IZR t / 8 * (IZR k + 1))) as H1.
  pose proof (SIN_bound (IZR t / 17 * (IZR k + 2))) as H2.
  lra.
Qed.

Lemma phase_empty (t : Z) (lo len : Q) :
  (0 < len)%Q -> (inject_Z t <= lo)%Q ->
  (clamp ((inject_Z t - lo) / len) 0 1 == 0)%Q.
Proof.
  intros Hl Ht. unfold clamp. apply Q.max_l.
  apply Q.min_le_iff. right. apply Qle_shift_div_r; [exact Hl | Lqa.lra].
Qed.

Lemma Q2R_unit (q : Q) : (0 <= q <= 1)%Q -> (0 <= Q2R q <= 1)%R.
Proof.
  intros [H0 H1]. apply Qle_Rle in H0, H1.
  rewrite RMicromega.Q2R_0 in H0. rewrite RMicromega.Q2R_1 in H1. lra.
Qed.

Lemma phase2_unit (t : Z) : (0 <= Q2R (phase2 t) <= 1)%R.
Proof. apply Q2R_unit, clamp_unit_bounds. Qed.

Lemma phase2_empty (t : Z) : t <= 95 -> Q2R (phase2 t) = 0%R.
Proof.
  intros Ht. rewrite <- RMicromega.Q2R_0. apply Qeq_eqR.
  apply phase_empty; [reflexivity|].
  rewrite Zle_Qle in Ht. exact Ht.
Qed.

Lemma phase2_full (t : Z) : 140 <= t -> Q2R (phase2 t) = 1%R.
Proof.
  intros Ht. rewrite <- RMicromega.Q2R_1. apply Qeq_eqR.
  apply phase_full; [reflexivity|].
  rewrite Zle_Qle in Ht. exact Ht.
Qed.

(** The value the updater computes for each key once data arrives. *)
Lemma kpiSample_value (t : Z) :
  55 < t ->
  fst (kpiSample t "prod") = Some (lerpR 0 (uptimeTarget + wobble t 0) (Q2R (phase2 t))) /\
  fst (kpiSample t "energy") = Some (lerpR 0 (energyKW + wobble t 1) (Q2R (phase2 t))) /\
  fst (kpiSample t "eff") = Some (lerpR 0 (effPct + wobble t 2) (Q2R (phase2 t))) /\
  fst (kpiSample t "util") = Some (lerpR 0 (utilPct + wobble t 3) (Q2R (phase2 t))) /\
  fst (kpiSample t "risk") =
    Some (lerpR 0 (riskPct + Rabs (wobble t 4) * 0.7) (Q2R (phase2 t))).
Proof.
  intros Ht. unfold kpiSample. rewrite phase1_positive.
  destruct (Z.ltb_spec 55 t); [|lia].
  cbn [String.eqb Ascii.eqb Bool.eqb fst]. repeat split.
Qed.

(** X3.  The value of each of the five KPIs, as the updater computes it at time
    [t] from any previous record: it is exactly 0 from second 56 to second
    95, it always lies between 0 and 100.05, and from second 140 on it stays
    within 0.85 of its base value (99.2, 78, 86 and 72 for uptime, energy,
    efficiency and utilization) or, for the risk, between 8 and 8.595. *)
Theorem kpi_value_profile (k : KPI) (Hk : kpi_key k ∈ kpiKeys) :
  (forall t : Z, 55 < t <= 95 -> value (projectKpi t k) = Some 0%R) /\
  (forall (t : Z) (v : R),
     value (projectKpi t k) = Some v -> (0 <= v <= 100.05)%R) /\
  (forall t : Z, 140 <= t ->
   exists v : R, value (projectKpi t k) = Some v /\
     (kpi_key k = "prod" -> (99.2 - 0.85 <= v <= 99.2 + 0.85)%R) /\
     (kpi_key k = "energy" -> (78 - 0.85 <= v <= 78 + 0.85)%R) /\
     (kpi_key k = "eff" -> (86 - 0.85 <= v <= 86 + 0.85)%R) /\
     (kpi_key k = "util" -> (72 - 0.85 <= v <= 72 + 0.85)%R) /\
     (kpi_key k = "risk" -> (8 <= v <= 8.595)%R)).
Proof.
  assert (Hval : forall t, value (projectKpi t k) = fst (kpiSample t (kpi_key k)))
    by (intros t; apply projectKpi_value).
  split; [|split].
  - intros t [Hlo Hhi]. rewrite Hval.
    destruct (kpiSample_value t Hlo) as (H1 & H2 & H3 & H4 & H5).
    unfold kpiKeys in Hk.
    repeat (apply elem_of_cons in Hk as [->|Hk];
      [ first [rewrite H1 | rewrite H2 | rewrite H3 | rewrite H4 | rewrite H5];
        unfold lerpR; rewrite phase2_empty by exact Hhi; f_equal; lra | ]).
    inversion Hk.
  - intros t v. rewrite Hval.
    destruct (Z.le_gt_cases t 55) as [Hle|Hgt].
    { rewrite kpiSample_before by exact Hle. discriminate. }
    destruct (kpiSample_value t Hgt) as (H1 & H2 & H3 & H4 & H5).
    pose proof (phase2_unit t) as Hs.
    pose proof (wobble_bound t 0) as W0. pose proof (wobble_bound t 1) as W1.
    pose proof (wobble_bound t 2) as W2. pose proof (wobble_bound t 3) as W3.
    pose proof (wobble_bound t 4) as W4.
    assert (W4' : (0 <= Rabs (wobble t 4) <= 0.85)%R)
      by (split; [apply Rabs_pos | apply Rabs_le; lra]).
    unfold uptimeTarget, energyKW, effPct, utilPct, riskPct, lerpR in *.
    unfold kpiKeys in Hk.
    repeat (apply elem_of_cons in Hk as [->|Hk];
      [ first [rewrite H1 | rewrite H2 | rewrite H3 | rewrite H4 | rewrite H5];
        intros [= <-]; nra | ]).
    inversion Hk.
  - intros t Ht. rewrite Hval.
    destruct (kpiSample_value t ltac:(lia)) as (H1 & H2 & H3 & H4 & H5).
    pose proof (wobble_bound t 0) as W0. pose proof (wobble_bound t 1) as W1.
    pose proof (wobble_bound t 2) as W2. pose proof (wobble_bound t 3) as W3.
    pose proof (wobble_bound t 4) as W4.
    assert (W4' : (0 <= Rabs (wobble t 4) <= 0.85)%R)
      by (split; [apply Rabs_pos | apply Rabs_le; lra]).
    unfold uptimeTarget, energyKW, effPct, utilPct, riskPct, lerpR in *.
    rewrite phase2_full in * by exact Ht.
    unfold kpiKeys in Hk.
    repeat (apply elem_of_cons in Hk as [Hkey|Hk];
      [ rewrite Hkey;
        first [rewrite H1 | rewrite H2 | rewrite H3 | rewrite H4 | rewrite H5];
        eexists; split; [reflexivity|];
        (split; [|split; [|split; [|split]]]); intros Hkey'; try discriminate Hkey'; lra | ]).
    inversion Hk.
Qed.

(** The energy KPI of the baseline at seconds 80 and 150. *)
Lemma kpi_value_profile_witness :
  "energy" ∈ kpiKeys /\
  value (projectKpi 80 (mkKPI "energy" "Energy Usage" (Some "kW") None (Some 75%R) flat 0)) =
    Some 0%R /\
  exists v : R,
    value (projectKpi 150 (mkKPI "energy" "Energy Usage" (Some "kW") None (Some 75%R) flat 0)) =
      Some v /\ (78 - 0.85 <= v <= 78 + 0.85)%R.
Proof.
  assert (Hk : "energy" ∈ kpiKeys) by (apply (bool_decide_unpack _); vm_compute; exact I).
  destruct (kpi_value_profile
              (mkKPI "energy" "Energy Usage" (Some "kW") None (Some 75%R) flat 0) Hk)
    as (H0 & _ & Hband).
  split; [exact Hk|]. split; [apply H0; lia|].
  destruct (Hband 150 ltac:(lia)) as (v & Hv & _ & He & _).
  exists v. split; [exact Hv | exact (He eq_refl)].
Defined.

Lemma projectKpi_confidence_range (t : Z) (k : KPI) :
  kpi_key k ∈ kpiKeys -> 0 <= confidence (projectKpi t k) <= 100.
Proof.
  intros Hk.
  replace (confidence (projectKpi t k)) with (snd (kpiSample t (kpi_key k)))
    by (rewrite <- projectKpi_sample; reflexivity).
  destruct (kpiSample_confidence _ Hk) as (c & Hc & Hshape).
  destruct (Z.le_gt_cases t 55) as [Hle|Hgt].
  - rewrite kpiSample_before by exact Hle. cbn. lia.
  - rewrite Hshape by lia.
    destruct (confidence_value c t Hc) as (-> & H1 & H2). lia.
Qed.

Lemma kpiBarPercent_clamped (c : Z) : kpiBarPercent c = Z.max 0 (Z.min 100 c).
Proof.
  unfold kpiBarPercent.
  destruct (Z.le_gt_cases c 0) as [Hneg|Hpos].
  - replace (Z.max 0 (Z.min 100 c)) with 0 by lia.
    transitivity (Math_round 0); [|reflexivity]. apply Math_round_Qeq.
    rewrite Zle_Qle in Hneg. change (inject_Z 0) with 0%Q in Hneg.
    unfold clamp. rewrite Q.max_l; [reflexivity|].
    apply Q.min_le_iff. right. apply Qle_shift_div_r; [reflexivity | Lqa.lra].
  - destruct (Z.le_gt_cases 100 c) as [Hbig|Hsmall].
    + replace (Z.max 0 (Z.min 100 c)) with 100 by lia.
      transitivity (Math_round 100); [|reflexivity]. apply Math_round_Qeq.
      rewrite Zle_Qle in Hbig. change (inject_Z 100) with 100%Q in Hbig.
      assert (Hx : (1 <= inject_Z c / 100)%Q)
        by (apply Qle_shift_div_l; [reflexivity | Lqa.lra]).
      unfold clamp. rewrite (Q.min_l 1 _ Hx). rewrite Q.max_r by discriminate.
      reflexivity.
    + replace (Z.max 0 (Z.min 100 c)) with c by lia.
      rewrite <- (Math_round_Z c) at 2. apply Math_round_Qeq.
      assert (H0 : (0 <= inject_Z c)%Q)
        by (change 0%Q with (inject_Z 0); rewrite <- Zle_Qle; lia).
      assert (H1 : (inject_Z c <= 100)%Q)
        by (change 100%Q with (inject_Z 100); rewrite <- Zle_Qle; lia).
      rewrite clamp_inside.
      * field.
      * apply Qle_shift_div_l; [reflexivity | Lqa.lra].
      * apply Qle_shift_div_r; [reflexivity | Lqa.lra].
Qed.

(** X4.  The confidence bar of a KPI card is the confidence clamped to
    [0, 100] percent, and for each of the five KPIs, at every time, it is
    exactly the confidence the card prints beside it. *)
Theorem kpi_bar_shows_confidence :
  (forall c : Z, kpiBarPercent c = Z.max 0 (Z.min 100 c)) /\
  (forall (t : Z) (k : KPI),
     kpi_key k ∈ kpiKeys ->
     kpiBarPercent (confidence (projectKpi t k)) = confidence (projectKpi t k)).
Proof.
  split; [exact kpiBarPercent_clamped|].
  intros t k Hk. rewrite kpiBarPercent_clamped.
  pose proof (projectKpi_confidence_range t k Hk). lia.
Qed.

(** The bar of the risk KPI of the baseline at second 100, and of
    out-of-range confidences. *)
Lemma kpi_bar_shows_confidence_witness :
  kpiBarPercent 130 = 100 /\ kpiBarPercent (-5) = 0 /\
  "risk" ∈ kpiKeys /\
  kpiBarPercent
    (confidence (projectKpi 100 (mkKPI "risk" "Maintenance Risk" (Some "%") None (Some 10%R) flat 0))) =
  confidence (projectKpi 100 (mkKPI "risk" "Maintenance Risk" (Some "%") None (Some 10%R) flat 0)).
Proof.
  destruct kpi_bar_shows_confidence as (Hc & Hk).
  assert (Hr : "risk" ∈ kpiKeys) by (apply (bool_decide_unpack _); vm_compute; exact I).
  split; [exact (Hc 130)|]. split; [exact (Hc (-5))|]. split; [exact Hr|].
  exact (Hk 100 (mkKPI "risk" "Maintenance Risk" (Some "%") None (Some 10%R) flat 0) Hr).
Defined.

(** ** KPI trend *)






(** ** The bus log as a sliding window *)

Lemma pushBus_drop (evt : BusEvent) (prev : list BusEvent) :
  pushBus evt prev = drop (S (length prev) - 70) (prev ++ [evt]).
Proof.
  unfold pushBus. f_equal. rewrite length_app. cbn [length]. lia.
Qed.

(** X6.  [pushBus] keeps the most recent 70 events: below 70 entries it only
    appends; on a full log it drops exactly the oldest entry and appends; the
    result is always a suffix of the old log followed by the new event, ends
    in the new event and has at most 70 entries. *)
Theorem pushBus_sliding_window (evt : BusEvent) (prev : list BusEvent) :
  ((length prev < 70)%nat -> pushBus evt prev = prev ++ [evt]) /\
  (length prev = 70%nat -> pushBus evt prev = drop 1 prev ++ [evt]) /\
  pushBus evt prev `suffix_of` (prev ++ [evt]) /\
  last (pushBus evt prev) = Some evt /\
  length (pushBus evt prev) = Nat.min 70 (S (length prev)).
Proof.
  split; [|split; [|split; [|split]]].
  - intros H. rewrite pushBus_drop.
    replace (S (length prev) - 70)%nat with 0%nat by lia. reflexivity.
  - intros H. rewrite pushBus_drop, H. cbn [Nat.sub].
    rewrite drop_app_le by lia. reflexivity.
  - rewrite pushBus_drop. apply suffix_drop.
  - apply pushBus_last.
  - apply pushBus_length.
Qed.

(** A full log of 70 copies of one event receives another. *)
Lemma pushBus_sliding_window_witness :
  length (replicate 70 (mkBusEvent 2 MQTT info "a")) = 70%nat /\
  pushBus (mkBusEvent 3 MQTT ok "b") (replicate 70 (mkBusEvent 2 MQTT info "a")) =
    replicate 69 (mkBusEvent 2 MQTT info "a") ++ [mkBusEvent 3 MQTT ok "b"].
Proof.
  split; [reflexivity|].
  exact (proj1 (proj2 (pushBus_sliding_window (mkBusEvent 3 MQTT ok "b")
                         (replicate 70 (mkBusEvent 2 MQTT info "a")))) eq_refl).
Defined.

(** ** The artifact emitter on arbitrary stores *)

Lemma emitArtifacts_cases (t : Z) (m : gmap string Artifact) :
  ((t ∉ artifactThresholds) /\ emitArtifacts t m = Some m) \/
  (exists (k summ : string) (d : list DiffLine),
     t ∈ artifactThresholds /\ k ∈ artifactKeys /\
     emitArtifacts t m = bump k t summ d m).
Proof.
  destruct (decide (t ∈ artifactThresholds)) as [Hin|Hout].
  - right. pose proof Hin as Hin'. unfold artifactThresholds in Hin.
    repeat (apply elem_of_cons in Hin as [->|Hin]).
    + do 3 eexists. split; [exact Hin'|]. split; [|apply emitArtifacts_32]. artifact_key.
    + do 3 eexists. split; [exact Hin'|]. split; [|apply emitArtifacts_74]. artifact_key.
    + do 3 eexists. split; [exact Hin'|]. split; [|apply emitArtifacts_95]. artifact_key.
    + do 3 eexists. split; [exact Hin'|]. split; [|apply emitArtifacts_120]. artifact_key.
    + do 3 eexists. split; [exact Hin'|]. split; [|apply emitArtifacts_140]. artifact_key.
    + do 3 eexists. split; [exact Hin'|]. split; [|apply emitArtifacts_160]. artifact_key.
    + inversion Hin.
  - left. split; [exact Hout | apply emitArtifacts_quiet, Hout].
Qed.

Lemma bump_None (k : string) (t : Z) (summ : string) (d : list DiffLine)
    (m : gmap string Artifact) :
  bump k t summ d m = None <-> m !! k = None.
Proof.
  unfold bump. destruct (m !! k); cbn; split; intros; congruence.
Qed.

(** X7.  The emitter throws exactly when the clock is at a threshold whose entry
    is missing from the store. *)
Theorem emitArtifacts_fails_on_missing_entry (t : Z) (m : gmap string Artifact) :
  emitArtifacts t m = None <->
  (t = 32 /\ m !! "manifest" = None) \/
  (t = 74 /\ m !! "bindings" = None) \/
  (t = 95 /\ m !! "bindings" = None) \/
  (t = 120 /\ m !! "kpis" = None) \/
  (t = 140 /\ m !! "views" = None) \/
  (t = 160 /\ m !! "validation" = None).
Proof.
  destruct (decide (t ∈ artifactThresholds)) as [Hin|Hout].
  - unfold artifactThresholds in Hin.
    repeat (apply elem_of_cons in Hin as [->|Hin]);
      [ rewrite emitArtifacts_32 | rewrite emitArtifacts_74 | rewrite emitArtifacts_95
      | rewrite emitArtifacts_120 | rewrite emitArtifacts_140 | rewrite emitArtifacts_160
      | inversion Hin ];
      rewrite bump_None;
      (split; [tauto|]);
      intros H; repeat destruct H as [H|H]; destruct H as [Ht Hm];
      first [exact Hm | lia].
  - rewrite emitArtifacts_quiet by exact Hout. split; [discriminate|].
    intros H. exfalso. apply Hout. unfold artifactThresholds.
    repeat destruct H as [H|H]; destruct H as [-> _]; set_solver.
Qed.

(** The emitter at the first threshold on an empty store. *)
Lemma emitArtifacts_fails_on_missing_entry_witness :
  emitArtifacts 32 (∅ : gmap string Artifact) = None.
Proof.
  apply (proj2 (emitArtifacts_fails_on_missing_entry 32 ∅)).
  left. split; reflexivity.
Defined.

Lemma bump_step (k : string) (t : Z) (summ : string) (d : list DiffLine)
    (m m' : gmap string Artifact) :
  bump k t summ d m = Some m' ->
  dom m' = dom m /\
  forall (k' : string) (a : Artifact),
    m !! k' = Some a ->
    exists a' : Artifact,
      m' !! k' = Some a' /\
      (a' = a \/ version a' = version a + 1) /\
      art_key a' = art_key a /\ label a' = label a /\ kind a' = kind a.
Proof.
  unfold bump. destruct (m !! k) as [a0|] eqn:E; [|discriminate].
  cbn. intros [= <-]. split.
  - apply dom_insert_lookup_L. eauto.
  - intros k' a Ha. destruct (decide (k = k')) as [<-|Hne].
    + rewrite lookup_insert_eq. rewrite E in Ha. injection Ha as <-.
      eexists. split; [reflexivity|]. cbn. auto.
    + rewrite lookup_insert_ne by exact Hne. eauto 10.
Qed.

(** X8.  When the emitter succeeds, on any store, it adds and removes no entry,
    and each entry is either left exactly as it was or has its version raised
    by one with key, label and kind kept: a version never goes down. *)
Theorem emitArtifacts_versions_step (t : Z) (m m' : gmap string Artifact)
    (H : emitArtifacts t m = Some m') :
  dom m' = dom m /\
  forall (k : string) (a : Artifact),
    m !! k = Some a ->
    exists a' : Artifact,
      m' !! k = Some a' /\
      (a' = a \/ version a' = version a + 1) /\
      art_key a' = art_key a /\ label a' = label a /\ kind a' = kind a.
Proof.
  destruct (emitArtifacts_cases t m) as [[_ Hq]|(k & summ & d & _ & _ & Hb)].
  - rewrite Hq in H. injection H as <-. split; [reflexivity|]. eauto 10.
  - rewrite Hb in H. exact (bump_step _ _ _ _ _ _ H).
Qed.

(** The baseline store at the first threshold. *)
Lemma emitArtifacts_versions_step_witness :
  exists m' : gmap string Artifact,
    emitArtifacts 32 initialArtifacts = Some m' /\
    dom m' = dom initialArtifacts /\
    versionOf m' "manifest" = Some 1 /\ versionOf m' "bindings" = Some 0.
Proof.
  destruct (emitArtifacts_total 32 initialArtifacts initialArtifacts_complete)
    as (m' & Hm' & _).
  exists m'. split; [exact Hm'|].
  split; [exact (proj1 (emitArtifacts_versions_step 32 _ _ Hm'))|].
  rewrite emitArtifacts_32 in Hm'. injection Hm' as <-.
  split; reflexivity.
Defined.

(** ** Selecting an agent *)

Lemma find_id_Some (ags : list Agent) (id : string) :
  id ∈ map agent_id ags ->
  exists a : Agent,
    List.find (fun x => String.eqb (agent_id x) id) ags = Some a /\
    agent_id a = id /\ a ∈ ags.
Proof.
  induction ags as [|a0 ags IH]; cbn [map List.find].
  - intros H. inversion H.
  - intros H. destruct (String.eqb_spec (agent_id a0) id) as [Heq|Hne].
    + exists a0. split; [reflexivity|]. split; [exact Heq | left].
    + apply elem_of_cons in H as [H|H]; [congruence|].
      destruct (IH H) as (a & Hf & Hid & Hin).
      exists a. split; [exact Hf|]. split; [exact Hid | right; exact Hin].
Qed.

Lemma find_id_None (ags : list Agent) (id : string) :
  id ∉ map agent_id ags ->
  List.find (fun x => String.eqb (agent_id x) id) ags = None.
Proof.
  induction ags as [|a0 ags IH]; cbn [map List.find]; [reflexivity|].
  intros H. destruct (String.eqb_spec (agent_id a0) id) as [Heq|Hne].
  - exfalso. apply H. rewrite Heq. left.
  - apply IH. intros Hin. apply H. right. exact Hin.
Qed.

Lemma find_id_first (ags : list Agent) (id : string) :
  id ∈ map agent_id ags ->
  exists (pre : list Agent) (a : Agent) (post : list Agent),
    ags = pre ++ a :: post /\ agent_id a = id /\ (id ∉ map agent_id pre) /\
    List.find (fun x => String.eqb (agent_id x) id) ags = Some a.
Proof.
  induction ags as [|a0 ags IH]; cbn [map List.find]; intros H; [inversion H|].
  destruct (String.eqb_spec (agent_id a0) id) as [Heq|Hne].
  - exists [], a0, ags. split; [reflexivity|]. split; [exact Heq|].
    split; [intros Hin; inversion Hin | reflexivity].
  - apply elem_of_cons in H as [H|H]; [congruence|].
    destruct (IH H) as (pre & a & post & -> & Hid & Hpre & Hf).
    exists (a0 :: pre), a, post. split; [reflexivity|]. split; [exact Hid|].
    split; [|exact Hf].
    cbn [map]. intros Hin. apply elem_of_cons in Hin as [Hin|Hin]; [congruence|].
    exact (Hpre Hin).
Qed.

Lemma find_id_prefix (pre : list Agent) (a : Agent) (post : list Agent) (id : string) :
  agent_id a = id -> id ∉ map agent_id pre ->
  List.find (fun x => String.eqb (agent_id x) id) (pre ++ a :: post) = Some a.
Proof.
  intros Hid. induction pre as [|b pre IH]; cbn [app map List.find]; intros Hpre.
  - rewrite <- Hid, String.eqb_refl. reflexivity.
  - destruct (String.eqb_spec (agent_id b) id) as [Heq|Hne].
    + exfalso. apply Hpre. rewrite Heq. left.
    + apply IH. intros Hin. apply Hpre. right. exact Hin.
Qed.

(** X9.  The selected agent is the first agent with the selected id: the
    agents before it in the list all have other ids.  When no agent has
    that id it falls back to the first agent of the list; only an empty list
    selects nothing. *)
Theorem selectedAgent_fallback (ags : list Agent) (id : string) :
  (id ∈ map agent_id ags ->
   exists (pre : list Agent) (a : Agent) (post : list Agent),
     ags = pre ++ a :: post /\ agent_id a = id /\ (id ∉ map agent_id pre) /\
     selectedAgent ags id = Some a) /\
  (forall (pre : list Agent) (a : Agent) (post : list Agent),
     ags = pre ++ a :: post -> agent_id a = id -> id ∉ map agent_id pre ->
     selectedAgent ags id = Some a) /\
  (id ∉ map agent_id ags -> selectedAgent ags id = head ags) /\
  (selectedAgent ags id = None <-> ags = []).
Proof.
  unfold selectedAgent. split; [|split; [|split]].
  - intros H. destruct (find_id_first ags id H) as (pre & a & post & He & Hid & Hpre & ->).
    eauto 10.
  - intros pre a post -> Hid Hpre.
    rewrite (find_id_prefix pre a post id Hid Hpre). reflexivity.
  - intros H. rewrite find_id_None by exact H. reflexivity.
  - destruct (decide (id ∈ map agent_id ags)) as [Hin|Hout].
    + destruct (find_id_Some ags id Hin) as (a & -> & _ & Ha).
      split; [discriminate|]. intros ->. inversion Ha.
    + rewrite find_id_None by exact Hout.
      destruct ags; cbn; split; congruence.
Qed.

(** Two agents that share the id "kpi" behind the spec agent: the first of
    the two is selected; and the baseline agents with an unknown id. *)
Lemma selectedAgent_fallback_witness :
  selectedAgent
    [mkAgent "spec" "Spec Agent" Queued 0 [] [];
     mkAgent "kpi" "First" Queued 0 [] [];
     mkAgent "kpi" "Second" Queued 0 [] []] "kpi"
  = Some (mkAgent "kpi" "First" Queued 0 [] []) /\
  (agent_name <$> selectedAgent initialAgents "nobody") = Some "Spec Agent" /\
  selectedAgent [] "spec" = None.
Proof.
  split; [|split].
  - apply (proj1 (proj2 (selectedAgent_fallback
             [mkAgent "spec" "Spec Agent" Queued 0 [] [];
              mkAgent "kpi" "First" Queued 0 [] [];
              mkAgent "kpi" "Second" Queued 0 [] []] "kpi"))
             [mkAgent "spec" "Spec Agent" Queued 0 [] []]
             (mkAgent "kpi" "First" Queued 0 [] [])
             [mkAgent "kpi" "Second" Queued 0 [] []]);
      [reflexivity | reflexivity |].
    apply (bool_decide_unpack _). vm_compute. exact I.
  - destruct (selectedAgent_fallback initialAgents "nobody") as (_ & _ & Hmiss & _).
    rewrite Hmiss; [reflexivity|]. apply (bool_decide_unpack _). vm_compute. exact I.
  - exact (proj2 (proj2 (proj2 (proj2 (selectedAgent_fallback [] "spec")))) eq_refl).
Defined.


(** ** Prompt typing *)

Lemma promptTyping_outside (t : Z) (st : string * bool) :
  t < 0 \/ 14 < t -> promptTyping t st = st.
Proof.
  intros H. unfold promptTyping. cbn [promptStart promptEnd timeline].
  destruct (Z.ltb_spec t 0), (Z.ltb_spec 14 t); cbn; reflexivity || lia.
Qed.

(** X10.  The prompt effect types the script over the seconds 0 to 14: at second
    [t] of that window the text is the prefix of the script of
    [floor(268 * t / 14)] characters, and the done flag is raised at second
    14, where the text is the whole script, and at no earlier second.
    Outside the window the effect changes nothing, so a jump out of the
    window leaves the prompt as it was. *)
Theorem prompt_typing_window :
  (forall (t : Z) (st : string * bool),
     t < 0 \/ 14 < t -> promptTyping t st = st) /\
  (forall (t : Z) (st : string * bool),
     0 <= t <= 14 ->
     String.prefix (fst (promptTyping t st)) SCRIPT_PROMPT = true /\
     Z.of_nat (String.length (fst (promptTyping t st))) = 268 * t / 14 /\
     (snd (promptTyping t st) = true <-> t = 14 \/ snd st = true)) /\
  (forall st : string * bool, promptTyping 14 st = (SCRIPT_PROMPT, true)).
Proof.
  split; [exact promptTyping_outside|]. split.
  - intros t [txt done] Ht.
    assert (Hin : t ∈ seqZ 0 15) by (apply elem_of_seqZ; lia).
    cbn in Hin.
    repeat (apply elem_of_cons in Hin as [->|Hin];
      [ split; [vm_compute; reflexivity|]; split; [vm_compute; reflexivity|];
        cbn [snd]; split; [intros H; first [left; reflexivity | right; exact H]
                          | intros [H|H]; first [discriminate H | exact H | reflexivity]]
      | ]).
    inversion Hin.
  - intros [txt done]. reflexivity.
Qed.

(** The prompt three seconds in, and the same prompt after a jump to second
    120. *)
Lemma prompt_typing_window_witness :
  0 <= 3 <= 14 /\
  Z.of_nat (String.length (fst (promptTyping 3 ("", false)))) = 57 /\
  promptTyping 120 (promptTyping 3 ("", false)) = promptTyping 3 ("", false) /\
  snd (promptTyping 120 (promptTyping 3 ("", false))) = false.
Proof.
  destruct prompt_typing_window as (Hout & Hin & _).
  assert (H3 : 0 <= 3 <= 14) by lia.
  split; [exact H3|]. split; [exact (proj1 (proj2 (Hin 3 ("", false) H3)))|].
  split; [apply Hout; lia | reflexivity].
Defined.

(** ** Time stamps *)

(** X11.  For every time below 100 minutes [formatSec] is a five-character stamp
    with the colon in the middle, and the stamps of the seconds of a run, 0
    to 180, are pairwise distinct. *)
Theorem formatSec_stamp :
  (forall s : Z, 0 <= s < 6000 ->
     String.length (formatSec s) = 5%nat /\
     String.substring 2 1 (formatSec s) = ":") /\
  (forall s1 s2 : Z, 0 <= s1 <= 180 -> 0 <= s2 <= 180 ->
     formatSec s1 = formatSec s2 -> s1 = s2).
Proof.
  split.
  - intros s Hs.
    pose proof (forallb_seqZ
      (fun s => Nat.eqb (String.length (formatSec s)) 5 &&
                bool_decide (String.substring 2 1 (formatSec s) = ":")) 0 6000) as H.
    cbv beta in H. specialize (H ltac:(vm_compute; reflexivity) s ltac:(lia)).
    apply andb_true_iff in H as [H1 H2].
    split; [apply Nat.eqb_eq, H1 | apply bool_decide_eq_true in H2; exact H2].
  - intros s1 s2 H1 H2 Heq.
    assert (Hnd : NoDup (map formatSec runSeconds))
      by (apply (bool_decide_unpack _); vm_compute; exact I).
    assert (Hin1 : s1 ∈ runSeconds) by (apply elem_of_seqZ; lia).
    assert (Hin2 : s2 ∈ runSeconds) by (apply elem_of_seqZ; lia).
    apply list_elem_of_lookup in Hin1 as (i & Hi).
    apply list_elem_of_lookup in Hin2 as (j & Hj).
    assert (Hij : i = j).
    { eapply NoDup_lookup; [exact Hnd | |];
        rewrite list_lookup_fmap; [rewrite Hi | rewrite Hj]; cbn; [reflexivity|].
      rewrite Heq. reflexivity. }
    subst j. congruence.
Qed.

(** The stamps of seconds 74 and 75. *)
Lemma formatSec_stamp_witness :
  0 <= 74 < 6000 /\ String.length (formatSec 74) = 5%nat /\ formatSec 74 = "01:14" /\
  (formatSec 74 = formatSec 74 -> 74 = 74).
Proof.
  destruct formatSec_stamp as (Hlen & Hinj).
  assert (H : 0 <= 74 < 6000) by lia.
  split; [exact H|]. split; [exact (proj1 (Hlen 74 H))|]. split; [reflexivity|].
  apply Hinj; lia.
Defined.


(** ** Invariants of the reachable states *)

Lemma seqZ_split_last (t v : Z) :
  0 <= t < v -> seqZ 1 v = seqZ 1 t ++ seqZ (1 + t) (v - t - 1) ++ [v].
Proof.
  intros H.
  replace v with (t + ((v - t - 1) + 1)) at 1 by lia.
  rewrite seqZ_app by lia. f_equal.
  rewrite seqZ_app by lia. f_equal.
  replace (1 + t + (v - t - 1)) with v by lia.
  reflexivity.
Qed.

Lemma sublist_snoc_drop {A : Type} (l big mid : list A) (x : A) (n : nat) :
  l `sublist_of` big -> drop n (l ++ [x]) `sublist_of` big ++ mid ++ [x].
Proof.
  intros H. etransitivity; [apply sublist_drop|].
  rewrite (assoc_L (++)). apply sublist_app; [|reflexivity].
  apply sublist_inserts_r, H.
Qed.

Lemma scriptedLogs_grow (id : string) (t v : Z) :
  0 <= t < v ->
  exists mid : list string,
    scriptedLogs id v =
    scriptedLogs id t ++ mid ++ (if shouldLog id v then [logEntry id v] else []).
Proof.
  intros H. unfold scriptedLogs. rewrite (seqZ_split_last t v H).
  rewrite !List.filter_app, !map_app. eexists. f_equal. f_equal.
  cbn [List.filter]. destruct (shouldLog id v); reflexivity.
Qed.

Lemma scriptedBus_grow (t v : Z) :
  0 <= t < v ->
  exists mid : list BusEvent,
    scriptedBus v = scriptedBus t ++ mid ++ busActivity v [].
Proof.
  intros H. unfold scriptedBus. rewrite (seqZ_split_last t v H).
  rewrite !List.flat_map_app. eexists. f_equal. f_equal.
  cbn [List.flat_map]. apply app_nil_r.
Qed.

Lemma projectAgent_logs_sublist (t v : Z) (a : Agent) :
  0 <= t < v ->
  logs a `sublist_of` scriptedLogs (agent_id a) t ->
  logs (projectAgent v a) `sublist_of` scriptedLogs (agent_id a) v.
Proof.
  intros Htv Hsub. rewrite projectAgent_logs.
  destruct (scriptedLogs_grow (agent_id a) t v Htv) as (mid & ->).
  destruct (shouldLog (agent_id a) v).
  - unfold sliceLast. apply sublist_snoc_drop, Hsub.
  - rewrite app_nil_r. apply sublist_inserts_r, Hsub.
Qed.

Lemma busActivity_sublist (t v : Z) (prev : list BusEvent) :
  0 <= t < v ->
  prev `sublist_of` scriptedBus t ->
  busActivity v prev `sublist_of` scriptedBus v.
Proof.
  intros Htv Hsub.
  destruct (scriptedBus_grow t v Htv) as (mid & ->).
  destruct (decide (v ∈ busTimes)) as [Hin|Hout].
  - destruct (busActivity_fires v prev Hin) as (evt & -> & _ & ->).
    unfold pushBus. apply sublist_snoc_drop, Hsub.
  - rewrite !busActivity_quiet by exact Hout.
    rewrite app_nil_r. apply sublist_inserts_r, Hsub.
Qed.

Lemma emitArtifacts_inv (v : Z) (m m' : gmap string Artifact) :
  emitArtifacts v m = Some m' ->
  m' = m \/
  exists (k summ : string) (d : list DiffLine) (a : Artifact),
    m !! k = Some a /\ m' = <[k := bumped a v summ d]> m.
Proof.
  intros H.
  destruct (emitArtifacts_cases v m) as [[_ Hq]|(k & summ & d & _ & _ & Hb)].
  - left. congruence.
  - right. rewrite Hb in H. unfold bump in H.
    destruct (m !! k) as [a|] eqn:E; [|discriminate].
    cbn in H. injection H as <-. eauto 10.
Qed.

Lemma projectKpi_static (t : Z) (k : KPI) :
  (kpi_key (projectKpi t k), kpi_label (projectKpi t k),
   unit (projectKpi t k), target (projectKpi t k)) =
  (kpi_key k, kpi_label k, unit k, target k).
Proof. unfold projectKpi. destruct (kpiSample _ _). reflexivity. Qed.

Lemma storeComplete_of_dom (m : gmap string Artifact) :
  dom m = list_to_set artifactKeys -> storeComplete m.
Proof.
  intros Hd k Hk. apply elem_of_dom. rewrite Hd.
  apply (elem_of_list_to_set (C := gset string)). exact Hk.
Qed.

Lemma initialState_engineInv : engineInv initialState.
Proof.
  split; [|split; [|split; [|split]]].
  - split; [cbn; lia|]. split; [reflexivity|]. intros H. exfalso. apply H. reflexivity.
  - split; [reflexivity|]. cbn [agents initialState time]. unfold initialAgents.
    repeat (apply Forall_cons; split; [split; [reflexivity | apply sublist_nil_l]|]).
    apply Forall_nil; exact I.
  - unfold busInv. cbn. apply sublist_nil_l.
  - split; [reflexivity|]. cbn [kpis initialState time]. unfold initialKpis.
    repeat (apply Forall_cons; split;
            [cbn [value confidence kpi_key]; rewrite kpiSample_before by lia; reflexivity|]).
    apply Forall_nil; exact I.
  - split.
    + cbn [artifacts initialState]. unfold initialArtifacts, artifactKeys.
      rewrite !dom_insert_L, dom_empty_L. cbn. reflexivity.
    + cbn [artifacts initialState time]. intros k a Ha.
      assert (Hdom : dom initialArtifacts = (list_to_set artifactKeys : gset string)).
      { unfold initialArtifacts, artifactKeys.
        rewrite !dom_insert_L, dom_empty_L. cbn. reflexivity. }
      assert (Hk : k ∈ artifactKeys).
      { apply (elem_of_list_to_set (C := gset string)). rewrite <- Hdom.
        apply elem_of_dom. eauto. }
      unfold artifactKeys in Hk.
      repeat (apply elem_of_cons in Hk as [->|Hk];
              [vm_compute in Ha; injection Ha as <-; cbn;
               repeat split; try lia; intros _; vm_compute; reflexivity|]).
      inversion Hk.
Qed.

(** The effects at a later second keep the invariants. *)
Lemma effects_engineInv (v : Z) (s : State) :
  engineInv s -> time s < v <= 180 ->
  exists s', effects (withTime v s) = Some s' /\ engineInv s' /\ time s' = v /\
             running s' = (if 180 <=? v then false else running s) /\
             deployStage s' = deployStage s.
Proof.
  intros ((Hrange & Hen & Hst) & (Hstatic & Hag) & Hbus & (Hkstatic & Hk) & (Hdom & Hart)) Hv.
  destruct (effects_total (withTime v s)) as (s' & Hs').
  { cbn. apply storeComplete_of_dom, Hdom. }
  exists s'. split; [exact Hs'|].
  destruct (effects_inv _ _ Hs') as (H1 & H2 & H3 & H4 & H5 & H6 & H7 & H8).
  cbn [withTime time running agents artifacts busEvents kpis deployStage deployEnabled] in *.
  split; [|split; [exact H1|split; [exact H2 | exact H7]]].
  split; [|split; [|split; [|split]]].
  - unfold clockInv. rewrite H1, H7, H8, Hen. cbn [deployReady timeline].
    split; [lia|]. split.
    + destruct (Z.leb_spec 160 v), (Z.leb_spec 160 (time s)); reflexivity || lia.
    + intros Hd. specialize (Hst Hd). lia.
  - unfold agentsInv. rewrite H1, H3. unfold projectAgents. split.
    + rewrite <- Hstatic. clear. induction (agents s) as [|a l IH]; [reflexivity|].
      cbn [map]. rewrite IH, projectAgent_id.
      destruct (projectAgent_static v a) as (-> & ->). reflexivity.
    + apply Forall_fmap. eapply Forall_impl; [exact Hag|].
      intros a [_ Hl]. cbn. rewrite projectAgent_id. split.
      * apply projectAgent_stage.
      * eapply projectAgent_logs_sublist; [|exact Hl]. lia.
  - unfold busInv. rewrite H1, H5. eapply busActivity_sublist; [|exact Hbus]. lia.
  - unfold kpisInv. rewrite H1, H6. unfold projectKpis. split.
    + rewrite <- Hkstatic. clear. induction (kpis s) as [|k l IH]; [reflexivity|].
      cbn [map]. rewrite IH, projectKpi_static. reflexivity.
    + apply Forall_fmap, Forall_forall. intros k _. cbn.
      rewrite projectKpi_key. apply projectKpi_sample.
  - unfold artifactsInv. rewrite H1.
    destruct (emitArtifacts_inv _ _ _ H4) as [->|(k0 & summ & d & a0 & Ha0 & ->)].
    + split; [exact Hdom|]. intros k a Ha.
      destruct (Hart k a Ha) as (Hk1 & Hk2 & Hk3 & Hk4).
      repeat split; try assumption; lia.
    + split.
      * rewrite dom_insert_lookup_L by eauto. exact Hdom.
      * intros k a Ha. destruct (decide (k0 = k)) as [->|Hne].
        -- rewrite lookup_insert_eq in Ha. injection Ha as <-.
           destruct (Hart k a0 Ha0) as (Hk1 & Hk2 & Hk3 & Hk4).
           cbn. repeat split; try assumption; lia.
        -- rewrite lookup_insert_ne in Ha by exact Hne.
           destruct (Hart k a Ha) as (Hk1 & Hk2 & Hk3 & Hk4).
           repeat split; try assumption; lia.
Qed.

Lemma setT_engineInv (v : Z) (s : State) :
  engineInv s -> time s <= v <= 180 ->
  exists s', setT v s = Some s' /\ engineInv s' /\ time s' = v /\
             deployStage s' = deployStage s.
Proof.
  intros Hinv Hv. unfold setT. destruct (Z.eqb_spec v (time s)) as [Heq|Hne].
  - exists s. auto.
  - destruct (effects_engineInv v s Hinv ltac:(lia)) as (s' & H1 & H2 & H3 & _ & H5).
    exists s'. auto.
Qed.

Lemma tick_engineInv (s : State) :
  engineInv s -> exists s', tick s = Some s' /\ engineInv s'.
Proof.
  intros Hinv. pose proof Hinv as ((Hrange & _) & _).
  unfold tick. destruct (running s); [|eauto].
  unfold duration.
  destruct (Z.leb_spec 180 (time s)).
  - destruct (setT_engineInv 180 s Hinv ltac:(lia)) as (s' & H1 & H2 & _). eauto.
  - destruct (setT_engineInv (time s + 1) s Hinv ltac:(lia)) as (s' & H1 & H2 & _). eauto.
Qed.

Lemma jump_engineInv (c : Z) (s : State) :
  0 <= c <= 180 -> engineInv s ->
  exists s', setT (Z.max (time s) c) s = Some s' /\ engineInv s'.
Proof.
  intros Hc Hinv. pose proof Hinv as ((Hrange & _) & _).
  destruct (setT_engineInv (Z.max (time s) c) s Hinv ltac:(lia)) as (s' & H1 & H2 & _).
  eauto.
Qed.

Lemma resetDemo_initial (s : State) : resetDemo s = Some initialState.
Proof.
  unfold resetDemo. rewrite effects_initial. destruct (time s =? 0); reflexivity.
Qed.

Lemma engineInv_deploy (s : State) (d : DeployStage) :
  engineInv s -> (d <> Draft -> deployEnabled s = true) ->
  engineInv (setDeployStage d s).
Proof.
  intros ((Hrange & Hen & Hst) & Hrest) Hd.
  split; [|exact Hrest].
  split; [exact Hrange|]. split; [exact Hen|].
  cbn [setDeployStage deployStage time]. intros Hne.
  specialize (Hd Hne). rewrite Hen in Hd. apply Z.leb_le, Hd.
Qed.

(** Every reachable state satisfies the invariants. *)
Lemma reachable_engineInv (s : State) : reachable s -> engineInv s.
Proof.
  induction 1 as [s Hm | s s' _ IH Ht | s s' _ IH Hj | s s' _ IH Hj
                 | s s' _ IH Hr | s _ IH | s _ IH | s _ IH].
  - rewrite mount_initial in Hm. injection Hm as <-. apply initialState_engineInv.
  - destruct (tick_engineInv s IH) as (s2 & H1 & H2). congruence.
  - destruct (jump_engineInv 160 s ltac:(lia) IH) as (s2 & H1 & H2).
    unfold jumpToDeploy in Hj. congruence.
  - destruct (jump_engineInv 120 s ltac:(lia) IH) as (s2 & H1 & H2).
    unfold jumpToKpis in Hj. congruence.
  - rewrite resetDemo_initial in Hr. injection Hr as <-. apply initialState_engineInv.
  - exact IH.
  - unfold promote. destruct (deployEnabled s) eqn:E; cbn [negb]; [|exact IH].
    destruct (deployStage s) eqn:Es; [| |exact IH];
      apply engineInv_deploy; auto.
  - apply engineInv_deploy; [exact IH|]. intros H. exfalso. apply H. reflexivity.
Qed.


(** X12.  In every reachable state the clock is within [0, 180], the deploy gate
    is open exactly when the clock is at 160 or later, and a stage beyond
    Draft is only held with the gate open. *)
Theorem reachable_clock_and_gate (s : State) (H : reachable s) :
  0 <= time s <= 180 /\
  deployEnabled s = (160 <=? time s) /\
  (deployStage s <> Draft -> deployEnabled s = true /\ 160 <= time s).
Proof.
  destruct (reachable_engineInv s H) as ((Hrange & Hen & Hst) & _).
  split; [exact Hrange|]. split; [exact Hen|].
  intros Hd. specialize (Hst Hd). split; [|exact Hst].
  rewrite Hen. apply Z.leb_le, Hst.
Qed.

(** The state after a jump to the deploy phase and one promotion. *)
Lemma reachable_clock_and_gate_witness :
  exists s : State,
    jumpToDeploy initialState = Some s /\ reachable (promote s) /\
    time (promote s) = 160 /\ deployEnabled (promote s) = true /\
    deployStage (promote s) = Staging.
Proof.
  destruct (setT_engineInv 160 initialState initialState_engineInv ltac:(cbn; lia))
    as (s & Hs & Hinv & Ht & Hst).
  change (jumpToDeploy initialState = Some s) in Hs.
  exists s. split; [exact Hs|].
  assert (Hr : reachable (promote s)).
  { apply reach_promote. eapply reach_jumpToDeploy; [|exact Hs].
    apply reach_mount, mount_initial. }
  split; [exact Hr|].
  destruct (reachable_clock_and_gate (promote s) Hr) as (_ & Hen & _).
  destruct Hinv as ((_ & Hen0 & _) & _). rewrite Ht in Hen0.
  assert (Hp : promote s = setDeployStage Staging s).
  { rewrite promote_enabled by exact Hen0. rewrite Hst. reflexivity. }
  rewrite Hp in *. cbn [setDeployStage time deployEnabled deployStage] in *.
  split; [exact Ht|]. split; [|reflexivity]. rewrite Hen, Ht. reflexivity.
Defined.

Lemma initialArtifacts_dom :
  dom initialArtifacts = (list_to_set artifactKeys : gset string).
Proof.
  unfold initialArtifacts, artifactKeys.
  rewrite !dom_insert_L, dom_empty_L. cbn. reflexivity.
Qed.

Lemma initialArtifacts_placeholder (k : string) (a : Artifact) :
  initialArtifacts !! k = Some a -> version a = 0 /\ lastUpdatedSec a = 0.
Proof.
  intros Ha.
  assert (Hk : k ∈ artifactKeys).
  { apply (elem_of_list_to_set (C := gset string)). rewrite <- initialArtifacts_dom.
    apply elem_of_dom. eauto. }
  unfold artifactKeys in Hk.
  repeat (apply elem_of_cons in Hk as [->|Hk];
          [vm_compute in Ha; injection Ha as <-; split; reflexivity|]).
  inversion Hk.
Qed.

(** X13.  In every reachable state the artifact store holds exactly the five
    entries, each under its own key, so no command ever throws: a tick, both
    jumps and a reset all return a state.  Every version is non-negative,
    every update time lies between 0 and the clock, and an entry has version
    0 exactly when it is still the placeholder of the baseline. *)
Theorem reachable_store_complete (s : State) (H : reachable s) :
  dom (artifacts s) = list_to_set artifactKeys /\
  (is_Some (tick s) /\ is_Some (jumpToDeploy s) /\
   is_Some (jumpToKpis s) /\ is_Some (resetDemo s)) /\
  (forall (k : string) (a : Artifact),
     artifacts s !! k = Some a ->
     art_key a = k /\ 0 <= version a /\ 0 <= lastUpdatedSec a <= time s /\
     (version a = 0 <-> initialArtifacts !! k = Some a)).
Proof.
  pose proof (reachable_engineInv s H) as Hinv.
  pose proof Hinv as (_ & _ & _ & _ & (Hdom & Hart)).
  split; [exact Hdom|]. split.
  - destruct (tick_engineInv s Hinv) as (s1 & -> & _).
    destruct (jump_engineInv 160 s ltac:(lia) Hinv) as (s2 & H2 & _).
    destruct (jump_engineInv 120 s ltac:(lia) Hinv) as (s3 & H3 & _).
    unfold jumpToDeploy, jumpToKpis. rewrite H2, H3, resetDemo_initial. eauto.
  - intros k a Ha. destruct (Hart k a Ha) as (H1 & H2 & H3 & H4).
    repeat split; try assumption; try lia.
    intros Hi. apply (initialArtifacts_placeholder k a Hi).
Qed.

(** The state of the first render, and the state after 78 seconds of the
    run, when the manifest and the bindings have been emitted. *)
Lemma reachable_store_complete_witness :
  (reachable initialState /\
   dom (artifacts initialState) = list_to_set artifactKeys /\
   is_Some (tick initialState)) /\
  (exists s : State,
     runFor 78 = Some s /\ reachable s /\
     dom (artifacts s) = list_to_set artifactKeys /\
     is_Some (tick s) /\ is_Some (jumpToDeploy s) /\
     is_Some (jumpToKpis s) /\ is_Some (resetDemo s)).
Proof.
  split.
  - assert (Hr : reachable initialState) by (apply reach_mount, mount_initial).
    destruct (reachable_store_complete initialState Hr) as (Hd & (Ht & _) & _).
    split; [exact Hr|]. split; [exact Hd | exact Ht].
  - destruct (runFor_scriptedRun 78) as (s & Hs & _).
    assert (Hr : reachable s) by (exact (runFor_reachable 78 s Hs)).
    destruct (reachable_store_complete s Hr) as (Hd & Hcmd & _).
    exists s. split; [exact Hs|]. split; [exact Hr|]. split; [exact Hd | exact Hcmd].
Defined.

Lemma agentStage_progress_range (id : string) (t : Z) :
  0 <= fst (agentStage id t) <= 100.
Proof.
  unfold agentStage.
  repeat match goal with |- context [String.eqb id ?k] => destruct (String.eqb id k) end;
    cbn [fst];
    first [apply stageProgress_range; [reflexivity | vm_compute; discriminate] | lia].
Qed.

Lemma scriptedLogs_prefix (id : string) (t : Z) :
  0 <= t <= 180 -> scriptedLogs id t `sublist_of` scriptedLogs id 180.
Proof.
  intros H. destruct (decide (t = 180)) as [->|Hne]; [reflexivity|].
  destruct (scriptedLogs_grow id t 180 ltac:(lia)) as (mid & ->).
  apply sublist_inserts_r. reflexivity.
Qed.

Lemma scriptedLogs_full (id : string) :
  id ∈ agentIds ->
  NoDup (scriptedLogs id 180) /\ (length (scriptedLogs id 180) <= 4)%nat.
Proof.
  intros H. unfold agentIds in H.
  repeat (apply elem_of_cons in H as [->|H];
          [split; [apply (bool_decide_unpack _); vm_compute; exact I
                  | apply Nat.leb_le; vm_compute; reflexivity]|]).
  inversion H.
Qed.

Lemma static_agent_ids (ags : list Agent) :
  map (fun a => (agent_id a, agent_name a, outputArtifacts a)) ags =
  map (fun a => (agent_id a, agent_name a, outputArtifacts a)) initialAgents ->
  map agent_id ags = agentIds.
Proof.
  intros H.
  apply (f_equal (map (fun p : string * string * list string => fst (fst p)))) in H.
  rewrite !map_map in H. exact H.
Qed.

(** X14.  In every reachable state the agents are the seven agents of the
    baseline, in order; the progress and status of each are those its window
    gives at the current clock, with progress in [0, 100]; and its log is a
    subsequence of the lines scripted for it up to the clock, so it holds no
    line twice and at most four lines. *)
Theorem reachable_agents_follow_clock (s : State) (H : reachable s) :
  map agent_id (agents s) = agentIds /\
  Forall (fun a =>
            (progress a, status a) = agentStage (agent_id a) (time s) /\
            0 <= progress a <= 100 /\
            logs a `sublist_of` scriptedLogs (agent_id a) (time s) /\
            NoDup (logs a) /\ (length (logs a) <= 4)%nat)
         (agents s).
Proof.
  destruct (reachable_engineInv s H) as ((Hrange & _) & (Hstatic & Hag) & _).
  pose proof (static_agent_ids _ Hstatic) as Hids.
  split; [exact Hids|].
  apply Forall_forall. intros a Ha.
  destruct (proj1 (Forall_forall _ _) Hag a Ha) as (Hst & Hl).
  assert (Hid : agent_id a ∈ agentIds).
  { rewrite <- Hids. apply list_elem_of_fmap. eauto. }
  destruct (scriptedLogs_full _ Hid) as (Hnd & Hlen).
  assert (Hfull : logs a `sublist_of` scriptedLogs (agent_id a) 180)
    by (etransitivity; [exact Hl | apply scriptedLogs_prefix, Hrange]).
  split; [exact Hst|]. split.
  { pose proof (agentStage_progress_range (agent_id a) (time s)) as Hp.
    rewrite <- Hst in Hp. exact Hp. }
  split; [exact Hl|]. split.
  - exact (sublist_NoDup _ _ Hnd Hfull).
  - apply sublist_length in Hfull. lia.
Qed.

(** The state after a jump to the KPI phase from the first render, and the
    state after 78 seconds of the run, where the derivation agent is Running
    at 57 percent. *)
Lemma reachable_agents_follow_clock_witness :
  (exists s : State,
     jumpToKpis initialState = Some s /\ reachable s /\
     map agent_id (agents s) = agentIds /\
     Forall (fun a => NoDup (logs a)) (agents s)) /\
  (exists s : State,
     runFor 78 = Some s /\ reachable s /\ time s = 78 /\
     map agent_id (agents s) = agentIds /\
     Forall (fun a => agent_id a = "der" -> progress a = 57 /\ status a = Running)
            (agents s)).
Proof.
  split.
  - destruct (setT_engineInv 120 initialState initialState_engineInv ltac:(cbn; lia))
      as (s & Hs & _).
    change (jumpToKpis initialState = Some s) in Hs.
    assert (Hr : reachable s).
    { eapply reach_jumpToKpis; [|exact Hs]. apply reach_mount, mount_initial. }
    exists s. split; [exact Hs|]. split; [exact Hr|].
    destruct (reachable_agents_follow_clock s Hr) as (Hids & Hall).
    split; [exact Hids|]. eapply Forall_impl; [exact Hall|].
    intros a (_ & _ & _ & Hnd & _). exact Hnd.
  - destruct (runFor_scriptedRun 78) as (s & Hs & _ & Ht).
    change (Z.min (Z.of_nat 78) 180) with 78 in Ht.
    assert (Hr : reachable s) by (exact (runFor_reachable 78 s Hs)).
    exists s. split; [exact Hs|]. split; [exact Hr|]. split; [exact Ht|].
    destruct (reachable_agents_follow_clock s Hr) as (Hids & Hall).
    split; [exact Hids|]. eapply Forall_impl; [exact Hall|].
    intros a (Hst & _) Hid. rewrite Hid, Ht in Hst.
    assert (Hder : agentStage "der" 78 = (57, Running)) by (vm_compute; reflexivity).
    rewrite Hder in Hst. injection Hst as Hp Hs'. split; assumption.
Defined.

Lemma scriptedBus_prefix (t : Z) :
  0 <= t <= 180 -> scriptedBus t `sublist_of` scriptedBus 180.
Proof.
  intros H. destruct (decide (t = 180)) as [->|Hne]; [reflexivity|].
  destruct (scriptedBus_grow t 180 ltac:(lia)) as (mid & ->).
  apply sublist_inserts_r. reflexivity.
Qed.

Lemma scriptedBus_times (t : Z) (e : BusEvent) :
  e ∈ scriptedBus t -> ev_t e ∈ busTimes /\ 1 <= ev_t e <= t.
Proof.
  unfold scriptedBus. rewrite list_elem_of_In, in_flat_map.
  intros (u & Hu & He). apply list_elem_of_In, elem_of_seqZ in Hu.
  apply list_elem_of_In in He.
  destruct (decide (u ∈ busTimes)) as [Hin|Hout].
  - destruct (busActivity_fires u [] Hin) as (evt & Hev & Ht & _).
    rewrite Hev in He. apply list_elem_of_singleton in He. subst e.
    rewrite Ht. split; [exact Hin | lia].
  - rewrite busActivity_quiet in He by exact Hout. inversion He.
Qed.

(** X15.  In every reachable state the bus log is a subsequence of the events
    scripted up to the clock: every event carries one of the thirteen
    timestamps, no later than the clock, none occurs twice, and there are at
    most thirteen, so the cap of 70 is never reached. *)
Theorem reachable_bus_within_script (s : State) (H : reachable s) :
  busEvents s `sublist_of` scriptedBus (time s) /\
  Forall (fun e => ev_t e ∈ busTimes /\ 1 <= ev_t e <= time s) (busEvents s) /\
  NoDup (busEvents s) /\ (length (busEvents s) <= 13)%nat.
Proof.
  destruct (reachable_engineInv s H) as ((Hrange & _) & _ & Hbus & _).
  unfold busInv in Hbus.
  assert (Hfull : busEvents s `sublist_of` scriptedBus 180)
    by (etransitivity; [exact Hbus | apply scriptedBus_prefix, Hrange]).
  split; [exact Hbus|]. split; [|split].
  - apply Forall_forall. intros e He. apply scriptedBus_times.
    eapply elem_of_sublist; [exact He | exact Hbus].
  - refine (sublist_NoDup _ _ _ Hfull).
    apply (NoDup_fmap_1 ev_t). apply (bool_decide_unpack _). vm_compute. exact I.
  - apply sublist_length in Hfull.
    assert (Hlen : length (scriptedBus 180) = 13%nat) by (vm_compute; reflexivity).
    lia.
Qed.

Lemma kpiSample_profile (key : string) (t : Z) :
  key ∈ kpiKeys ->
  (fst (kpiSample t key) = None <-> t <= 55) /\
  0 <= snd (kpiSample t key) <= 100 /\
  (t <= 55 -> snd (kpiSample t key) = 0) /\
  (160 <= t -> snd (kpiSample t key) = 100).
Proof.
  intros Hk. destruct (kpiSample_confidence _ Hk) as (c & Hc & Hshape).
  destruct (Z.le_gt_cases t 55) as [Hle|Hgt].
  - rewrite kpiSample_before by exact Hle. cbn.
    repeat split; intros; reflexivity || lia.
  - pose proof (kpiSample_after t key Hgt Hk) as [r Hr].
    rewrite Hr, Hshape by lia.
    destruct (confidence_value c t Hc) as (-> & H1 & H2).
    split; [split; [discriminate | lia]|]. split; [lia|]. split; [lia|].
    intros Ht. unfold conf. transitivity (Math_round 100); [|reflexivity].
    apply Math_round_Qeq. unfold lerp, phase3.
    rewrite phase_full; [ring | reflexivity |].
    rewrite Zle_Qle in Ht. change (inject_Z 160) with 160%Q in Ht. Lqa.lra.
Qed.

Lemma static_kpi_keys (ks : list KPI) :
  map (fun k => (kpi_key k, kpi_label k, unit k, target k)) ks =
  map (fun k => (kpi_key k, kpi_label k, unit k, target k)) initialKpis ->
  map kpi_key ks = kpiKeys.
Proof.
  intros H.
  apply (f_equal (map (fun p : string * string * option string * option R =>
                         fst (fst (fst p))))) in H.
  rewrite !map_map in H. exact H.
Qed.

(** X16.  In every reachable state, also after a jump, the KPIs are the five KPIs
    of the baseline, in order, and the value and confidence of each are those
    of the current clock: the value is null exactly while the clock is at 55
    or earlier, the confidence is in [0, 100], is 0 while the value is null
    and is 100 once the clock is at 160 or later. *)
Theorem reachable_kpis_follow_clock (s : State) (H : reachable s) :
  map kpi_key (kpis s) = kpiKeys /\
  Forall (fun k =>
            (value k, confidence k) = kpiSample (time s) (kpi_key k) /\
            (value k = None <-> time s <= 55) /\
            0 <= confidence k <= 100 /\
            (value k = None -> confidence k = 0) /\
            (160 <= time s -> confidence k = 100))
         (kpis s).
Proof.
  destruct (reachable_engineInv s H) as (_ & _ & _ & (Hstatic & Hk) & _).
  pose proof (static_kpi_keys _ Hstatic) as Hkeys.
  split; [exact Hkeys|].
  apply Forall_forall. intros k Hin.
  pose proof (proj1 (Forall_forall _ _) Hk k Hin) as Hs.
  assert (Hkey : kpi_key k ∈ kpiKeys).
  { rewrite <- Hkeys. apply list_elem_of_fmap. eauto. }
  destruct (kpiSample_profile (kpi_key k) (time s) Hkey) as (H1 & H2 & H3 & H4).
  rewrite <- Hs in H1, H2, H3, H4. cbn [fst snd] in *.
  split; [exact Hs|]. split; [exact H1|]. split; [exact H2|].
  split; [|exact H4]. intros Hv. apply H3, H1, Hv.
Qed.

(** The state after a jump to the deploy phase from the first render. *)
Lemma reachable_kpis_follow_clock_witness :
  exists s : State,
    jumpToDeploy initialState = Some s /\ reachable s /\ time s = 160 /\
    Forall (fun k => confidence k = 100 /\ is_Some (value k)) (kpis s).
Proof.
  destruct (setT_engineInv 160 initialState initialState_engineInv ltac:(cbn; lia))
    as (s & Hs & _ & Ht & _).
  change (jumpToDeploy initialState = Some s) in Hs.
  assert (Hr : reachable s).
  { eapply reach_jumpToDeploy; [|exact Hs]. apply reach_mount, mount_initial. }
  exists s. split; [exact Hs|]. split; [exact Hr|]. split; [exact Ht|].
  destruct (reachable_kpis_follow_clock s Hr) as (_ & Hall).
  eapply Forall_impl; [exact Hall|].
  intros k (_ & Hnull & _ & _ & Hfull). split; [apply Hfull; lia|].
  destruct (value k) as [r|]; [eauto|].
  exfalso. pose proof (proj1 Hnull eq_refl). lia.
Defined.


(** ** The untouched run in closed form *)

Lemma scriptedLogs_succ (id : string) (t : Z) :
  0 <= t ->
  scriptedLogs id (t + 1) =
  scriptedLogs id t ++ (if shouldLog id (t + 1) then [logEntry id (t + 1)] else []).
Proof.
  intros H. unfold scriptedLogs.
  rewrite seqZ_app by lia. rewrite List.filter_app, map_app. f_equal.
  replace (1 + t) with (t + 1) by lia. cbn [seqZ].
  change (seqZ (t + 1) 1) with [t + 1]. cbn [List.filter].
  destruct (shouldLog id (t + 1)); reflexivity.
Qed.

Lemma scriptedBus_succ (t : Z) :
  0 <= t -> scriptedBus (t + 1) = scriptedBus t ++ busActivity (t + 1) [].
Proof.
  intros H. unfold scriptedBus.
  rewrite seqZ_app by lia. rewrite List.flat_map_app. f_equal.
  replace (1 + t) with (t + 1) by lia.
  change (seqZ (t + 1) 1) with [t + 1]. cbn [List.flat_map]. apply app_nil_r.
Qed.

Lemma projectAgent_agentAt (t : Z) (a0 : Agent) :
  0 <= t < 180 -> agent_id a0 ∈ agentIds ->
  projectAgent (t + 1) (agentAt t a0) = agentAt (t + 1) a0.
Proof.
  intros Ht Hid.
  destruct (projectAgent_static (t + 1) (agentAt t a0)) as (Hn & Ho).
  pose proof (projectAgent_stage (t + 1) (agentAt t a0)) as Hst.
  cbn [agentAt agent_id] in Hst.
  apply Agent_eq.
  - rewrite projectAgent_id. reflexivity.
  - rewrite Hn. reflexivity.
  - cbn [agentAt status]. rewrite <- Hst. reflexivity.
  - cbn [agentAt progress]. rewrite <- Hst. reflexivity.
  - rewrite Ho. reflexivity.
  - rewrite projectAgent_logs. cbn [agentAt agent_id logs].
    rewrite scriptedLogs_succ by lia.
    destruct (shouldLog (agent_id a0) (t + 1)) eqn:E; [|symmetry; apply app_nil_r].
    apply sliceLast_short.
    pose proof (scriptedLogs_succ (agent_id a0) t ltac:(lia)) as Hs.
    rewrite E in Hs. rewrite <- Hs.
    pose proof (sublist_length _ _ (scriptedLogs_prefix (agent_id a0) (t + 1) ltac:(lia))) as Hl.
    destruct (scriptedLogs_full _ Hid) as (_ & H4). lia.
Qed.

Lemma projectAgents_agentAt (t : Z) :
  0 <= t < 180 ->
  projectAgents (t + 1) (map (agentAt t) initialAgents) =
  map (agentAt (t + 1)) initialAgents.
Proof.
  intros Ht. unfold projectAgents. rewrite map_map.
  apply map_ext_in. intros a0 Ha. apply projectAgent_agentAt; [exact Ht|].
  change agentIds with (map agent_id initialAgents).
  apply list_elem_of_fmap. exists a0. split; [reflexivity|].
  apply list_elem_of_In, Ha.
Qed.

Lemma busActivity_scriptedBus (t : Z) :
  0 <= t < 180 -> busActivity (t + 1) (scriptedBus t) = scriptedBus (t + 1).
Proof.
  intros Ht. rewrite scriptedBus_succ by lia.
  destruct (decide (t + 1 ∈ busTimes)) as [Hin|Hout].
  - destruct (busActivity_fires (t + 1) (scriptedBus t) Hin) as (evt & -> & _ & ->).
    rewrite pushBus_drop.
    pose proof (sublist_length _ _ (scriptedBus_prefix t ltac:(lia))) as Hl.
    assert (Hlen : length (scriptedBus 180) = 13%nat) by (vm_compute; reflexivity).
    replace (S (length (scriptedBus t)) - 70)%nat with 0%nat by lia. reflexivity.
  - rewrite !busActivity_quiet by exact Hout. symmetry. apply app_nil_r.
Qed.

Lemma versionOf_Some (m : gmap string Artifact) (k : string) (x : Z) :
  versionOf m k = Some x <-> exists a, m !! k = Some a /\ version a = x.
Proof.
  unfold versionOf. destruct (m !! k) as [a|]; cbn; split.
  - intros [= <-]. eauto.
  - intros (a' & [= <-] & <-). reflexivity.
  - discriminate.
  - intros (a' & H & _). discriminate.
Qed.

Lemma versionOf_bump_eq (m : gmap string Artifact) (k summ : string) (t x : Z)
    (d : list DiffLine) (m' : gmap string Artifact) :
  versionOf m k = Some x -> bump k t summ d m = Some m' ->
  versionOf m' k = Some (x + 1).
Proof.
  intros Hv Hb. apply versionOf_Some in Hv as (a & Ha & <-).
  unfold bump in Hb. rewrite Ha in Hb. cbn in Hb. injection Hb as <-.
  unfold versionOf. rewrite lookup_insert_eq. reflexivity.
Qed.

Lemma versionOf_bump_ne (m : gmap string Artifact) (k k' summ : string) (t : Z)
    (d : list DiffLine) (m' : gmap string Artifact) :
  k <> k' -> bump k t summ d m = Some m' -> versionOf m' k' = versionOf m k'.
Proof.
  intros Hne Hb. unfold bump in Hb.
  destruct (m !! k) as [a|]; [|discriminate]. cbn in Hb. injection Hb as <-.
  unfold versionOf. rewrite lookup_insert_ne by exact Hne. reflexivity.
Qed.

Lemma emitArtifacts_scriptedVersions (t : Z) (m m' : gmap string Artifact) :
  0 <= t < 180 -> scriptedVersions t m ->
  emitArtifacts (t + 1) m = Some m' -> scriptedVersions (t + 1) m'.
Proof.
  intros Ht (H1 & H2 & H3 & H4 & H5) He.
  destruct (decide (t + 1 ∈ artifactThresholds)) as [Hin|Hout].
  - unfold artifactThresholds in Hin.
    repeat (apply elem_of_cons in Hin as [Hc|Hin];
      [ match type of Hc with _ = ?c =>
          let v := eval vm_compute in (c - 1) in
          assert (Heq : t = v) by lia; clear Hc; subst t;
          change (v + 1) with c in *
        end;
        first [ rewrite emitArtifacts_32 in He | rewrite emitArtifacts_74 in He
              | rewrite emitArtifacts_95 in He | rewrite emitArtifacts_120 in He
              | rewrite emitArtifacts_140 in He | rewrite emitArtifacts_160 in He ];
        unfold scriptedVersions;
        (split; [|split; [|split; [|split]]]);
        first [ exact (versionOf_bump_eq _ _ _ _ _ _ _ H1 He)
              | exact (versionOf_bump_eq _ _ _ _ _ _ _ H2 He)
              | exact (versionOf_bump_eq _ _ _ _ _ _ _ H3 He)
              | exact (versionOf_bump_eq _ _ _ _ _ _ _ H4 He)
              | exact (versionOf_bump_eq _ _ _ _ _ _ _ H5 He)
              | erewrite versionOf_bump_ne; [ | | exact He];
                [ first [exact H1 | exact H2 | exact H3 | exact H4 | exact H5]
                | discriminate ] ]
      | ]).
    inversion Hin.
  - rewrite emitArtifacts_quiet in He by exact Hout. injection He as <-.
    assert (Hsame : forall c, c ∈ artifactThresholds -> (c <=? t + 1) = (c <=? t)).
    { intros c Hc. destruct (Z.leb_spec c (t + 1)), (Z.leb_spec c t); try reflexivity; try lia.
      exfalso. apply Hout. replace (t + 1) with c by lia. exact Hc. }
    unfold scriptedVersions.
    rewrite !Hsame by (apply (bool_decide_unpack _); vm_compute; exact I).
    auto.
Qed.

Lemma initialState_closedRun : closedRun initialState.
Proof.
  split; [reflexivity|]. split; [apply initialArtifacts_complete|].
  split; [reflexivity|]. split; [reflexivity|].
  repeat split.
Qed.

Lemma tick_closedRun (s : State) :
  0 <= time s <= 180 -> closedRun s ->
  exists s', tick s = Some s' /\ closedRun s' /\ time s' = Z.min (time s + 1) 180.
Proof.
  intros Hrange Hc. pose proof Hc as (Hrun & Hm & Hag & Hbus & Hver).
  destruct (Z.ltb_spec (time s) 180) as [Hlt|Hge].
  - destruct (tick_running s Hrun Hlt Hm)
      as (s' & Ht & H1 & H2 & H3 & H4 & H5 & H6 & _).
    exists s'. split; [exact Ht|]. split; [|lia].
    unfold closedRun. rewrite H1, H2, H3, H6, Hag, Hbus.
    split; [reflexivity|]. split; [exact H5|].
    split; [apply projectAgents_agentAt; lia|].
    split; [apply busActivity_scriptedBus; lia|].
    eapply emitArtifacts_scriptedVersions; [|exact Hver|exact H4]. lia.
  - exists s. rewrite tick_paused by exact Hrun.
    split; [reflexivity|]. split; [exact Hc | lia].
Qed.

Lemma runFor_closedRun (n : nat) :
  exists s, runFor n = Some s /\ closedRun s /\ time s = Z.min (Z.of_nat n) 180.
Proof.
  induction n as [|n (s & Hs & Hc & Ht)].
  - exists initialState. unfold runFor. rewrite mount_initial.
    split; [reflexivity|]. split; [apply initialState_closedRun | reflexivity].
  - destruct (tick_closedRun s ltac:(lia) Hc) as (s' & Hs' & Hc' & Ht').
    exists s'. rewrite runFor_S, Hs. split; [exact Hs'|]. split; [exact Hc'|]. lia.
Qed.

(** X15 on the state after 40 seconds of the run, whose bus log holds the
    four events of seconds 2, 8, 33 and 38. *)
Lemma reachable_bus_within_script_witness :
  exists s : State,
    runFor 40 = Some s /\ reachable s /\ time s = 40 /\
    map ev_t (busEvents s) = [2; 8; 33; 38] /\
    busEvents s `sublist_of` scriptedBus 40 /\
    Forall (fun e => ev_t e ∈ busTimes /\ 1 <= ev_t e <= 40) (busEvents s) /\
    NoDup (busEvents s) /\ (length (busEvents s) <= 13)%nat.
Proof.
  destruct (runFor_closedRun 40) as (s & Hs & (_ & _ & _ & Hbus & _) & Ht).
  change (Z.min (Z.of_nat 40) 180) with 40 in Ht.
  assert (Hr : reachable s) by (exact (runFor_reachable 40 s Hs)).
  destruct (reachable_bus_within_script s Hr) as (Hsub & Hall & Hnd & Hlen).
  rewrite Ht in Hsub, Hall.
  exists s. split; [exact Hs|]. split; [exact Hr|]. split; [exact Ht|].
  split; [rewrite Hbus, Ht; vm_compute; reflexivity|].
  split; [exact Hsub|]. split; [exact Hall|]. split; [exact Hnd | exact Hlen].
Defined.

Lemma window_done (t start end_ : Z) :
  start < end_ -> end_ - start <= maxWidth -> end_ <= t ->
  (stageProgress t start end_,
   computeStatus (inject_Z t) (stageProgress t start end_) (inject_Z start) (inject_Z end_))
  = (100, Done).
Proof.
  intros Hw Hd He. rewrite (stageProgress_after _ _ _ Hw Hd He).
  rewrite computeStatus_integers.
  destruct (Z.ltb_spec t start); [lia|].
  destruct (Z.ltb_spec t end_); [lia|].
  destruct (Z.leb_spec end_ t); [reflexivity | lia].
Qed.

Lemma agentStage_done (id : string) (t : Z) :
  id ∈ agentIds -> 160 <= t -> agentStage id t = (100, Done).
Proof.
  intros Hid Ht. unfold agentIds in Hid.
  repeat (apply elem_of_cons in Hid as [->|Hid];
          [unfold agentStage; cbn [String.eqb Ascii.eqb Bool.eqb];
           apply window_done;
           [reflexivity | vm_compute; discriminate
           | transitivity 160; [vm_compute; discriminate | exact Ht]]|]).
  inversion Hid.
Qed.

(** X17.  After [n] seconds of an untouched run the agents are the baseline
    agents with the progress and status their windows give at the clock and
    with exactly the log lines scripted up to the clock, in order; from second
    160 on all seven are Done at 100 percent. *)
Theorem run_agents_closed_form (n : nat) :
  exists s : State,
    runFor n = Some s /\ time s = Z.min (Z.of_nat n) 180 /\
    agents s = map (agentAt (time s)) initialAgents /\
    (160 <= time s ->
     Forall (fun a => progress a = 100 /\ status a = Done) (agents s)).
Proof.
  destruct (runFor_closedRun n) as (s & Hs & (_ & _ & Hag & _) & Ht).
  exists s. split; [exact Hs|]. split; [exact Ht|]. split; [exact Hag|].
  intros Hlate. rewrite Hag. apply Forall_forall. intros a Ha.
  apply list_elem_of_fmap in Ha as (a0 & -> & Ha0).
  cbn [agentAt progress status].
  rewrite agentStage_done; [split; reflexivity | | exact Hlate].
  change agentIds with (map agent_id initialAgents).
  apply list_elem_of_fmap. eauto.
Qed.

(** The logs at the end of the run, and the progress and status of the
    seven agents at second 78. *)
Lemma run_agents_closed_form_witness :
  (exists s : State,
     runFor 180 = Some s /\
     map logs (agents s) =
     [ ["00:10 • Parsing prompt → selecting template: CabinetCooling.EC2";
        "00:18 • Creating assets: Fan_A, Fan_B, Cabinet, PLC_Gateway";
        "00:26 • Setting parameters: variable_speed, monthly_kpis=true";
        "00:32 • Manifest compiled (draft v1)"];
       [];
       ["00:40 • Browsing Modbus registers…";
        "00:52 • Binding MQTT faults topic → twin.faults";
        "01:08 • Creating rollups: 1s→1m→1h";
        "01:14 • Bindings compiled (draft v1)"];
       [];
       ["01:16 • Selecting KPI pack: Energy + Efficiency + Utilization + Risk";
        "01:30 • Defining monthly windows + baselines";
        "01:48 • Adding confidence scoring and thresholds";
        "02:00 • KPI pack compiled (draft v1)"];
       ["01:44 • Generating 3D layout + AR anchors";
        "01:58 • Placing labels: RPM, kW, Status";
        "02:12 • Exporting Web viewer + AR overlay spec";
        "02:20 • Views compiled (draft v1)"];
       ["02:16 • Validating dependencies: bindings→kpis→views";
        "02:28 • PASS: 0 errors, 2 warnings (units normalized)";
        "02:40 • Ready for staging deploy"] ]) /\
  (exists s : State,
     runFor 78 = Some s /\
     map (fun a => (agent_id a, progress a, status a)) (agents s) =
     [ ("spec", 100, Done); ("topo", 100, Done); ("conn", 100, Done);
       ("der", 57, Running); ("kpi", 16, Planning); ("view", 0, Queued);
       ("val", 0, Queued) ]).
Proof.
  split.
  - destruct (run_agents_closed_form 180) as (s & Hs & Ht & Hag & _).
    exists s. split; [exact Hs|]. rewrite Hag, Ht. vm_compute. reflexivity.
  - destruct (run_agents_closed_form 78) as (s & Hs & Ht & Hag & _).
    exists s. split; [exact Hs|]. rewrite Hag, Ht. vm_compute. reflexivity.
Defined.

Lemma scriptedBus_times_upto (t : Z) :
  0 <= t <= 180 ->
  map ev_t (scriptedBus t) = List.filter (fun c => c <=? t) busTimes.
Proof.
  intros Ht.
  pose proof (forallb_seqZ
    (fun t => bool_decide (map ev_t (scriptedBus t) =
                           List.filter (fun c => c <=? t) busTimes)) 0 181) as H.
  cbv beta in H. specialize (H ltac:(vm_compute; reflexivity) t ltac:(lia)).
  apply bool_decide_eq_true in H. exact H.
Qed.

(** X18.  After [n] seconds of an untouched run the bus log holds exactly the
    events scripted up to the clock, in order: one per timestamp of the script
    that the clock has reached. *)
Theorem run_bus_closed_form (n : nat) :
  exists s : State,
    runFor n = Some s /\ time s = Z.min (Z.of_nat n) 180 /\
    busEvents s = scriptedBus (time s) /\
    map ev_t (busEvents s) = List.filter (fun c => c <=? time s) busTimes.
Proof.
  destruct (runFor_closedRun n) as (s & Hs & (_ & _ & _ & Hbus & _) & Ht).
  exists s. split; [exact Hs|]. split; [exact Ht|]. split; [exact Hbus|].
  rewrite Hbus. apply scriptedBus_times_upto. lia.
Qed.

(** The bus log at second 40. *)
Lemma run_bus_closed_form_witness :
  exists s : State,
    runFor 40 = Some s /\
    busEvents s =
    [ mkBusEvent 2 TimescaleDB info "Workspace created: ebm-papst/cabinetA";
      mkBusEvent 8 TimescaleDB ok "Twin PR branch: draft/v1 created";
      mkBusEvent 33 ModbusTCP info "Connecting to PLC gateway 10.0.2.31:502";
      mkBusEvent 38 ModbusTCP ok "Handshake OK. Reading holding registers…" ].
Proof.
  destruct (run_bus_closed_form 40) as (s & Hs & Ht & Hbus & _).
  exists s. split; [exact Hs|]. rewrite Hbus, Ht. vm_compute. reflexivity.
Defined.

(** X19.  After [n] seconds of an untouched run each artifact's version is the
    number of its thresholds the clock has reached: 32 for the manifest, 74
    and 95 for the bindings, 120 for the KPIs, 140 for the views and 160 for
    the validation report; so the run ends with versions 1, 2, 1, 1, 1. *)
Theorem run_versions_closed_form (n : nat) :
  exists s : State,
    runFor n = Some s /\ time s = Z.min (Z.of_nat n) 180 /\
    versionOf (artifacts s) "manifest" = Some (Z.b2z (32 <=? time s)) /\
    versionOf (artifacts s) "bindings" =
      Some (Z.b2z (74 <=? time s) + Z.b2z (95 <=? time s)) /\
    versionOf (artifacts s) "kpis" = Some (Z.b2z (120 <=? time s)) /\
    versionOf (artifacts s) "views" = Some (Z.b2z (140 <=? time s)) /\
    versionOf (artifacts s) "validation" = Some (Z.b2z (160 <=? time s)).
Proof.
  destruct (runFor_closedRun n) as (s & Hs & (_ & _ & _ & _ & Hver) & Ht).
  exists s. split; [exact Hs|]. split; [exact Ht|]. exact Hver.
Qed.

(** The versions at the end of the run. *)
Lemma run_versions_closed_form_witness :
  exists s : State,
    runFor 180 = Some s /\
    map (versionOf (artifacts s)) artifactKeys =
    [Some 1; Some 2; Some 1; Some 1; Some 1].
Proof.
  destruct (run_versions_closed_form 180) as (s & Hs & Ht & H1 & H2 & H3 & H4 & H5).
  exists s. split; [exact Hs|].
  cbn [map artifactKeys]. rewrite H1, H2, H3, H4, H5, Ht. reflexivity.
Defined.

Lemma runFor_past_end (k : nat) :
  exists s : State,
    runFor 180 = Some s /\ runFor (180 + k) = Some s /\
    time s = 180 /\ running s = false /\ tick s = Some s.
Proof.
  destruct (runFor_closedRun 180) as (s & Hs & (Hrun & _) & Ht).
  change (Z.min (Z.of_nat 180) 180) with 180 in Ht.
  rewrite Ht in Hrun. change (180 <? 180) with false in Hrun.
  exists s. split; [exact Hs|].
  split; [|split; [exact Ht|split; [exact Hrun | apply tick_paused, Hrun]]].
  induction k as [|k IH].
  - rewrite Nat.add_0_r. exact Hs.
  - rewrite Nat.add_succ_r, runFor_S, IH. cbn. apply tick_paused, Hrun.
Qed.

(** X20.  The clock of an untouched run counts the seconds while running and stops
    at the duration: before second 180 the engine is running with the clock at
    [n]; from second 180 on the state no longer changes, the engine is paused
    at 180 and a further tick does nothing. *)
Theorem run_stops_at_duration (n : nat) :
  ((n < 180)%nat ->
   exists s : State, runFor n = Some s /\ time s = Z.of_nat n /\ running s = true) /\
  ((180 <= n)%nat ->
   runFor n = runFor 180 /\
   exists s : State,
     runFor n = Some s /\ time s = 180 /\ running s = false /\ tick s = Some s).
Proof.
  split.
  - intros Hn. destruct (runFor_closedRun n) as (s & Hs & (Hrun & _) & Ht).
    exists s. split; [exact Hs|]. split; [lia|].
    rewrite Hrun. apply Z.ltb_lt. lia.
  - intros Hn. destruct (runFor_past_end (n - 180)) as (s & H0 & Hk & Ht & Hrun & Htick).
    replace (180 + (n - 180))%nat with n in Hk by lia.
    split; [congruence|]. exists s. auto.
Qed.

(** The run at seconds 100 and 200. *)
Lemma run_stops_at_duration_witness :
  (exists s : State, runFor 100 = Some s /\ time s = 100 /\ running s = true) /\
  runFor 200 = runFor 180.
Proof.
  split.
  - exact (proj1 (run_stops_at_duration 100) ltac:(lia)).
  - exact (proj1 (proj2 (run_stops_at_duration 200) ltac:(lia))).
Defined.


(** ** Jumps *)

Lemma jump_effects (c : Z) (s : State) :
  storeComplete (artifacts s) -> time s < c ->
  exists s', setT (Z.max (time s) c) s = Some s' /\
    time s' = c /\
    emitArtifacts c (artifacts s) = Some (artifacts s') /\
    busEvents s' = busActivity c (busEvents s) /\
    agents s' = projectAgents c (agents s) /\
    deployEnabled s' = (if 160 <=? c then true else deployEnabled s).
Proof.
  intros Hm Ht. rewrite Z.max_r by lia. unfold setT.
  destruct (Z.eqb_spec c (time s)); [lia|].
  destruct (effects_total (withTime c s) Hm) as (s' & Hs').
  exists s'. split; [exact Hs'|].
  destruct (effects_inv _ _ Hs') as (H1 & _ & H3 & H4 & H5 & _ & _ & H8).
  cbn [withTime time agents artifacts busEvents deployEnabled] in *.
  auto.
Qed.

Lemma jump_noop (c : Z) (s : State) :
  c <= time s -> setT (Z.max (time s) c) s = Some s.
Proof.
  intros H. rewrite Z.max_l by lia. unfold setT. rewrite Z.eqb_refl. reflexivity.
Qed.

(** X21.  A jump fires only the emissions of the second it lands on.  From any
    state with a complete store and a clock before 160, "Jump to Deploy" sets
    the clock to 160, opens the gate, bumps the validation report and nothing
    else in the store (the thresholds it passes over are skipped) and appends
    no bus event; "Jump to KPIs" from before 120 likewise lands on 120, bumps
    only the KPI pack and leaves the bus log and the gate as they were.  A
    jump whose target the clock has already reached changes nothing. *)
Theorem jump_skips_emissions :
  (forall s : State, storeComplete (artifacts s) -> time s < 160 ->
   exists s' : State,
     jumpToDeploy s = Some s' /\ time s' = 160 /\ deployEnabled s' = true /\
     bumpedOnly "validation" 160 validationSummary validationDiff
       (artifacts s) (artifacts s') /\
     busEvents s' = busEvents s) /\
  (forall s : State, 160 <= time s -> jumpToDeploy s = Some s) /\
  (forall s : State, storeComplete (artifacts s) -> time s < 120 ->
   exists s' : State,
     jumpToKpis s = Some s' /\ time s' = 120 /\
     deployEnabled s' = deployEnabled s /\
     bumpedOnly "kpis" 120 kpisSummary kpisDiff (artifacts s) (artifacts s') /\
     busEvents s' = busEvents s) /\
  (forall s : State, 120 <= time s -> jumpToKpis s = Some s).
Proof.
  split; [|split; [|split]].
  - intros s Hm Ht.
    destruct (jump_effects 160 s Hm Ht) as (s' & Hs' & H1 & H2 & H3 & _ & H5).
    exists s'. split; [exact Hs'|]. split; [exact H1|]. split; [exact H5|]. split.
    + eapply emitArtifacts_bumpedOnly;
        [exact Hm | artifact_key | apply emitArtifacts_160 | exact H2].
    + rewrite H3. apply busActivity_quiet.
      apply (bool_decide_unpack _). vm_compute. exact I.
  - intros s Ht. apply jump_noop, Ht.
  - intros s Hm Ht.
    destruct (jump_effects 120 s Hm Ht) as (s' & Hs' & H1 & H2 & H3 & _ & H5).
    exists s'. split; [exact Hs'|]. split; [exact H1|]. split; [exact H5|]. split.
    + eapply emitArtifacts_bumpedOnly;
        [exact Hm | artifact_key | apply emitArtifacts_120 | exact H2].
    + rewrite H3. apply busActivity_quiet.
      apply (bool_decide_unpack _). vm_compute. exact I.
  - intros s Ht. apply jump_noop, Ht.
Qed.

(** A jump to the deploy phase straight from the first render: only the
    validation report has a version. *)
Lemma jump_skips_emissions_witness :
  exists s' : State,
    jumpToDeploy initialState = Some s' /\ time s' = 160 /\
    map (versionOf (artifacts s')) artifactKeys =
      [Some 0; Some 0; Some 0; Some 0; Some 1] /\
    busEvents s' = [].
Proof.
  destruct (proj1 jump_skips_emissions initialState initialArtifacts_complete
              ltac:(cbn; lia))
    as (s' & Hs' & Ht & _ & ((a & a' & Ha & Ha' & Hv & _) & Hrest) & Hbus).
  exists s'. split; [exact Hs'|]. split; [exact Ht|]. split; [|exact Hbus].
  cbn [map artifactKeys]. unfold versionOf.
  rewrite !Hrest by discriminate. rewrite Ha'.
  cbn [fmap option_fmap option_map]. rewrite Hv.
  cbn [artifacts initialState] in Ha. vm_compute in Ha. injection Ha as <-.
  vm_compute. reflexivity.
Defined.

Lemma setT_step (v : Z) (s s' : State) :
  setT v s = Some s' ->
  s' = s \/
  (time s' = v /\
   emitArtifacts v (artifacts s) = Some (artifacts s') /\
   deployStage s' = deployStage s /\
   deployEnabled s' = (if 160 <=? v then true else deployEnabled s)).
Proof.
  unfold setT. destruct (v =? time s).
  - intros [= <-]. left. reflexivity.
  - intros He. right.
    destruct (effects_inv _ _ He) as (H1 & _ & _ & H4 & _ & _ & H7 & H8).
    cbn [withTime time artifacts deployStage deployEnabled] in *. auto.
Qed.

(** X22.  Neither a tick nor a jump ever moves the engine backwards: from a state
    whose clock is at most 180, the clock does not decrease and stays at most
    180, an open deploy gate stays open, the stage is kept, and no artifact
    loses its entry or has its version lowered. *)
Theorem tick_and_jumps_only_advance (s s' : State)
    (Hs : time s <= 180)
    (Hc : tick s = Some s' \/ jumpToDeploy s = Some s' \/ jumpToKpis s = Some s') :
  time s <= time s' <= 180 /\
  (deployEnabled s = true -> deployEnabled s' = true) /\
  deployStage s' = deployStage s /\
  (forall (k : string) (a : Artifact),
     artifacts s !! k = Some a ->
     exists a' : Artifact, artifacts s' !! k = Some a' /\ version a <= version a').
Proof.
  assert (Hset : exists v, time s <= v <= 180 /\ (s' = s \/ setT v s = Some s')).
  { destruct Hc as [Ht|[Hj|Hj]].
    - unfold tick in Ht. destruct (running s).
      + unfold duration in Ht. destruct (Z.leb_spec 180 (time s)).
        * exists 180. split; [lia | right; exact Ht].
        * exists (time s + 1). split; [lia | right; exact Ht].
      + exists (time s). split; [lia | left; congruence].
    - exists (Z.max (time s) 160). split; [lia | right; exact Hj].
    - exists (Z.max (time s) 120). split; [lia | right; exact Hj]. }
  destruct Hset as (v & Hv & [->|Hset]).
  { split; [lia|]. split; [auto|]. split; [reflexivity|]. intros k a Ha.
    exists a. split; [exact Ha | lia]. }
  destruct (setT_step v s s' Hset) as [->|(H1 & H2 & H3 & H4)].
  { split; [lia|]. split; [auto|]. split; [reflexivity|]. intros k a Ha.
    exists a. split; [exact Ha | lia]. }
  split; [lia|]. split; [|split; [exact H3|]].
  - intros He. rewrite H4, He. destruct (160 <=? v); reflexivity.
  - intros k a Ha.
    destruct (emitArtifacts_inv _ _ _ H2) as [->|(k0 & summ & d & a0 & Ha0 & ->)].
    + exists a. split; [exact Ha | lia].
    + destruct (decide (k0 = k)) as [->|Hne].
      * rewrite lookup_insert_eq. eexists. split; [reflexivity|].
        rewrite Ha in Ha0. injection Ha0 as <-. cbn. lia.
      * rewrite lookup_insert_ne by exact Hne. exists a. split; [exact Ha | lia].
Qed.

(** The first tick after the first render. *)
Lemma tick_and_jumps_only_advance_witness :
  exists s' : State,
    tick initialState = Some s' /\ time initialState <= time s' <= 180.
Proof.
  destruct (tick_engineInv initialState initialState_engineInv) as (s' & Hs' & _).
  exists s'. split; [exact Hs'|].
  exact (proj1 (tick_and_jumps_only_advance initialState s' ltac:(cbn; lia)
                  (or_introl Hs'))).
Defined.
